(** * MCP2210 Configurator: the configurator window's device orchestration

    A shallow embedding of [src/configuratorwindow.cpp]: the task list that
    writes and verifies the NVRAM configuration, the operation validator and
    the search for the nearest compatible SPI bit rate.

    Conventions.
    - [quint8], [quint16], [quint32] and [int] values are [Z]; where the
      source computes on [quint32] the reduction modulo [2^32] is written out.
    - A [QString] is the list of its UTF-16 code units.
    - The window object is a record; each member function is a function from
      window to window.
    - The [MCP2210] device class is an interface (a type class over the device
      state); its member functions take the device state and return a
      [Reply]. *)

From Stdlib Require Import ZArith NArith List String Ascii Bool Lia.
Import ListNotations.
Open Scope Z_scope.

(* ================================================================== *)
(** * Qt strings *)

Module QString.

(** One UTF-16 code unit. *)
Definition QChar := N.

Definition t := list QChar.

(** An ASCII literal of the source as a [QString]. *)
Definition lit (s : string) : t := map N_of_ascii (list_ascii_of_string s).

(** ["\n"] and the en dash of the bulleted error list (U+2013). *)
Definition LF : QChar := 10%N.
Definition EN_DASH : QChar := 8211%N.
Definition SPACE : QChar := 32%N.

Fixpoint eqb (a b : t) : bool :=
  match a, b with
  | [], [] => true
  | x :: a', y :: b' => N.eqb x y && eqb a' b'
  | _, _ => false
  end.

(** [QString::chop(n)]: removes [n] characters from the end; the result is
    empty when [n] is at least the size. *)
Definition chop (n : nat) (s : t) : t := firstn (List.length s - n) s.

Fixpoint startsWith (p s : t) : bool :=
  match p, s with
  | [], _ => true
  | x :: p', y :: s' => N.eqb x y && startsWith p' s'
  | _ :: _, [] => false
  end.

(** The scan of [QString::replace(before, after)] for a non-empty [before]:
    left to right, occurrences do not overlap; [skip] counts the characters
    of a matched occurrence still to be dropped. *)
Fixpoint replace_scan (before after : t) (skip : nat) (s : t) : t :=
  match s with
  | [] => []
  | c :: s' =>
      match skip with
      | S k => replace_scan before after k s'
      | O =>
          if startsWith before s
          then after ++ replace_scan before after (List.length before - 1) s'
          else c :: replace_scan before after 0 s'
      end
  end.

(** [QString::replace(before, after)]; an empty [before] matches before
    every character and at the end. *)
Definition replace (before after s : t) : t :=
  match before with
  | [] => after ++ flat_map (fun c => c :: after) s
  | _ :: _ => replace_scan before after 0 s
  end.

(** [QString::arg(a1, a2)] on a format whose place markers are [%1] and
    [%2]: both are replaced in one pass, so a marker inside an argument is
    not substituted again. *)
Fixpoint arg2 (fmt a1 a2 : t) : t :=
  match fmt with
  | [] => []
  | c :: fmt' =>
      match fmt' with
      | d :: fmt'' =>
          if N.eqb c 37 && N.eqb d 49 then a1 ++ arg2 fmt'' a1 a2
          else if N.eqb c 37 && N.eqb d 50 then a2 ++ arg2 fmt'' a1 a2
          else c :: arg2 fmt' a1 a2
      | [] => [c]
      end
  end.

(** The lines of a text: the pieces between the occurrences of [sep]. *)
Fixpoint split (sep : QChar) (s : t) : list t :=
  match s with
  | [] => [[]]
  | c :: s' =>
      if N.eqb c sep then [] :: split sep s'
      else match split sep s' with
           | l :: ls => (c :: l) :: ls
           | [] => [[c]]
           end
  end.

(** [QStringList::join]. *)
Definition join (sep : t) (ls : list t) : t :=
  match ls with
  | [] => []
  | l :: ls' => l ++ flat_map (fun x => sep ++ x) ls'
  end.

End QString.

(* ================================================================== *)
(** * The data model *)

(** The structures below are declared in headers of the device library that
    this file includes ([mcp2210.h], [configuration.h]); their fields are the
    ones [configuratorwindow.cpp] reads and writes. *)

Module USBParameters.
Record t := mk {
  vid : Z;          (* quint16 *)
  pid : Z;          (* quint16 *)
  maxpow : Z;       (* quint8, in units of 2 mA *)
  powmode : Z;      (* quint8 *)
  rmwakeup : bool
}.
(** Modelled from the spec: [operator ==] of the structure is missing from
    the sources; "Equality is structural field-by-field comparison". *)
Definition eqb (a b : t) : bool :=
  Z.eqb (vid a) (vid b) && Z.eqb (pid a) (pid b) &&
  Z.eqb (maxpow a) (maxpow b) && Z.eqb (powmode a) (powmode b) &&
  Bool.eqb (rmwakeup a) (rmwakeup b).
End USBParameters.

Module ChipSettings.
Record t := mk {
  gp0 : Z; gp1 : Z; gp2 : Z; gp3 : Z; gp4 : Z;
  gp5 : Z; gp6 : Z; gp7 : Z; gp8 : Z;   (* quint8 pin configurations *)
  gpdir : Z;        (* quint8, bit i set: pin i is an input *)
  gpout : Z;        (* quint8, default output values *)
  rmwakeup : bool;
  intmode : Z;      (* quint8 *)
  nrelspi : bool
}.
(** Modelled from the spec: [operator ==] of the structure is missing from
    the sources; "Equality is structural field-by-field comparison". *)
Definition eqb (a b : t) : bool :=
  Z.eqb (gp0 a) (gp0 b) && Z.eqb (gp1 a) (gp1 b) && Z.eqb (gp2 a) (gp2 b) &&
  Z.eqb (gp3 a) (gp3 b) && Z.eqb (gp4 a) (gp4 b) && Z.eqb (gp5 a) (gp5 b) &&
  Z.eqb (gp6 a) (gp6 b) && Z.eqb (gp7 a) (gp7 b) && Z.eqb (gp8 a) (gp8 b) &&
  Z.eqb (gpdir a) (gpdir b) && Z.eqb (gpout a) (gpout b) &&
  Bool.eqb (rmwakeup a) (rmwakeup b) && Z.eqb (intmode a) (intmode b) &&
  Bool.eqb (nrelspi a) (nrelspi b).
End ChipSettings.

Module SPISettings.
Record t := mk {
  nbytes : Z;       (* bytes per SPI transaction *)
  bitrate : Z;      (* quint32, Hz *)
  mode : Z;         (* quint8, 0 to 3 *)
  actcs : Z;        (* active chip select values *)
  idlcs : Z;        (* idle chip select values *)
  csdtdly : Z;      (* chip select to data delay *)
  dtcsdly : Z;      (* data to chip select delay *)
  itbytdly : Z      (* delay between bytes *)
}.
(** Modelled from the spec: [operator ==] of the structure is missing from
    the sources; "Equality is structural field-by-field comparison". *)
Definition eqb (a b : t) : bool :=
  Z.eqb (nbytes a) (nbytes b) && Z.eqb (bitrate a) (bitrate b) &&
  Z.eqb (mode a) (mode b) && Z.eqb (actcs a) (actcs b) &&
  Z.eqb (idlcs a) (idlcs b) && Z.eqb (csdtdly a) (csdtdly b) &&
  Z.eqb (dtcsdly a) (dtcsdly b) && Z.eqb (itbytdly a) (itbytdly b).
(** [testSPISettings.bitrate = testBitrate]. *)
Definition set_bitrate (s : t) (b : Z) : t :=
  mk (nbytes s) b (mode s) (actcs s) (idlcs s) (csdtdly s) (dtcsdly s)
     (itbytdly s).
End SPISettings.

Module Configuration.
Record t := mk {
  manufacturer : QString.t;
  product : QString.t;
  usbParameters : USBParameters.t;
  chipSettings : ChipSettings.t;
  spiSettings : SPISettings.t
}.
(** Modelled from the spec: [Configuration::operator ==] is missing from the
    sources; "Equality is structural field-by-field comparison". *)
Definition eqb (a b : t) : bool :=
  QString.eqb (manufacturer a) (manufacturer b) &&
  QString.eqb (product a) (product b) &&
  USBParameters.eqb (usbParameters a) (usbParameters b) &&
  ChipSettings.eqb (chipSettings a) (chipSettings b) &&
  SPISettings.eqb (spiSettings a) (spiSettings b).
End Configuration.

(* ================================================================== *)
(** * The device class *)

(** Modelled from the spec: the device class [MCP2210] ([mcp2210.h],
    [mcp2210.cpp]) is missing from the sources; "Each operation reports an
    error count and error text; never throws", and every operation takes the
    two accumulators [int &errcnt] and [QString &errstr] of its caller.

    A [Reply] is what a member function of [MCP2210] leaves behind: its
    return value, the device afterwards, and what it added to [errcnt] and
    appended to [errstr]. *)
Record Reply (Dev A : Type) := mkReply {
  value : A;
  after : Dev;
  nerr : N;
  text : QString.t
}.
Arguments mkReply {Dev A}.
Arguments value {Dev A}.
Arguments after {Dev A}.
Arguments nerr {Dev A}.
Arguments text {Dev A}.

(** Modelled from the spec: the member functions and constants of [MCP2210]
    that the window uses, with the parameters and results of their uses in
    [configuratorwindow.cpp]. *)
Module MCP2210.
Class t (Dev : Type) := {
  (* constants of the class *)
  PCGPIO : Z;
  PCFUNC : Z;
  ACNONE : Z;
  ACPASSWORD : Z;
  ACLOCKED : Z;
  (* volatile settings *)
  getSPISettings : Dev -> Reply Dev SPISettings.t;
  configureSPISettings : SPISettings.t -> Dev -> Reply Dev unit;
  configureChipSettings : ChipSettings.t -> Dev -> Reply Dev unit;
  (* NVRAM *)
  getManufacturerDesc : Dev -> Reply Dev QString.t;
  getProductDesc : Dev -> Reply Dev QString.t;
  getUSBParameters : Dev -> Reply Dev USBParameters.t;
  getNVChipSettings : Dev -> Reply Dev ChipSettings.t;
  getNVSPISettings : Dev -> Reply Dev SPISettings.t;
  getAccessControlMode : Dev -> Reply Dev Z;
  writeManufacturerDesc : QString.t -> Dev -> Reply Dev unit;
  writeProductDesc : QString.t -> Dev -> Reply Dev unit;
  writeUSBParameters : USBParameters.t -> Dev -> Reply Dev unit;
  writeNVChipSettings : ChipSettings.t -> Z -> QString.t -> Dev -> Reply Dev unit;
  (* connection *)
  disconnected : Dev -> bool;
  isOpen : Dev -> bool;
  close : Dev -> Dev
}.
End MCP2210.

(** Modelled from the spec: the constants of [mcp2210limits.h], missing from
    the sources, that the bit rate search uses: the "upper device limit" and
    the "lower device limit" of the bit rate. *)
Module MCP2210Limits.
Class t := {
  BITRATE_MAX : Z;
  BITRATE_MIN : Z
}.
End MCP2210Limits.

(* ================================================================== *)
(** * Calls on the device

    A member function of the window declares [int errcnt = 0; QString errstr;]
    and passes both by reference to every device call it makes.  [Call A] is
    the state monad over the device and these two accumulators. *)

Record Bus (Dev : Type) := mkBus {
  dev : Dev;
  errcnt : Z;
  errstr : QString.t
}.
Arguments mkBus {Dev}.
Arguments dev {Dev}.
Arguments errcnt {Dev}.
Arguments errstr {Dev}.

Definition Call (Dev A : Type) : Type := Bus Dev -> A * Bus Dev.

Definition ret {Dev A} (a : A) : Call Dev A := fun b => (a, b).

Definition bind {Dev A B} (c : Call Dev A) (k : A -> Call Dev B) : Call Dev B :=
  fun b => let (a, b') := c b in k a b'.

Notation "x <- c ;; k" := (bind c (fun x => k))
  (at level 61, c at next level, right associativity).

(** One device call: the device moves on, the reported errors are added to
    [errcnt] and the reported text is appended to [errstr]. *)
Definition request {Dev A} (op : Dev -> Reply Dev A) : Call Dev A :=
  fun b =>
    let r := op (dev b) in
    (value r, mkBus (after r) (errcnt b + Z.of_N (nerr r)) (errstr b ++ text r)).

(** [int errcnt = 0; QString errstr;] *)
Definition fresh {Dev} (d : Dev) : Bus Dev := mkBus d 0 [].

(* ================================================================== *)
(** * The window *)

(** The widgets of [ui] that the modelled member functions read: the value
    returned by [text()], [currentIndex()] or [isChecked()]. *)
Record Ui := mkUi {
  lineEditManufacturer : QString.t;
  lineEditProduct : QString.t;
  lineEditVID : QString.t;
  lineEditPID : QString.t;
  lineEditMaxPowerHex : QString.t;
  comboBoxPowerMode : Z;
  checkBoxRemoteWakeUpCapable : bool;
  comboBoxGP0 : Z; comboBoxGP1 : Z; comboBoxGP2 : Z; comboBoxGP3 : Z;
  comboBoxGP4 : Z; comboBoxGP5 : Z; comboBoxGP6 : Z; comboBoxGP7 : Z;
  comboBoxGP8 : Z;
  checkBoxGP0DefaultValue : bool; checkBoxGP1DefaultValue : bool;
  checkBoxGP2DefaultValue : bool; checkBoxGP3DefaultValue : bool;
  checkBoxGP4DefaultValue : bool; checkBoxGP5DefaultValue : bool;
  checkBoxGP6DefaultValue : bool; checkBoxGP7DefaultValue : bool;
  checkBoxRemoteWakeUp : bool;
  comboBoxInterruptMode : Z;
  checkBoxSPIBusCaptive : bool;
  checkBoxApplyImmediately : bool
}.

(** A message box shown to the user, kept in the order shown. *)
Inductive Icon := Critical | Information.

Record Dialog := mkDialog {
  icon : Icon;
  title : QString.t;
  body : QString.t
}.

(** The data members of [ConfiguratorWindow]. *)
Record Window (Dev : Type) := mkWindow {
  mcp2210_ : Dev;
  err_ : bool;
  errmsg_ : QString.t;
  deviceConfiguration_ : Configuration.t;
  editedConfiguration_ : Configuration.t;
  accessMode_ : Z;
  viewEnabled_ : bool;
  ui : Ui;
  dialogs : list Dialog
}.
Arguments mkWindow {Dev}.
Arguments mcp2210_ {Dev}.
Arguments err_ {Dev}.
Arguments errmsg_ {Dev}.
Arguments deviceConfiguration_ {Dev}.
Arguments editedConfiguration_ {Dev}.
Arguments accessMode_ {Dev}.
Arguments viewEnabled_ {Dev}.
Arguments ui {Dev}.
Arguments dialogs {Dev}.

Section Assignments.
Context {Dev : Type}.
Implicit Type w : Window Dev.

Definition set_mcp2210_ w (d : Dev) : Window Dev :=
  mkWindow d (err_ w) (errmsg_ w) (deviceConfiguration_ w)
    (editedConfiguration_ w) (accessMode_ w) (viewEnabled_ w) (ui w) (dialogs w).
Definition set_err_ w (e : bool) : Window Dev :=
  mkWindow (mcp2210_ w) e (errmsg_ w) (deviceConfiguration_ w)
    (editedConfiguration_ w) (accessMode_ w) (viewEnabled_ w) (ui w) (dialogs w).
Definition set_errmsg_ w (m : QString.t) : Window Dev :=
  mkWindow (mcp2210_ w) (err_ w) m (deviceConfiguration_ w)
    (editedConfiguration_ w) (accessMode_ w) (viewEnabled_ w) (ui w) (dialogs w).
Definition set_deviceConfiguration_ w (c : Configuration.t) : Window Dev :=
  mkWindow (mcp2210_ w) (err_ w) (errmsg_ w) c
    (editedConfiguration_ w) (accessMode_ w) (viewEnabled_ w) (ui w) (dialogs w).
Definition set_editedConfiguration_ w (c : Configuration.t) : Window Dev :=
  mkWindow (mcp2210_ w) (err_ w) (errmsg_ w) (deviceConfiguration_ w)
    c (accessMode_ w) (viewEnabled_ w) (ui w) (dialogs w).
Definition set_accessMode_ w (a : Z) : Window Dev :=
  mkWindow (mcp2210_ w) (err_ w) (errmsg_ w) (deviceConfiguration_ w)
    (editedConfiguration_ w) a (viewEnabled_ w) (ui w) (dialogs w).
Definition set_viewEnabled_ w (v : bool) : Window Dev :=
  mkWindow (mcp2210_ w) (err_ w) (errmsg_ w) (deviceConfiguration_ w)
    (editedConfiguration_ w) (accessMode_ w) v (ui w) (dialogs w).
Definition set_ui w (u : Ui) : Window Dev :=
  mkWindow (mcp2210_ w) (err_ w) (errmsg_ w) (deviceConfiguration_ w)
    (editedConfiguration_ w) (accessMode_ w) (viewEnabled_ w) u (dialogs w).
(** [QMessageBox::critical] and [QMessageBox::information]. *)
Definition messageBox w (i : Icon) (t m : QString.t) : Window Dev :=
  mkWindow (mcp2210_ w) (err_ w) (errmsg_ w) (deviceConfiguration_ w)
    (editedConfiguration_ w) (accessMode_ w) (viewEnabled_ w) (ui w)
    (dialogs w ++ [mkDialog i t m]).

End Assignments.

(** Conversions to the unsigned types of the source. *)
Definition quint8 (x : Z) : Z := x mod 2 ^ 8.
Definition quint16 (x : Z) : Z := x mod 2 ^ 16.
Definition quint32 (x : Z) : Z := x mod 2 ^ 32.

(** [tr(text)] and [tr(text, disambiguation, n)]: no translation catalogue is
    part of the sources, so the source text is returned; it holds no [%n]
    for the count [n] to replace. *)
Definition tr (s : QString.t) : QString.t := s.
Definition tr_n (s : QString.t) (n : Z) : QString.t := s.

(* ================================================================== *)
(** * Member functions of the window *)

Section ConfiguratorWindow.

Context {Dev : Type} {mcp2210 : MCP2210.t Dev} {limits : MCP2210Limits.t}.

(** [QString::toUShort(nullptr, base)] of Qt. *)
Variable toUShort : QString.t -> Z -> Z.

(** [displayConfiguration(configuration)]: presentation only; it reads
    [accessMode_] and the given configuration and sets widgets. *)
Variable displayConfiguration : Z -> Configuration.t -> Ui -> Ui.

Implicit Type w : Window Dev.

Definition msgDisconnected : QString.t :=
  QString.lit "Device disconnected." ++ [QString.LF; QString.LF] ++
  QString.lit "Please reconnect it and try again.".

Definition fmtFailed : QString.t :=
  QString.lit "Failed to %1. The operation returned the following error(s):" ++
  [QString.LF; QString.EN_DASH; QString.SPACE] ++ QString.lit "%2".

Definition bullet : QString.t := [QString.LF; QString.EN_DASH; QString.SPACE].

(** Checks for errors and validates device operations. *)
Definition validateOperation (operation : QString.t) (errcnt : Z)
    (errstr : QString.t) w : Window Dev :=
  if 0 <? errcnt then
    let w := set_err_ w true in
    if MCP2210.disconnected (mcp2210_ w) then
      set_errmsg_ w (tr msgDisconnected)
    else
      let errstr := QString.chop 1 errstr in
      set_errmsg_ w
        (QString.arg2 (tr_n fmtFailed errcnt) operation
           (QString.replace [QString.LF] bullet errstr))
  else w.

(** A member function's device calls, started on fresh accumulators. *)
Definition calls {A} (c : Call Dev A) w : A * Bus Dev := c (fresh (mcp2210_ w)).

(** Applies the chip settings to the MCP2210 volatile memory area. *)
Definition applyChipSettings w : Window Dev :=
  let (_, b) :=
    calls (request (MCP2210.configureChipSettings
                      (Configuration.chipSettings (editedConfiguration_ w)))) w in
  validateOperation (tr (QString.lit "apply chip settings")) (errcnt b) (errstr b)
    (set_mcp2210_ w (dev b)).

(** Applies the SPI settings to the MCP2210 volatile memory area. *)
Definition applySPISettings w : Window Dev :=
  let (_, b) :=
    calls (request (MCP2210.configureSPISettings
                      (Configuration.spiSettings (editedConfiguration_ w)))) w in
  validateOperation (tr (QString.lit "apply SPI settings")) (errcnt b) (errstr b)
    (set_mcp2210_ w (dev b)).

(** Writes the chip settings to the MCP2210 NVRAM. *)
Definition writeChipSettings w : Window Dev :=
  let (_, b) :=
    calls (request (MCP2210.writeNVChipSettings
                      (Configuration.chipSettings (editedConfiguration_ w))
                      MCP2210.ACNONE [])) w in
  validateOperation (tr (QString.lit "write chip settings")) (errcnt b) (errstr b)
    (set_mcp2210_ w (dev b)).

(** Writes the manufacturer descriptor to the MCP2210 NVRAM. *)
Definition writeManufacturerDesc w : Window Dev :=
  let (_, b) :=
    calls (request (MCP2210.writeManufacturerDesc
                      (Configuration.manufacturer (editedConfiguration_ w)))) w in
  validateOperation (tr (QString.lit "write manufacturer desc")) (errcnt b)
    (errstr b) (set_mcp2210_ w (dev b)).

(** Writes the product descriptor to the MCP2210 NVRAM. *)
Definition writeProductDesc w : Window Dev :=
  let (_, b) :=
    calls (request (MCP2210.writeProductDesc
                      (Configuration.product (editedConfiguration_ w)))) w in
  validateOperation (tr (QString.lit "write product desc")) (errcnt b) (errstr b)
    (set_mcp2210_ w (dev b)).

(** Writes the USB parameters to the MCP2210 NVRAM. *)
Definition writeUSBParameters w : Window Dev :=
  let (_, b) :=
    calls (request (MCP2210.writeUSBParameters
                      (Configuration.usbParameters (editedConfiguration_ w)))) w in
  validateOperation (tr (QString.lit "write USB parameters")) (errcnt b) (errstr b)
    (set_mcp2210_ w (dev b)).

(** The six reads of [readDeviceConfiguration], in the order of the source. *)
Definition readAll : Call Dev (Configuration.t * Z) :=
  m <- request MCP2210.getManufacturerDesc ;;
  p <- request MCP2210.getProductDesc ;;
  u <- request MCP2210.getUSBParameters ;;
  c <- request MCP2210.getNVChipSettings ;;
  s <- request MCP2210.getNVSPISettings ;;
  a <- request MCP2210.getAccessControlMode ;;
  ret (Configuration.mk m p u c s, a).

(** This is the routine that reads the configuration from the MCP2210 NVRAM. *)
Definition readDeviceConfiguration w : Window Dev :=
  let (r, b) := calls readAll w in
  let w := set_mcp2210_ w (dev b) in
  let w := set_deviceConfiguration_ w (fst r) in
  let w := set_accessMode_ w (snd r) in
  validateOperation (tr (QString.lit "read device configuration")) (errcnt b)
    (errstr b) w.

Definition msgFailedVerification : QString.t := QString.lit "Failed verification.".

(** Verifies the MCP2210 configuration against the input configuration. *)
Definition verifyConfiguration w : Window Dev :=
  let w := readDeviceConfiguration w in
  if negb (err_ w) then
    let w := set_ui w (displayConfiguration (accessMode_ w)
                         (deviceConfiguration_ w) (ui w)) in
    if negb (Configuration.eqb (deviceConfiguration_ w) (editedConfiguration_ w))
    then set_errmsg_ (set_err_ w true) (tr msgFailedVerification)
    else w
  else w.

(** [b << k] for a [bool] promoted to [int]. *)
Definition shl (b : bool) (k : Z) : Z := Z.shiftl (Z.b2z b) k.

(** The pin configuration chosen in one of the combo boxes GP0 to GP7. *)
Definition pinOf (currentIndex : Z) : Z :=
  quint8 (if 0 <? currentIndex then currentIndex - 1 else MCP2210.PCGPIO).

(** Retrieves the user set configuration from the fields. *)
Definition getEditedConfiguration w : Window Dev :=
  let u := ui w in
  let usb :=
    USBParameters.mk
      (quint16 (toUShort (lineEditVID u) 16))
      (quint16 (toUShort (lineEditPID u) 16))
      (quint8 (toUShort (lineEditMaxPowerHex u) 16))
      (quint8 (comboBoxPowerMode u))
      (checkBoxRemoteWakeUpCapable u) in
  let chip :=
    ChipSettings.mk
      (pinOf (comboBoxGP0 u)) (pinOf (comboBoxGP1 u)) (pinOf (comboBoxGP2 u))
      (pinOf (comboBoxGP3 u)) (pinOf (comboBoxGP4 u)) (pinOf (comboBoxGP5 u))
      (pinOf (comboBoxGP6 u)) (pinOf (comboBoxGP7 u))
      (quint8 (if comboBoxGP8 u =? 0 then MCP2210.PCGPIO else MCP2210.PCFUNC))
      (quint8 (Z.lor (shl (negb (comboBoxGP7 u =? 1)) 7)
              (Z.lor (shl (negb (comboBoxGP6 u =? 1)) 6)
              (Z.lor (shl (negb (comboBoxGP5 u =? 1)) 5)
              (Z.lor (shl (negb (comboBoxGP4 u =? 1)) 4)
              (Z.lor (shl (negb (comboBoxGP3 u =? 1)) 3)
              (Z.lor (shl (negb (comboBoxGP2 u =? 1)) 2)
              (Z.lor (shl (negb (comboBoxGP1 u =? 1)) 1)
                     (Z.b2z (negb (comboBoxGP0 u =? 1)))))))))))
      (quint8 (Z.lor (shl (checkBoxGP7DefaultValue u) 7)
              (Z.lor (shl (checkBoxGP6DefaultValue u) 6)
              (Z.lor (shl (checkBoxGP5DefaultValue u) 5)
              (Z.lor (shl (checkBoxGP4DefaultValue u) 4)
              (Z.lor (shl (checkBoxGP3DefaultValue u) 3)
              (Z.lor (shl (checkBoxGP2DefaultValue u) 2)
              (Z.lor (shl (checkBoxGP1DefaultValue u) 1)
                     (Z.b2z (checkBoxGP0DefaultValue u))))))))))
      (checkBoxRemoteWakeUp u)
      (quint8 (comboBoxInterruptMode u))
      (checkBoxSPIBusCaptive u) in
  let d := Configuration.spiSettings (deviceConfiguration_ w) in
  let spi :=
    SPISettings.mk
      (SPISettings.nbytes d) (SPISettings.bitrate d) (SPISettings.mode d)
      (SPISettings.actcs d) (SPISettings.idlcs d) (SPISettings.csdtdly d)
      (SPISettings.dtcsdly d) (SPISettings.itbytdly d) in
  set_editedConfiguration_ w
    (Configuration.mk (lineEditManufacturer u) (lineEditProduct u) usb chip spi).

(** [tasks += name] under a condition. *)
Definition addIf (c : bool) (name : string) (tasks : list string) : list string :=
  if c then tasks ++ [name] else tasks.

(** Prepares the task list, by checking which fields changed, while also
    setting optional tasks according to the user's requirements. *)
Definition prepareTaskList w : list string :=
  let e := editedConfiguration_ w in
  let d := deviceConfiguration_ w in
  let tasks := [] in
  let tasks :=
    addIf (negb (QString.eqb (Configuration.manufacturer e)
                   (Configuration.manufacturer d)))
      "writeManufacturerDesc" tasks in
  let tasks :=
    addIf (negb (QString.eqb (Configuration.product e) (Configuration.product d)))
      "writeProductDesc" tasks in
  let tasks :=
    addIf (negb (USBParameters.eqb (Configuration.usbParameters e)
                   (Configuration.usbParameters d)))
      "writeUSBParameters" tasks in
  let tasks :=
    addIf (negb (ChipSettings.eqb (Configuration.chipSettings e)
                   (Configuration.chipSettings d)))
      "writeChipSettings" tasks in
  let tasks := tasks ++ ["verifyConfiguration"%string] in
  if checkBoxApplyImmediately (ui w) then
    let tasks :=
      addIf (negb (ChipSettings.eqb (Configuration.chipSettings e)
                     (Configuration.chipSettings d)))
        "applyChipSettings" tasks in
    addIf (negb (SPISettings.eqb (Configuration.spiSettings e)
                   (Configuration.spiSettings d)))
      "applySPISettings" tasks
  else tasks.

(** [QMetaObject::invokeMethod(this, name)]: the member function of that
    name runs; a name that is no member function runs nothing. *)
Definition invokeMethod (name : string) w : Window Dev :=
  if String.eqb name "writeManufacturerDesc" then writeManufacturerDesc w
  else if String.eqb name "writeProductDesc" then writeProductDesc w
  else if String.eqb name "writeUSBParameters" then writeUSBParameters w
  else if String.eqb name "writeChipSettings" then writeChipSettings w
  else if String.eqb name "verifyConfiguration" then verifyConfiguration w
  else if String.eqb name "applyChipSettings" then applyChipSettings w
  else if String.eqb name "applySPISettings" then applySPISettings w
  else w.

(** The [for] loop of [configureDevice] over the task list, with its
    [break] when [err_] is set. *)
Fixpoint configureLoop (tasks : list string) w : Window Dev :=
  match tasks with
  | [] => w
  | task :: rest =>
      let w := invokeMethod task w in
      if err_ w then w else configureLoop rest w
  end.

(** Partially disables configurator window (the widgets it disables have no
    other part in the modelled functions). *)
Definition disableView w : Window Dev := set_viewEnabled_ w false.

(** Determines the type of error and acts accordingly, always showing a
    message. *)
Definition handleError w : Window Dev :=
  let w :=
    if MCP2210.disconnected (mcp2210_ w) || negb (MCP2210.isOpen (mcp2210_ w))
    then let w := disableView w in set_mcp2210_ w (MCP2210.close (mcp2210_ w))
    else w in
  messageBox w Critical (tr (QString.lit "Error")) (errmsg_ w).

Definition msgNotCompleted : QString.t :=
  QString.lit "The device configuration could not be completed.".

Definition msgConfigured : QString.t :=
  QString.lit "Device was successfully configured.".

(** This is the main configuration routine, used to configure the MCP2210
    NVRAM according to the tasks in the task list. *)
Definition configureDevice w : Window Dev :=
  let w := set_err_ w false in
  let tasks := prepareTaskList w in
  let w := configureLoop tasks w in
  if err_ w then
    let w := handleError w in
    messageBox w Critical (tr (QString.lit "Error")) (tr msgNotCompleted)
  else
    messageBox w Information (tr (QString.lit "Device Configured"))
      (tr msgConfigured).

(** The variables of the [while] loop of [getNearestCompatibleBitRate]: the
    device with the two accumulators, and the three [quint32] locals.
    [probes] is not in the source: it records, for each turn of the loop,
    the bit rate written and the bit rate read back. *)
Record SearchState := mkSearch {
  bus : Bus Dev;
  testBitrate : Z;
  nearestGreaterOrEqualBitrate : Z;
  nearestLesserOrEqualBitrate : Z;
  probes : list (Z * Z)
}.

(** One configure and read-back round trip with [testSPISettings]. *)
Definition probe (testSPISettings : SPISettings.t) : Call Dev Z :=
  _ <- request (MCP2210.configureSPISettings testSPISettings) ;;
  r <- request MCP2210.getSPISettings ;;
  ret (SPISettings.bitrate r).

(** [while (errcnt == 0) { ... }].  The loop of the source need not
    terminate; [fuel] bounds the number of turns and [None] means the bound
    was reached with the loop still running. *)
Fixpoint searchLoop (fuel : nat) (currentSPISettings : SPISettings.t)
    (bitrate : Z) (s : SearchState) : option SearchState :=
  if errcnt (bus s) =? 0 then
    match fuel with
    | O => None
    | S fuel' =>
        let testSPISettings :=
          SPISettings.set_bitrate currentSPISettings (testBitrate s) in
        let (returnedBitrate, b) := probe testSPISettings (bus s) in
        let log := probes s ++ [(testBitrate s, returnedBitrate)] in
        if returnedBitrate =? testBitrate s then
          let ge := if bitrate <=? testBitrate s then testBitrate s
                    else nearestGreaterOrEqualBitrate s in
          if testBitrate s <=? bitrate then
            Some (mkSearch b (testBitrate s) ge (testBitrate s) log)
          else
            searchLoop fuel' currentSPISettings bitrate
              (mkSearch b (quint32 (testBitrate s - 1)) ge
                 (nearestLesserOrEqualBitrate s) log)
        else
          searchLoop fuel' currentSPISettings bitrate
            (mkSearch b returnedBitrate (nearestGreaterOrEqualBitrate s)
               (nearestLesserOrEqualBitrate s) log)
    end
  else Some s.

(** What [getNearestCompatibleBitRate] leaves behind: the value returned,
    the window, and the loop variables when the loop was left. *)
Record Found := mkFound {
  retval : Z;
  window : Window Dev;
  search : SearchState
}.

(** Returns the nearest compatible bit rate, given a bit rate. *)
Definition getNearestCompatibleBitRate (fuel : nat) (bitrate : Z) w
    : option Found :=
  let (currentSPISettings, b) := calls (request MCP2210.getSPISettings) w in
  let testBitrate := quint32 (4 * bitrate) in
  match searchLoop fuel currentSPISettings bitrate
          (mkSearch b testBitrate MCP2210Limits.BITRATE_MAX
             MCP2210Limits.BITRATE_MIN [])
  with
  | None => None
  | Some s =>
      let (_, b) :=
        request (MCP2210.configureSPISettings currentSPISettings) (bus s) in
      let w := validateOperation (tr (QString.lit "get bit rate")) (errcnt b)
                 (errstr b) (set_mcp2210_ w (dev b)) in
      let ge := nearestGreaterOrEqualBitrate s in
      let le := nearestLesserOrEqualBitrate s in
      Some (mkFound
              (if quint32 (ge - bitrate) <? quint32 (bitrate - le) then ge else le)
              w s)
  end.

End ConfiguratorWindow.

(* ================================================================== *)
(** * A simulated device

    A device for running the member functions on concrete inputs: NVRAM, the
    two volatile register banks, and a fault schedule.  Writing SPI settings
    stores the bit rate that the divider [divider] makes of the requested
    one; every other field is stored as written. *)

Module Sim.

Record t := mk {
  nvram : Configuration.t;
  accessMode : Z;
  volatileChip : ChipSettings.t;
  volatileSPI : SPISettings.t;
  faults : list bool;     (* for the coming calls: [true] makes the call fail *)
  unplugged : bool        (* every call fails *)
}.

Definition noUSB : USBParameters.t := USBParameters.mk 0 0 0 0 false.
Definition noChip : ChipSettings.t :=
  ChipSettings.mk 0 0 0 0 0 0 0 0 0 0 0 false 0 false.
Definition noSPI : SPISettings.t := SPISettings.mk 0 0 0 0 0 0 0 0.

Definition failure : QString.t :=
  QString.lit "Failed to perform interrupt transfer." ++ [QString.LF].

Definition fails (d : t) : bool := unplugged d || hd false (faults d).

Definition tick (d : t) : t :=
  mk (nvram d) (accessMode d) (volatileChip d) (volatileSPI d) (tl (faults d))
    (unplugged d).

(** A call that reads: on failure it returns [dflt] and reports one error. *)
Definition reads {A} (f : t -> A) (dflt : A) (d : t) : Reply t A :=
  if fails d then mkReply dflt (tick d) 1%N failure
  else mkReply (f d) (tick d) 0%N [].

(** A call that writes: on failure nothing is stored and one error is
    reported. *)
Definition writes (upd : t -> t) (d : t) : Reply t unit :=
  if fails d then mkReply tt (tick d) 1%N failure
  else mkReply tt (upd (tick d)) 0%N [].

Definition setNVRAM (c : Configuration.t) (d : t) : t :=
  mk c (accessMode d) (volatileChip d) (volatileSPI d) (faults d) (unplugged d).
Definition setVolatileChip (c : ChipSettings.t) (d : t) : t :=
  mk (nvram d) (accessMode d) c (volatileSPI d) (faults d) (unplugged d).
Definition setVolatileSPI (s : SPISettings.t) (d : t) : t :=
  mk (nvram d) (accessMode d) (volatileChip d) s (faults d) (unplugged d).

Definition device (divider : Z -> Z) : MCP2210.t t := {|
  MCP2210.PCGPIO := 0;
  MCP2210.PCFUNC := 2;
  MCP2210.ACNONE := 0;
  MCP2210.ACPASSWORD := 64;
  MCP2210.ACLOCKED := 128;
  MCP2210.getSPISettings := reads volatileSPI noSPI;
  MCP2210.configureSPISettings := fun s =>
    writes (setVolatileSPI
              (SPISettings.set_bitrate s (divider (SPISettings.bitrate s))));
  MCP2210.configureChipSettings := fun c => writes (setVolatileChip c);
  MCP2210.getManufacturerDesc :=
    reads (fun d => Configuration.manufacturer (nvram d)) [];
  MCP2210.getProductDesc := reads (fun d => Configuration.product (nvram d)) [];
  MCP2210.getUSBParameters :=
    reads (fun d => Configuration.usbParameters (nvram d)) noUSB;
  MCP2210.getNVChipSettings :=
    reads (fun d => Configuration.chipSettings (nvram d)) noChip;
  MCP2210.getNVSPISettings :=
    reads (fun d => Configuration.spiSettings (nvram d)) noSPI;
  MCP2210.getAccessControlMode := reads accessMode 0;
  MCP2210.writeManufacturerDesc := fun m =>
    writes (fun d =>
      let c := nvram d in
      setNVRAM (Configuration.mk m (Configuration.product c)
                  (Configuration.usbParameters c) (Configuration.chipSettings c)
                  (Configuration.spiSettings c)) d);
  MCP2210.writeProductDesc := fun p =>
    writes (fun d =>
      let c := nvram d in
      setNVRAM (Configuration.mk (Configuration.manufacturer c) p
                  (Configuration.usbParameters c) (Configuration.chipSettings c)
                  (Configuration.spiSettings c)) d);
  MCP2210.writeUSBParameters := fun u =>
    writes (fun d =>
      let c := nvram d in
      setNVRAM (Configuration.mk (Configuration.manufacturer c)
                  (Configuration.product c) u (Configuration.chipSettings c)
                  (Configuration.spiSettings c)) d);
  MCP2210.writeNVChipSettings := fun k _ _ =>
    writes (fun d =>
      let c := nvram d in
      setNVRAM (Configuration.mk (Configuration.manufacturer c)
                  (Configuration.product c) (Configuration.usbParameters c) k
                  (Configuration.spiSettings c)) d);
  MCP2210.disconnected := unplugged;
  MCP2210.isOpen := fun d => negb (unplugged d);
  MCP2210.close := fun d => d
|}.

(** The limits of the MCP2210: 12 MHz and 1464 Hz. *)
Definition limits : MCP2210Limits.t := {|
  MCP2210Limits.BITRATE_MAX := 12000000;
  MCP2210Limits.BITRATE_MIN := 1464
|}.

(** A divider whose achievable rates are the multiples of [step] up to
    [top]: a written rate is rounded down to the nearest of them. *)
Definition multiplesOf (step top : Z) (requested : Z) : Z :=
  step * (Z.min requested top / step).

Definition factorySPI : SPISettings.t := SPISettings.mk 4 1000000 0 255 255 0 0 0.

Definition factory : Configuration.t :=
  Configuration.mk (QString.lit "Microchip Technology Inc.")
    (QString.lit "MCP2210 USB-to-SPI Master")
    (USBParameters.mk 1240 222 50 0 false)
    (ChipSettings.mk 0 0 0 0 0 0 0 0 0 255 255 false 0 false)
    factorySPI.

(** A plugged-in device with factory settings and the given fault schedule. *)
Definition fresh (schedule : list bool) : t :=
  mk factory 0 (Configuration.chipSettings factory) factorySPI schedule false.

Definition noUi : Ui :=
  mkUi [] [] [] [] [] 0 false 0 0 0 0 0 0 0 0 0
    false false false false false false false false false 0 false false.

(** The two dividers of the runs below: the multiples of 1000 below
    4 000 000, and the multiples of 1000 up to [BITRATE_MAX]. *)
Definition belowFour : Z -> Z := multiplesOf 1000 3999000.
Definition upToMax : Z -> Z := multiplesOf 1000 12000000.

(** A device that was unplugged. *)
Definition gone : t :=
  mk factory 0 (Configuration.chipSettings factory) factorySPI [] true.

(** The factory configuration with the product descriptor edited, and with
    the maximum power raised from 100 mA to 120 mA. *)
Definition renamed : Configuration.t :=
  Configuration.mk (Configuration.manufacturer factory) (QString.lit "Bridge")
    (Configuration.usbParameters factory) (Configuration.chipSettings factory)
    (Configuration.spiSettings factory).
Definition morePower : Configuration.t :=
  Configuration.mk (Configuration.manufacturer factory)
    (Configuration.product factory) (USBParameters.mk 1240 222 60 0 false)
    (Configuration.chipSettings factory) (Configuration.spiSettings factory).

(** No presentation. *)
Definition noDisplay (accessMode : Z) (c : Configuration.t) (u : Ui) : Ui := u.

(** A device that is plugged in and has no fault scheduled. *)
Definition healthy (d : t) : Prop := faults d = [] /\ unplugged d = false.

(** A window that has just read [c] from its device [d]. *)
Definition windowOn (d : t) (c : Configuration.t) : Window t :=
  mkWindow d false [] c c 0 true noUi [].

End Sim.

(* ================================================================== *)
(** * Notions used in the statements *)

(** Running a list of tasks one after the other, in list order, without
    looking at [err_]. *)
Definition runInOrder {Dev} {mcp2210 : MCP2210.t Dev}
    (displayConfiguration : Z -> Configuration.t -> Ui -> Ui)
    (tasks : list string) (w : Window Dev) : Window Dev :=
  fold_left (fun w task => invokeMethod displayConfiguration task w) tasks w.

(** Every task of the list validates cleanly: run in list order from [w],
    no task leaves [err_] set. *)
Definition validatedCleanly {Dev} {mcp2210 : MCP2210.t Dev}
    (displayConfiguration : Z -> Configuration.t -> Ui -> Ui)
    (tasks : list string) (w : Window Dev) : Prop :=
  forall j, (j <= List.length tasks)%nat ->
    err_ (runInOrder displayConfiguration (firstn j tasks) w) = false.

(** The task list as the specification words it: the four write tasks, each
    iff its part differs, then the verification, then the two apply tasks
    when the changes are to be applied immediately. *)
Definition buildTaskList (manufacturerDiffers productDiffers usbDiffers
    chipDiffers spiDiffers applyImmediately : bool) : list string :=
  (if manufacturerDiffers then ["writeManufacturerDesc"%string] else []) ++
  (if productDiffers then ["writeProductDesc"%string] else []) ++
  (if usbDiffers then ["writeUSBParameters"%string] else []) ++
  (if chipDiffers then ["writeChipSettings"%string] else []) ++
  ["verifyConfiguration"%string] ++
  (if applyImmediately && chipDiffers then ["applyChipSettings"%string] else []) ++
  (if applyImmediately && spiDiffers then ["applySPISettings"%string] else []).

(** A channel without transport errors whose read-back is a rounding down:
    on every device state satisfying [Inv], reading the volatile SPI settings
    and writing them report no error and keep [Inv], and the bit rate read
    back after writing [t] is [divider t], the greatest achievable rate at or
    below [t].  A rate [v] is achievable when [divider v = v]. *)
Record FloorChannel {Dev} {mcp2210 : MCP2210.t Dev} (divider : Z -> Z)
    (Inv : Dev -> Prop) : Prop := {
  divider_below : forall t, 0 <= t < 2 ^ 32 -> 0 <= divider t <= t;
  divider_nearest :
    forall t v, 0 <= v <= t -> t < 2 ^ 32 -> divider v = v -> v <= divider t;
  read_clean :
    forall d, Inv d ->
      nerr (MCP2210.getSPISettings d) = 0%N /\
      Inv (after (MCP2210.getSPISettings d));
  write_clean :
    forall d s, Inv d ->
      let r := MCP2210.configureSPISettings s d in
      nerr r = 0%N /\ Inv (after r) /\
      SPISettings.bitrate (value (MCP2210.getSPISettings (after r))) =
        divider (SPISettings.bitrate s)
}.

(** What is known of the candidate at or above the request while the search
    descends from [start]: either it still is the initial [bound] and no
    achievable rate lies in [(lower, start]], or it is an achievable rate
    observed by a probe and no achievable rate lies strictly between [lower]
    and it. *)
Definition bracket {Dev} (divider : Z -> Z) (bitrate start bound : Z)
    (s : @SearchState Dev) (lower : Z) : Prop :=
  let ge := nearestGreaterOrEqualBitrate s in
  (ge = bound /\ forall v, divider v = v -> lower < v <= start -> False) \/
  (divider ge = ge /\ bitrate <= ge <= start /\ In (ge, ge) (probes s) /\
   forall v, divider v = v -> lower < v < ge -> False).

(** The invariant of the loop on a rounding-down channel: the test rate has
    not passed an achievable rate at or below the request. *)
Definition descending {Dev} (divider : Z -> Z) (bitrate start bound : Z)
    (s : @SearchState Dev) : Prop :=
  0 <= testBitrate s <= start /\
  (forall v, 0 <= v -> divider v = v -> v <= bitrate -> v <= testBitrate s) /\
  bracket divider bitrate start bound s (testBitrate s).

(** What holds when the loop is left through its [break]. *)
Definition arrived {Dev} (divider : Z -> Z) (bitrate start bound : Z)
    (s : @SearchState Dev) : Prop :=
  let le := nearestLesserOrEqualBitrate s in
  divider le = le /\ 0 <= le <= bitrate /\ In (le, le) (probes s) /\
  (forall v, 0 <= v -> divider v = v -> v <= bitrate -> v <= le) /\
  bracket divider bitrate start bound s le.

(** The failure message for a device that is still connected, written out. *)
Definition failedMessage (operation lines : QString.t) : QString.t :=
  QString.lit "Failed to " ++ operation ++
  QString.lit ". The operation returned the following error(s):" ++ lines.

(* ================================================================== *)
(** * Further member functions of the window *)

(** The combo boxes that [displayChipSettings] sets.  The number of items of
    each one is given by the form ([configuratorwindow.ui]), which is not
    part of the sources. *)
Inductive Combo :=
| cbGP0 | cbGP1 | cbGP2 | cbGP3 | cbGP4 | cbGP5 | cbGP6 | cbGP7 | cbGP8
| cbInterruptMode.

(** The line edits that [showInvalidInput] reads besides those of [Ui]. *)
Record Entries := mkEntries {
  lineEditMaxPower : QString.t;
  lineEditNewPassword : QString.t;
  lineEditRepeatPassword : QString.t
}.

(** [QString::replace(QChar before, QChar after)]: every occurrence. *)
Definition replaceChar (before after : QString.QChar) (s : QString.t)
    : QString.t :=
  map (fun c => if N.eqb c before then after else c) s.

(** [setText] of the manufacturer and of the product line edit. *)
Definition setManufacturerText (u : Ui) (s : QString.t) : Ui :=
  mkUi s (lineEditProduct u) (lineEditVID u) (lineEditPID u)
    (lineEditMaxPowerHex u) (comboBoxPowerMode u)
    (checkBoxRemoteWakeUpCapable u)
    (comboBoxGP0 u) (comboBoxGP1 u) (comboBoxGP2 u) (comboBoxGP3 u)
    (comboBoxGP4 u) (comboBoxGP5 u) (comboBoxGP6 u) (comboBoxGP7 u)
    (comboBoxGP8 u)
    (checkBoxGP0DefaultValue u) (checkBoxGP1DefaultValue u)
    (checkBoxGP2DefaultValue u) (checkBoxGP3DefaultValue u)
    (checkBoxGP4DefaultValue u) (checkBoxGP5DefaultValue u)
    (checkBoxGP6DefaultValue u) (checkBoxGP7DefaultValue u)
    (checkBoxRemoteWakeUp u) (comboBoxInterruptMode u)
    (checkBoxSPIBusCaptive u) (checkBoxApplyImmediately u).

Definition setProductText (u : Ui) (s : QString.t) : Ui :=
  mkUi (lineEditManufacturer u) s (lineEditVID u) (lineEditPID u)
    (lineEditMaxPowerHex u) (comboBoxPowerMode u)
    (checkBoxRemoteWakeUpCapable u)
    (comboBoxGP0 u) (comboBoxGP1 u) (comboBoxGP2 u) (comboBoxGP3 u)
    (comboBoxGP4 u) (comboBoxGP5 u) (comboBoxGP6 u) (comboBoxGP7 u)
    (comboBoxGP8 u)
    (checkBoxGP0DefaultValue u) (checkBoxGP1DefaultValue u)
    (checkBoxGP2DefaultValue u) (checkBoxGP3DefaultValue u)
    (checkBoxGP4DefaultValue u) (checkBoxGP5DefaultValue u)
    (checkBoxGP6DefaultValue u) (checkBoxGP7DefaultValue u)
    (checkBoxRemoteWakeUp u) (comboBoxInterruptMode u)
    (checkBoxSPIBusCaptive u) (checkBoxApplyImmediately u).

Section FurtherMemberFunctions.

Context {Dev : Type} {mcp2210 : MCP2210.t Dev}.

(** [QString::toUShort(nullptr, base)] of Qt. *)
Variable toUShort : QString.t -> Z -> Z.

(** [displayConfiguration(configuration)], presentation only. *)
Variable displayConfiguration : Z -> Configuration.t -> Ui -> Ui.

(** The number of items of each combo box. *)
Variable count : Combo -> Z.

Implicit Type w : Window Dev.

(** [QComboBox::setCurrentIndex(index)]: the index becomes the current one
    when the combo box has an item of this index, and -1 otherwise. *)
Definition setCurrentIndex (c : Combo) (index : Z) : Z :=
  if (0 <=? index) && (index <? count c) then index else -1.

(** The index shown for one of the pins GP0 to GP7:
    [gp == PCGPIO ? (mask & gpdir) == 0x00 : gp + 1]. *)
Definition pinIndex (mask gp gpdir : Z) : Z :=
  if gp =? MCP2210.PCGPIO then Z.b2z (Z.land mask gpdir =? 0) else gp + 1.

(** Updates all fields pertaining to the MCP2210 chip settings. *)
Definition displayChipSettings (chipSettings : ChipSettings.t) (u : Ui) : Ui :=
  let gpdir := ChipSettings.gpdir chipSettings in
  let gpout := ChipSettings.gpout chipSettings in
  mkUi (lineEditManufacturer u) (lineEditProduct u) (lineEditVID u)
    (lineEditPID u) (lineEditMaxPowerHex u) (comboBoxPowerMode u)
    (checkBoxRemoteWakeUpCapable u)
    (setCurrentIndex cbGP0 (pinIndex 1 (ChipSettings.gp0 chipSettings) gpdir))
    (setCurrentIndex cbGP1 (pinIndex 2 (ChipSettings.gp1 chipSettings) gpdir))
    (setCurrentIndex cbGP2 (pinIndex 4 (ChipSettings.gp2 chipSettings) gpdir))
    (setCurrentIndex cbGP3 (pinIndex 8 (ChipSettings.gp3 chipSettings) gpdir))
    (setCurrentIndex cbGP4 (pinIndex 16 (ChipSettings.gp4 chipSettings) gpdir))
    (setCurrentIndex cbGP5 (pinIndex 32 (ChipSettings.gp5 chipSettings) gpdir))
    (setCurrentIndex cbGP6 (pinIndex 64 (ChipSettings.gp6 chipSettings) gpdir))
    (setCurrentIndex cbGP7 (pinIndex 128 (ChipSettings.gp7 chipSettings) gpdir))
    (setCurrentIndex cbGP8
       (if ChipSettings.gp8 chipSettings =? MCP2210.PCGPIO then 0 else 1))
    (negb (Z.land 1 gpout =? 0)) (negb (Z.land 2 gpout =? 0))
    (negb (Z.land 4 gpout =? 0)) (negb (Z.land 8 gpout =? 0))
    (negb (Z.land 16 gpout =? 0)) (negb (Z.land 32 gpout =? 0))
    (negb (Z.land 64 gpout =? 0)) (negb (Z.land 128 gpout =? 0))
    (ChipSettings.rmwakeup chipSettings)
    (setCurrentIndex cbInterruptMode (ChipSettings.intmode chipSettings))
    (ChipSettings.nrelspi chipSettings)
    (checkBoxApplyImmediately u).

(** [on_lineEditManufacturer_textEdited(text)]: line feeds typed or pasted
    into the field become spaces (the cursor, put back where it was, is not
    part of [Ui]). *)
Definition on_lineEditManufacturer_textEdited (text : QString.t) w
    : Window Dev :=
  set_ui w (setManufacturerText (ui w)
              (replaceChar QString.LF QString.SPACE text)).

(** [on_lineEditProduct_textEdited()]. *)
Definition on_lineEditProduct_textEdited w : Window Dev :=
  set_ui w (setProductText (ui w)
              (replaceChar QString.LF QString.SPACE (lineEditProduct (ui w)))).

(** Checks user input, returning false if it is valid, or true otherwise
    (the highlighting of the invalid fields is not part of [Ui]). *)
Definition showInvalidInput (u : Ui) (e : Entries) : bool :=
  let retval := false in
  let retval :=
    if (List.length (lineEditVID u) <? 4)%nat
       || QString.eqb (lineEditVID u) (QString.lit "0000")
    then true else retval in
  let retval :=
    if (List.length (lineEditPID u) <? 4)%nat
       || QString.eqb (lineEditPID u) (QString.lit "0000")
    then true else retval in
  let retval :=
    if QString.eqb (lineEditMaxPower e) [] then true else retval in
  let retval :=
    if QString.eqb (lineEditMaxPowerHex u) [] then true else retval in
  let retval :=
    if negb (QString.eqb (lineEditNewPassword e) (lineEditRepeatPassword e))
    then true else retval in
  retval.

Definition msgInvalidInput : QString.t :=
  QString.lit "One or more fields have invalid information." ++
  [QString.LF; QString.LF] ++
  QString.lit "Please correct the information in the fields highlighted in red.".

Definition msgNoChanges : QString.t :=
  QString.lit "No changes were effected, because no values were modified.".

(** [on_pushButtonWrite_clicked()].  [proceed] is the answer of the user to
    the question "Write Configuration?", asked only when the edited
    configuration differs from the one of the device: [true] for Yes. *)
Definition on_pushButtonWrite_clicked (e : Entries) (proceed : bool) w
    : Window Dev :=
  if MCP2210.isOpen (mcp2210_ w) then
    if showInvalidInput (ui w) e then
      messageBox w Critical (tr (QString.lit "Error")) (tr msgInvalidInput)
    else
      let w := getEditedConfiguration toUShort w in
      if Configuration.eqb (editedConfiguration_ w) (deviceConfiguration_ w)
      then
        messageBox w Information (tr (QString.lit "No Changes Done"))
          (tr msgNoChanges)
      else if proceed then configureDevice displayConfiguration w
      else w
  else w.

End FurtherMemberFunctions.

(* ================================================================== *)
(** * Further notions used in the statements *)


(** The four tasks that write to the NVRAM. *)
Definition writeTasks : list string :=
  ["writeManufacturerDesc"; "writeProductDesc"; "writeUSBParameters";
   "writeChipSettings"]%string.


(** One of the pins GP0 to GP7 as [displayChipSettings] can show it and
    [getEditedConfiguration] can read it back: an 8-bit configuration whose
    index the combo box has, and, for a pin that is not a GPIO, the
    direction bit set. *)
Definition pinShown {Dev} {mcp2210 : MCP2210.t Dev} (items mask gp gpdir : Z)
    : Prop :=
  0 <= gp < 256 /\ gp + 1 < items /\ 2 <= items /\
  (gp <> MCP2210.PCGPIO -> Z.land mask gpdir <> 0).

(** Chip settings that the form can show. *)
Definition displayable {Dev} {mcp2210 : MCP2210.t Dev} (count : Combo -> Z)
    (c : ChipSettings.t) : Prop :=
  MCP2210.PCGPIO (t := mcp2210) = 0 /\
  0 <= MCP2210.PCFUNC (t := mcp2210) < 256 /\
  pinShown (count cbGP0) 1 (ChipSettings.gp0 c) (ChipSettings.gpdir c) /\
  pinShown (count cbGP1) 2 (ChipSettings.gp1 c) (ChipSettings.gpdir c) /\
  pinShown (count cbGP2) 4 (ChipSettings.gp2 c) (ChipSettings.gpdir c) /\
  pinShown (count cbGP3) 8 (ChipSettings.gp3 c) (ChipSettings.gpdir c) /\
  pinShown (count cbGP4) 16 (ChipSettings.gp4 c) (ChipSettings.gpdir c) /\
  pinShown (count cbGP5) 32 (ChipSettings.gp5 c) (ChipSettings.gpdir c) /\
  pinShown (count cbGP6) 64 (ChipSettings.gp6 c) (ChipSettings.gpdir c) /\
  pinShown (count cbGP7) 128 (ChipSettings.gp7 c) (ChipSettings.gpdir c) /\
  (ChipSettings.gp8 c = MCP2210.PCGPIO (t := mcp2210) \/
   ChipSettings.gp8 c = MCP2210.PCFUNC (t := mcp2210)) /\
  2 <= count cbGP8 /\
  0 <= ChipSettings.gpdir c < 256 /\
  0 <= ChipSettings.gpout c < 256 /\
  0 <= ChipSettings.intmode c < 256 /\
  ChipSettings.intmode c < count cbInterruptMode.

(** [w'] differs from [w] in the device, [err_] and [errmsg_] only, and
    [err_] was not cleared. *)
Definition sameButDevice {Dev} (w w' : Window Dev) : Prop :=
  deviceConfiguration_ w' = deviceConfiguration_ w /\
  editedConfiguration_ w' = editedConfiguration_ w /\
  accessMode_ w' = accessMode_ w /\ ui w' = ui w /\
  dialogs w' = dialogs w /\ viewEnabled_ w' = viewEnabled_ w /\
  (err_ w = true -> err_ w' = true).

(** The eight bits of a byte, packed as [getEditedConfiguration] packs
    them. *)
Definition pack (b7 b6 b5 b4 b3 b2 b1 b0 : bool) : Z :=
  quint8 (Z.lor (shl b7 7)
         (Z.lor (shl b6 6)
         (Z.lor (shl b5 5)
         (Z.lor (shl b4 4)
         (Z.lor (shl b3 3)
         (Z.lor (shl b2 2)
         (Z.lor (shl b1 1) (Z.b2z b0)))))))).

(** The value chosen after the loop of the search, from its two
    candidates. *)
Definition chosen (bitrate ge le : Z) : Z :=
  if quint32 (ge - bitrate) <? quint32 (bitrate - le) then ge else le.

(** A form with four items for each of the pins GP0 to GP7, two for GP8 and
    five interrupt modes. *)
Definition simCount (c : Combo) : Z :=
  match c with
  | cbGP8 => 2
  | cbInterruptMode => 5
  | _ => 4
  end.

(* ================================================================== *)
(** * Equality tests decide equality *)

Lemma QString_eqb_eq (a b : QString.t) : QString.eqb a b = true <-> a = b.
Proof.
  revert b; induction a as [|x a IH]; intros [|y b]; simpl;
    try (split; [discriminate | discriminate]); [tauto|].
  rewrite andb_true_iff, N.eqb_eq, IH.
  split; [intros [-> ->]; reflexivity | intros H; injection H; auto].
Qed.

Ltac fields_eqb :=
  repeat rewrite andb_true_iff; repeat rewrite Z.eqb_eq;
  repeat rewrite Bool.eqb_true_iff; repeat rewrite QString_eqb_eq.

Lemma USBParameters_eqb_eq (a b : USBParameters.t) :
  USBParameters.eqb a b = true <-> a = b.
Proof.
  destruct a, b; unfold USBParameters.eqb; simpl; fields_eqb.
  split.
  - intros H. repeat match goal with H : _ /\ _ |- _ => destruct H end.
    subst. reflexivity.
  - intros H. injection H as ?. subst. repeat split.
Qed.

Lemma ChipSettings_eqb_eq (a b : ChipSettings.t) :
  ChipSettings.eqb a b = true <-> a = b.
Proof.
  destruct a, b; unfold ChipSettings.eqb; simpl; fields_eqb.
  split.
  - intros H. repeat match goal with H : _ /\ _ |- _ => destruct H end.
    subst. reflexivity.
  - intros H. injection H as ?. subst. repeat split.
Qed.

Lemma SPISettings_eqb_eq (a b : SPISettings.t) :
  SPISettings.eqb a b = true <-> a = b.
Proof.
  destruct a, b; unfold SPISettings.eqb; simpl; fields_eqb.
  split.
  - intros H. repeat match goal with H : _ /\ _ |- _ => destruct H end.
    subst. reflexivity.
  - intros H. injection H as ?. subst. repeat split.
Qed.

Lemma Configuration_eqb_eq (a b : Configuration.t) :
  Configuration.eqb a b = true <-> a = b.
Proof.
  destruct a, b; unfold Configuration.eqb; simpl.
  repeat rewrite andb_true_iff.
  rewrite !QString_eqb_eq, USBParameters_eqb_eq, ChipSettings_eqb_eq,
    SPISettings_eqb_eq.
  split.
  - intros H. repeat match goal with H : _ /\ _ |- _ => destruct H end.
    subst. reflexivity.
  - intros H. injection H as ?. subst. repeat split.
Qed.

(** [negb (eqb a b)] is the [!=] of the source. *)
Lemma differs_iff {A} (eqb : A -> A -> bool)
    (eqb_eq : forall a b, eqb a b = true <-> a = b) (a b : A) :
  negb (eqb a b) = true <-> a <> b.
Proof.
  rewrite negb_true_iff, <- not_true_iff_false, eqb_eq. tauto.
Qed.

(* ================================================================== *)
(** * The task list *)

Section TaskList.

Context {Dev : Type} {mcp2210 : MCP2210.t Dev}.
Implicit Type w : Window Dev.

Lemma addIf_app (c : bool) (name : string) (tasks : list string) :
  addIf c name tasks = tasks ++ (if c then [name] else []).
Proof. destruct c; simpl; [reflexivity | now rewrite app_nil_r]. Qed.

(** The list of the source, built by appending, is the list of the
    specification, with the flags computed by the [!=] of the parts. *)
Lemma prepareTaskList_flags w :
  let e := editedConfiguration_ w in
  let d := deviceConfiguration_ w in
  prepareTaskList w =
    buildTaskList
      (negb (QString.eqb (Configuration.manufacturer e) (Configuration.manufacturer d)))
      (negb (QString.eqb (Configuration.product e) (Configuration.product d)))
      (negb (USBParameters.eqb (Configuration.usbParameters e)
               (Configuration.usbParameters d)))
      (negb (ChipSettings.eqb (Configuration.chipSettings e)
               (Configuration.chipSettings d)))
      (negb (SPISettings.eqb (Configuration.spiSettings e)
               (Configuration.spiSettings d)))
      (checkBoxApplyImmediately (ui w)).
Proof.
  intros e d. unfold prepareTaskList, buildTaskList. fold e d.
  generalize (negb (QString.eqb (Configuration.manufacturer e)
                      (Configuration.manufacturer d))),
    (negb (QString.eqb (Configuration.product e) (Configuration.product d))),
    (negb (USBParameters.eqb (Configuration.usbParameters e)
             (Configuration.usbParameters d))),
    (negb (ChipSettings.eqb (Configuration.chipSettings e)
             (Configuration.chipSettings d))),
    (negb (SPISettings.eqb (Configuration.spiSettings e)
             (Configuration.spiSettings d))),
    (checkBoxApplyImmediately (ui w)).
  intros [|] [|] [|] [|] [|] [|]; reflexivity.
Qed.

Lemma buildTaskList_members (dm dp du dc ds ap : bool) :
  let tasks := buildTaskList dm dp du dc ds ap in
  (In "writeManufacturerDesc"%string tasks <-> dm = true) /\
  (In "writeProductDesc"%string tasks <-> dp = true) /\
  (In "writeUSBParameters"%string tasks <-> du = true) /\
  (In "writeChipSettings"%string tasks <-> dc = true) /\
  In "verifyConfiguration"%string tasks /\
  (In "applyChipSettings"%string tasks <-> ap = true /\ dc = true) /\
  (In "applySPISettings"%string tasks <-> ap = true /\ ds = true).
Proof.
  destruct dm, dp, du, dc, ds, ap; cbv [buildTaskList andb app In];
    repeat split; intros; auto;
    repeat match goal with
           | H : _ \/ _ |- _ => destruct H
           | H : _ /\ _ |- _ => destruct H
           | H : False |- _ => destruct H
           end; try discriminate; auto 10.
Qed.

(** C4.  For every edited and device configuration and every state of the
    apply-immediately check box, the task list is: [writeManufacturerDesc]
    iff the manufacturers differ, [writeProductDesc] iff the products differ,
    [writeUSBParameters] iff the USB parameters differ, [writeChipSettings]
    iff the chip settings differ, then always [verifyConfiguration], then,
    only when apply-immediately is checked, [applyChipSettings] iff the chip
    settings differ and [applySPISettings] iff the SPI settings differ; for
    equal configurations it is exactly [verifyConfiguration]. *)
Theorem prepareTaskList_correct w :
  let e := editedConfiguration_ w in
  let d := deviceConfiguration_ w in
  let tasks := prepareTaskList w in
  (exists dm dp du dc ds : bool,
      (dm = true <-> Configuration.manufacturer e <> Configuration.manufacturer d) /\
      (dp = true <-> Configuration.product e <> Configuration.product d) /\
      (du = true <-> Configuration.usbParameters e <> Configuration.usbParameters d) /\
      (dc = true <-> Configuration.chipSettings e <> Configuration.chipSettings d) /\
      (ds = true <-> Configuration.spiSettings e <> Configuration.spiSettings d) /\
      tasks = buildTaskList dm dp du dc ds (checkBoxApplyImmediately (ui w))) /\
  (In "writeManufacturerDesc"%string tasks <->
     Configuration.manufacturer e <> Configuration.manufacturer d) /\
  (In "writeProductDesc"%string tasks <->
     Configuration.product e <> Configuration.product d) /\
  (In "writeUSBParameters"%string tasks <->
     Configuration.usbParameters e <> Configuration.usbParameters d) /\
  (In "writeChipSettings"%string tasks <->
     Configuration.chipSettings e <> Configuration.chipSettings d) /\
  In "verifyConfiguration"%string tasks /\
  (In "applyChipSettings"%string tasks <->
     checkBoxApplyImmediately (ui w) = true /\
     Configuration.chipSettings e <> Configuration.chipSettings d) /\
  (In "applySPISettings"%string tasks <->
     checkBoxApplyImmediately (ui w) = true /\
     Configuration.spiSettings e <> Configuration.spiSettings d) /\
  (e = d -> tasks = ["verifyConfiguration"%string]).
Proof.
  intros e d tasks.
  pose proof (prepareTaskList_flags w) as E. cbv zeta in E. fold e d tasks in E.
  pose proof (differs_iff _ QString_eqb_eq (Configuration.manufacturer e)
                (Configuration.manufacturer d)) as Hm.
  pose proof (differs_iff _ QString_eqb_eq (Configuration.product e)
                (Configuration.product d)) as Hp.
  pose proof (differs_iff _ USBParameters_eqb_eq (Configuration.usbParameters e)
                (Configuration.usbParameters d)) as Hu.
  pose proof (differs_iff _ ChipSettings_eqb_eq (Configuration.chipSettings e)
                (Configuration.chipSettings d)) as Hc.
  pose proof (differs_iff _ SPISettings_eqb_eq (Configuration.spiSettings e)
                (Configuration.spiSettings d)) as Hs.
  split.
  { do 5 eexists.
    split; [exact Hm|]. split; [exact Hp|]. split; [exact Hu|].
    split; [exact Hc|]. split; [exact Hs|]. exact E. }
  match type of E with _ = buildTaskList ?a ?b ?c ?f ?g ?h =>
    pose proof (buildTaskList_members a b c f g h) as M end.
  cbv zeta in M. rewrite <- E in M.
  destruct M as (M1 & M2 & M3 & M4 & M5 & M6 & M7).
  rewrite Hm in M1. rewrite Hp in M2. rewrite Hu in M3. rewrite Hc in M4.
  rewrite Hc in M6. rewrite Hs in M7.
  split; [exact M1|]. split; [exact M2|]. split; [exact M3|].
  split; [exact M4|]. split; [exact M5|]. split; [exact M6|].
  split; [exact M7|].
  intros Heq. rewrite E.
  assert (F : forall b : bool, (b = true <-> False) -> b = false)
    by (intros [|]; tauto).
  rewrite (F _ (conj (fun H => proj1 Hm H (f_equal _ Heq)) (False_ind _))).
  rewrite (F _ (conj (fun H => proj1 Hp H (f_equal _ Heq)) (False_ind _))).
  rewrite (F _ (conj (fun H => proj1 Hu H (f_equal _ Heq)) (False_ind _))).
  rewrite (F _ (conj (fun H => proj1 Hc H (f_equal _ Heq)) (False_ind _))).
  rewrite (F _ (conj (fun H => proj1 Hs H (f_equal _ Heq)) (False_ind _))).
  unfold buildTaskList. rewrite !andb_false_r. reflexivity.
Qed.

End TaskList.

(* ================================================================== *)
(** * Capturing the edited configuration *)

Section Capture.

Context {Dev : Type} {mcp2210 : MCP2210.t Dev}.
Variable toUShort : QString.t -> Z -> Z.
Implicit Type w : Window Dev.

Lemma getEditedConfiguration_spi w :
  Configuration.spiSettings (editedConfiguration_ (getEditedConfiguration toUShort w))
  = Configuration.spiSettings (deviceConfiguration_ w).
Proof.
  unfold getEditedConfiguration; simpl.
  destruct (Configuration.spiSettings (deviceConfiguration_ w)); reflexivity.
Qed.

Lemma getEditedConfiguration_frame w :
  let w' := getEditedConfiguration toUShort w in
  deviceConfiguration_ w' = deviceConfiguration_ w /\ ui w' = ui w /\
  mcp2210_ w' = mcp2210_ w /\ err_ w' = err_ w.
Proof. unfold getEditedConfiguration; simpl; auto. Qed.

(** C10.  After every execution of [getEditedConfiguration] the edited SPI
    settings equal the device-resident SPI settings, field by field, the
    device-resident configuration being untouched; so the task list prepared
    next, as in the write flow (where [configureDevice] first clears [err_]),
    never contains [applySPISettings], whatever the state of the
    apply-immediately check box. *)
Theorem capture_never_applies_spi w :
  let w' := getEditedConfiguration toUShort w in
  let e := Configuration.spiSettings (editedConfiguration_ w') in
  let d := Configuration.spiSettings (deviceConfiguration_ w') in
  (SPISettings.nbytes e = SPISettings.nbytes d /\
   SPISettings.bitrate e = SPISettings.bitrate d /\
   SPISettings.mode e = SPISettings.mode d /\
   SPISettings.actcs e = SPISettings.actcs d /\
   SPISettings.idlcs e = SPISettings.idlcs d /\
   SPISettings.csdtdly e = SPISettings.csdtdly d /\
   SPISettings.dtcsdly e = SPISettings.dtcsdly d /\
   SPISettings.itbytdly e = SPISettings.itbytdly d) /\
  e = d /\
  deviceConfiguration_ w' = deviceConfiguration_ w /\
  ~ In "applySPISettings"%string (prepareTaskList w') /\
  ~ In "applySPISettings"%string (prepareTaskList (set_err_ w' false)).
Proof.
  intros w' e d.
  assert (E : e = d).
  { unfold e, d, w'. rewrite getEditedConfiguration_spi.
    now destruct (getEditedConfiguration_frame w) as (-> & _). }
  split; [rewrite E; repeat split|].
  split; [exact E|].
  split; [apply getEditedConfiguration_frame|].
  assert (N : forall x : Window Dev,
             Configuration.spiSettings (editedConfiguration_ x)
             = Configuration.spiSettings (deviceConfiguration_ x) ->
             ~ In "applySPISettings"%string (prepareTaskList x)).
  { intros x Hx H. rewrite prepareTaskList_flags in H. cbv zeta in H.
    apply buildTaskList_members in H. destruct H as [_ H].
    apply (differs_iff _ SPISettings_eqb_eq) in H. exact (H Hx). }
  split; apply N; exact E.
Qed.

End Capture.

(* ================================================================== *)
(** * The operation validator *)

Section Strings.

Lemma chop_last (body : QString.t) (c : QString.QChar) :
  QString.chop 1 (body ++ [c]) = body.
Proof.
  unfold QString.chop. rewrite length_app. simpl.
  rewrite Nat.add_sub, firstn_app, Nat.sub_diag, firstn_all. simpl.
  apply app_nil_r.
Qed.

Lemma split_nonempty (sep : QString.QChar) (s : QString.t) :
  exists l ls, QString.split sep s = l :: ls.
Proof.
  induction s as [|c s (l & ls & E)]; simpl; [eauto|].
  destruct (N.eqb c sep); [eauto | rewrite E; eauto].
Qed.

(** Replacing each line feed by a line feed and a bullet is joining the
    lines with a line feed and a bullet. *)
Lemma replace_joins_lines (after s : QString.t) :
  QString.replace [QString.LF] after s
  = QString.join after (QString.split QString.LF s).
Proof.
  unfold QString.replace.
  induction s as [|c s IH]; [reflexivity|].
  cbn [QString.replace_scan QString.startsWith QString.split List.length Nat.sub].
  rewrite N.eqb_sym, andb_true_r.
  destruct (N.eqb c QString.LF).
  - rewrite IH. destruct (split_nonempty QString.LF s) as (l & ls & ->).
    simpl. now rewrite app_assoc.
  - rewrite IH. destruct (split_nonempty QString.LF s) as (l & ls & ->).
    reflexivity.
Qed.

Lemma bullets_of_join (sep : QString.t) (ls : list QString.t) :
  ls <> [] ->
  sep ++ QString.join sep ls = flat_map (fun line => sep ++ line) ls.
Proof.
  destruct ls as [|l ls]; [congruence|]. intros _. simpl.
  now rewrite app_assoc.
Qed.

(** The format of the failure message with both place markers filled. *)
Lemma arg2_fmtFailed (operation lines : QString.t) :
  QString.arg2 fmtFailed operation lines
  = failedMessage operation (bullet ++ lines).
Proof.
  unfold failedMessage, fmtFailed, bullet. cbn.
  now rewrite app_nil_r.
Qed.

Lemma failedMessage_not_verification (operation lines : QString.t) :
  failedMessage operation lines <> msgFailedVerification.
Proof. unfold failedMessage, msgFailedVerification. cbn. discriminate. Qed.

Lemma msgDisconnected_not_verification : msgDisconnected <> msgFailedVerification.
Proof. unfold msgDisconnected, msgFailedVerification. cbn. discriminate. Qed.

End Strings.

Section Validator.

Context {Dev : Type} {mcp2210 : MCP2210.t Dev}.
Implicit Type w : Window Dev.

Lemma validateOperation_clean (operation : QString.t) (errcnt : Z)
    (errstr : QString.t) w :
  errcnt <= 0 -> validateOperation operation errcnt errstr w = w.
Proof.
  intros H. unfold validateOperation.
  destruct (Z.ltb_spec 0 errcnt); [lia | reflexivity].
Qed.

Lemma validateOperation_disconnected (operation : QString.t) (errcnt : Z)
    (errstr : QString.t) w :
  0 < errcnt -> MCP2210.disconnected (mcp2210_ w) = true ->
  validateOperation operation errcnt errstr w
  = set_errmsg_ (set_err_ w true) msgDisconnected.
Proof.
  intros H D. unfold validateOperation.
  destruct (Z.ltb_spec 0 errcnt); [|lia]. simpl. now rewrite D.
Qed.

Lemma validateOperation_failed (operation : QString.t) (errcnt : Z)
    (errstr : QString.t) w :
  0 < errcnt -> MCP2210.disconnected (mcp2210_ w) = false ->
  validateOperation operation errcnt errstr w
  = set_errmsg_ (set_err_ w true)
      (failedMessage operation
         (flat_map (fun line => bullet ++ line)
            (QString.split QString.LF (QString.chop 1 errstr)))).
Proof.
  intros H D. unfold validateOperation.
  destruct (Z.ltb_spec 0 errcnt); [|lia]. cbv zeta.
  change (mcp2210_ (set_err_ w true)) with (mcp2210_ w). rewrite D.
  unfold tr_n. rewrite arg2_fmtFailed, replace_joins_lines, bullets_of_join;
    [reflexivity|].
  destruct (split_nonempty QString.LF (QString.chop 1 errstr)) as (l & ls & ->).
  discriminate.
Qed.

(** The validator never clears [err_]: a failure stays reported. *)
Lemma validateOperation_latch (operation : QString.t) (errcnt : Z)
    (errstr : QString.t) w :
  err_ w = true -> err_ (validateOperation operation errcnt errstr w) = true.
Proof.
  intros H. unfold validateOperation.
  destruct (0 <? errcnt); [|exact H].
  simpl. destruct (MCP2210.disconnected (mcp2210_ w)); reflexivity.
Qed.

Lemma validateOperation_err (operation : QString.t) (errcnt : Z)
    (errstr : QString.t) w :
  err_ (validateOperation operation errcnt errstr w)
  = (0 <? errcnt) || err_ w.
Proof.
  unfold validateOperation. destruct (0 <? errcnt); [|reflexivity].
  simpl. destruct (MCP2210.disconnected (mcp2210_ w)); reflexivity.
Qed.

(** C8.  For every operation name, error count, error text and window:
    with an error count of zero the validator reports nothing, whatever the
    error text (the window is returned as it was, so an operation started
    with [err_] clear is a success); with a positive error count on a
    disconnected device it reports a failure with the fixed reconnect
    message, whatever the error text. *)
Theorem validateOperation_classifies (operation : QString.t) (errcnt : Z)
    (errstr : QString.t) w :
  (errcnt = 0 ->
     validateOperation operation errcnt errstr w = w /\
     (err_ w = false -> err_ (validateOperation operation errcnt errstr w) = false) /\
     forall errstr',
       validateOperation operation errcnt errstr' w
       = validateOperation operation errcnt errstr w) /\
  (0 < errcnt -> MCP2210.disconnected (mcp2210_ w) = true ->
     err_ (validateOperation operation errcnt errstr w) = true /\
     errmsg_ (validateOperation operation errcnt errstr w)
     = QString.lit "Device disconnected." ++ [QString.LF; QString.LF] ++
       QString.lit "Please reconnect it and try again." /\
     forall errstr',
       validateOperation operation errcnt errstr' w
       = validateOperation operation errcnt errstr w).
Proof.
  split.
  - intros ->. rewrite validateOperation_clean by lia.
    split; [reflexivity|]. split; [auto|].
    intros. now rewrite validateOperation_clean by lia.
  - intros H D. rewrite !validateOperation_disconnected by assumption.
    split; [reflexivity|]. split; [reflexivity|].
    intros. now rewrite validateOperation_disconnected.
Qed.

(** C9 (amended).  For every error text, when the error count is positive
    and the device is not disconnected, the failure message is the operation
    name in the sentence "Failed to ... The operation returned the following
    error(s):" followed by one bulleted line per line of the error text
    without its last character.  The last character is removed whatever it
    is; when the error text ends in a line feed, exactly that line feed is
    removed.  The text is the same for every positive error count. *)
Theorem validateOperation_message (operation : QString.t) (errcnt : Z)
    (errstr : QString.t) w :
  0 < errcnt -> MCP2210.disconnected (mcp2210_ w) = false ->
  let w' := validateOperation operation errcnt errstr w in
  err_ w' = true /\
  errmsg_ w'
  = failedMessage operation
      (flat_map (fun line => bullet ++ line)
         (QString.split QString.LF (QString.chop 1 errstr))) /\
  (forall body c, errstr = body ++ [c] -> QString.chop 1 errstr = body) /\
  (forall body, errstr = body ++ [QString.LF] ->
     errmsg_ w'
     = failedMessage operation
         (flat_map (fun line => bullet ++ line) (QString.split QString.LF body))) /\
  (forall n, 0 < n ->
     errmsg_ (validateOperation operation n errstr w) = errmsg_ w').
Proof.
  intros H D w'. unfold w'. rewrite validateOperation_failed by assumption.
  split; [reflexivity|]. split; [reflexivity|].
  split; [intros body c ->; apply chop_last|].
  split; [intros body ->; simpl; now rewrite chop_last|].
  intros n Hn. now rewrite validateOperation_failed.
Qed.

End Validator.

(* ================================================================== *)
(** * Reading the device and verifying it *)

Section ReadAndVerify.

Context {Dev : Type} {mcp2210 : MCP2210.t Dev}.
Variable displayConfiguration : Z -> Configuration.t -> Ui -> Ui.
Implicit Type w : Window Dev.

(** The validator touches [err_] and [errmsg_] only. *)
Lemma validateOperation_frame (operation : QString.t) (errcnt : Z)
    (errstr : QString.t) w :
  let w' := validateOperation operation errcnt errstr w in
  mcp2210_ w' = mcp2210_ w /\
  deviceConfiguration_ w' = deviceConfiguration_ w /\
  editedConfiguration_ w' = editedConfiguration_ w /\
  accessMode_ w' = accessMode_ w /\ ui w' = ui w /\ dialogs w' = dialogs w.
Proof.
  unfold validateOperation. destruct (0 <? errcnt); [|simpl; auto 10].
  cbv zeta. destruct (MCP2210.disconnected _); simpl; auto 10.
Qed.

Lemma validateOperation_errmsg (operation : QString.t) (errcnt : Z)
    (errstr : QString.t) w :
  0 < errcnt ->
  errmsg_ (validateOperation operation errcnt errstr w) <> msgFailedVerification.
Proof.
  intros H.
  destruct (MCP2210.disconnected (mcp2210_ w)) eqn:D.
  - rewrite validateOperation_disconnected by assumption.
    exact msgDisconnected_not_verification.
  - rewrite validateOperation_failed by assumption.
    apply failedMessage_not_verification.
Qed.

(** The six reads, one after the other, each on the device the previous one
    left. *)
Lemma readAll_calls w :
  let r1 := MCP2210.getManufacturerDesc (mcp2210_ w) in
  let r2 := MCP2210.getProductDesc (after r1) in
  let r3 := MCP2210.getUSBParameters (after r2) in
  let r4 := MCP2210.getNVChipSettings (after r3) in
  let r5 := MCP2210.getNVSPISettings (after r4) in
  let r6 := MCP2210.getAccessControlMode (after r5) in
  fst (calls readAll w)
    = (Configuration.mk (value r1) (value r2) (value r3) (value r4) (value r5),
       value r6) /\
  dev (snd (calls readAll w)) = after r6 /\
  errcnt (snd (calls readAll w))
    = Z.of_N (nerr r1) + Z.of_N (nerr r2) + Z.of_N (nerr r3) +
      Z.of_N (nerr r4) + Z.of_N (nerr r5) + Z.of_N (nerr r6).
Proof. unfold calls, readAll, bind, request, ret, fresh; simpl. auto. Qed.

Lemma readDeviceConfiguration_unfold w :
  readDeviceConfiguration w
  = validateOperation (QString.lit "read device configuration")
      (errcnt (snd (calls readAll w))) (errstr (snd (calls readAll w)))
      (set_accessMode_
         (set_deviceConfiguration_
            (set_mcp2210_ w (dev (snd (calls readAll w))))
            (fst (fst (calls readAll w))))
         (snd (fst (calls readAll w)))).
Proof.
  unfold readDeviceConfiguration. destruct (calls readAll w) as [r b].
  reflexivity.
Qed.

Lemma readDeviceConfiguration_fields w :
  let w' := readDeviceConfiguration w in
  deviceConfiguration_ w' = fst (fst (calls readAll w)) /\
  accessMode_ w' = snd (fst (calls readAll w)) /\
  mcp2210_ w' = dev (snd (calls readAll w)) /\
  editedConfiguration_ w' = editedConfiguration_ w /\
  err_ w' = (0 <? errcnt (snd (calls readAll w))) || err_ w.
Proof.
  cbv zeta. rewrite readDeviceConfiguration_unfold.
  match goal with |- context [validateOperation ?o ?n ?s ?x] =>
    destruct (validateOperation_frame o n s x) as (F1 & F2 & F3 & F4 & _);
    rewrite F1, F2, F3, F4, validateOperation_err end.
  simpl. auto.
Qed.

(** C7 (amended).  For every execution of [readDeviceConfiguration], with or
    without errors reported by the channel, the stored device configuration
    afterwards consists of the five values the channel returned during the
    call (manufacturer, product, USB parameters, chip settings, SPI
    settings, read in this order); reported errors set [err_] in addition
    and nothing is rolled back. *)
Theorem readDeviceConfiguration_overwrites w :
  let r1 := MCP2210.getManufacturerDesc (mcp2210_ w) in
  let r2 := MCP2210.getProductDesc (after r1) in
  let r3 := MCP2210.getUSBParameters (after r2) in
  let r4 := MCP2210.getNVChipSettings (after r3) in
  let r5 := MCP2210.getNVSPISettings (after r4) in
  let r6 := MCP2210.getAccessControlMode (after r5) in
  let errors :=
    (nerr r1 + nerr r2 + nerr r3 + nerr r4 + nerr r5 + nerr r6)%N in
  let w' := readDeviceConfiguration w in
  deviceConfiguration_ w'
    = Configuration.mk (value r1) (value r2) (value r3) (value r4) (value r5) /\
  accessMode_ w' = value r6 /\
  err_ w' = negb (N.eqb errors 0) || err_ w.
Proof.
  cbv zeta.
  destruct (readDeviceConfiguration_fields w) as (F1 & F2 & _ & _ & F5).
  destruct (readAll_calls w) as (R1 & _ & R3). cbv zeta in R1, R3.
  rewrite F1, F2, F5, R1, R3. simpl.
  repeat split. f_equal.
  match goal with |- (0 <? ?a) = negb (N.eqb ?b 0) =>
    destruct (Z.ltb_spec 0 a); destruct (N.eqb_spec b 0); simpl; auto; lia end.
Qed.

Lemma readDeviceConfiguration_errmsg w :
  0 < errcnt (snd (calls readAll w)) ->
  errmsg_ (readDeviceConfiguration w) <> msgFailedVerification.
Proof.
  intros H. rewrite readDeviceConfiguration_unfold.
  now apply validateOperation_errmsg.
Qed.

Lemma Configuration_differs (a b : Configuration.t) :
  a <> b <->
  Configuration.manufacturer a <> Configuration.manufacturer b \/
  Configuration.product a <> Configuration.product b \/
  Configuration.usbParameters a <> Configuration.usbParameters b \/
  Configuration.chipSettings a <> Configuration.chipSettings b \/
  Configuration.spiSettings a <> Configuration.spiSettings b.
Proof.
  split.
  - intros H.
    destruct a as [m1 p1 u1 c1 s1], b as [m2 p2 u2 c2 s2]. simpl.
    destruct (QString.eqb m1 m2) eqn:E1;
      [apply QString_eqb_eq in E1
      | left; intros E; apply QString_eqb_eq in E; congruence].
    destruct (QString.eqb p1 p2) eqn:E2;
      [apply QString_eqb_eq in E2
      | right; left; intros E; apply QString_eqb_eq in E; congruence].
    destruct (USBParameters.eqb u1 u2) eqn:E3;
      [apply USBParameters_eqb_eq in E3
      | right; right; left; intros E; apply USBParameters_eqb_eq in E;
        congruence].
    destruct (ChipSettings.eqb c1 c2) eqn:E4;
      [apply ChipSettings_eqb_eq in E4
      | right; right; right; left; intros E; apply ChipSettings_eqb_eq in E;
        congruence].
    right; right; right; right. intros E5. apply H. congruence.
  - intros H E. subst b. intuition.
Qed.

(** C6.  The verification task, run with [err_] clear as the task runner
    runs it, re-reads the full device configuration into
    [deviceConfiguration_] and compares it with [editedConfiguration_]:
    when the re-read reports no error and any field differs, it reports a
    failure whose message is exactly "Failed verification."; when the
    re-read reports no error and every field matches, it reports no
    failure; and the message of a re-read with transport errors is never
    "Failed verification.". *)
Theorem verifyConfiguration_verdict w :
  err_ w = false ->
  let read := fst (fst (calls readAll w)) in
  let errors := errcnt (snd (calls readAll w)) in
  let edited := editedConfiguration_ w in
  let w' := verifyConfiguration displayConfiguration w in
  deviceConfiguration_ w' = read /\
  editedConfiguration_ w' = edited /\
  (errors = 0 ->
     (Configuration.manufacturer read <> Configuration.manufacturer edited \/
      Configuration.product read <> Configuration.product edited \/
      Configuration.usbParameters read <> Configuration.usbParameters edited \/
      Configuration.chipSettings read <> Configuration.chipSettings edited \/
      Configuration.spiSettings read <> Configuration.spiSettings edited) ->
     err_ w' = true /\ errmsg_ w' = QString.lit "Failed verification.") /\
  (errors = 0 -> read = edited -> err_ w' = false) /\
  (0 < errors -> err_ w' = true /\ errmsg_ w' <> QString.lit "Failed verification.").
Proof.
  intros He read errors edited w'.
  pose proof (readDeviceConfiguration_fields w) as F. cbv zeta in F.
  destruct F as (F1 & _ & _ & F4 & F5). rewrite He, orb_false_r in F5.
  pose proof (readDeviceConfiguration_errmsg w) as F6.
  fold read in F1. fold errors in F5, F6. fold edited in F4.
  unfold w', verifyConfiguration. cbv zeta. clear w'.
  clearbody read errors edited.
  revert F1 F4 F5 F6. generalize (readDeviceConfiguration w). clear w He.
  intros [d1 e1 m1 dc1 ec1 a1 v1 u1 ds1].
  cbn [deviceConfiguration_ editedConfiguration_ err_ errmsg_ ui accessMode_].
  intros -> -> -> F6.
  destruct (Z.ltb_spec 0 errors) as [Hpos | Hzero]; cbn [negb].
  - cbn [deviceConfiguration_ editedConfiguration_ err_ errmsg_].
    split; [reflexivity|]. split; [reflexivity|].
    split; [intros; lia|]. split; [intros; lia|].
    intros _. split; [reflexivity | exact (F6 Hpos)].
  - unfold set_ui, set_err_, set_errmsg_.
    cbn [deviceConfiguration_ editedConfiguration_ err_ errmsg_ ui accessMode_
           mcp2210_ viewEnabled_ dialogs].
    destruct (Configuration.eqb read edited) eqn:E; cbn [negb];
      cbn [deviceConfiguration_ editedConfiguration_ err_ errmsg_].
    + apply Configuration_eqb_eq in E.
      split; [reflexivity|]. split; [reflexivity|].
      split; [|split; [reflexivity | intros; lia]].
      intros _ D. apply Configuration_differs in D. contradiction.
    + split; [reflexivity|]. split; [reflexivity|].
      split; [intros; split; reflexivity|].
      split; [|intros; lia].
      intros _ Eq. apply Configuration_eqb_eq in Eq. congruence.
Qed.

End ReadAndVerify.

(* ================================================================== *)
(** * The task runner *)

Section TaskRunner.

Context {Dev : Type} {mcp2210 : MCP2210.t Dev}.
Variable displayConfiguration : Z -> Configuration.t -> Ui -> Ui.
Implicit Type w : Window Dev.

Lemma run_cons (task : string) (rest : list string) w :
  runInOrder displayConfiguration (task :: rest) w
  = runInOrder displayConfiguration rest
      (invokeMethod displayConfiguration task w).
Proof. reflexivity. Qed.

(** The loop runs a prefix of the list, in list order; it goes on only
    while no task has reported a failure, and stops short of the end only
    on a failure. *)
Lemma configureLoop_prefix (tasks : list string) :
  forall w, err_ w = false ->
  exists k, (k <= List.length tasks)%nat /\
    configureLoop displayConfiguration tasks w
    = runInOrder displayConfiguration (firstn k tasks) w /\
    (forall j, (j < k)%nat ->
       err_ (runInOrder displayConfiguration (firstn j tasks) w) = false) /\
    ((k < List.length tasks)%nat ->
       err_ (configureLoop displayConfiguration tasks w) = true).
Proof.
  induction tasks as [|task rest IH]; intros w He.
  - exists 0%nat. simpl. repeat split; auto; intros; lia.
  - simpl configureLoop.
    destruct (err_ (invokeMethod displayConfiguration task w)) eqn:E.
    + exists 1%nat. simpl List.length. split; [lia|].
      split; [reflexivity|]. split; [|intros _; exact E].
      intros j Hj. assert (j = 0%nat) as -> by lia. exact He.
    + destruct (IH _ E) as (k & Hk & Hrun & Hclean & Hstop).
      exists (S k). simpl List.length. split; [lia|].
      split; [rewrite firstn_cons, run_cons; exact Hrun|].
      split.
      * intros [|j] Hj; [exact He|].
        rewrite firstn_cons, run_cons. apply Hclean. lia.
      * intros Hlt. apply Hstop. lia.
Qed.

Lemma configureLoop_success (tasks : list string) w :
  err_ w = false ->
  (err_ (configureLoop displayConfiguration tasks w) = false <->
   validatedCleanly displayConfiguration tasks w).
Proof.
  intros He.
  destruct (configureLoop_prefix tasks w He) as (k & Hk & Hrun & Hclean & Hstop).
  split.
  - intros Hok j Hj.
    assert (k = List.length tasks) as ->.
    { destruct (Nat.eq_dec k (List.length tasks)); [assumption|].
      rewrite Hstop in Hok by lia. discriminate. }
    destruct (Nat.eq_dec j (List.length tasks)) as [-> | Hne].
    + rewrite <- Hrun. exact Hok.
    + apply Hclean. lia.
  - intros Hall. rewrite Hrun. apply Hall. exact Hk.
Qed.

Lemma handleError_err w : err_ (handleError w) = err_ w.
Proof.
  unfold handleError.
  destruct (MCP2210.disconnected (mcp2210_ w) || negb (MCP2210.isOpen (mcp2210_ w)));
    reflexivity.
Qed.

(** C5.  For every task list, run from a window whose [err_] has just been
    cleared as [configureDevice] does: the tasks executed are the first [k]
    of the list, in list order; every task executed before the [k]-th left
    [err_] clear, so the [k]-th is at most the first task that reports a
    failure and no task after that one is executed; when the loop stops
    short of the end, [err_] is set; and the loop ends with [err_] clear iff
    every task of the list validated cleanly.  [configureDevice] itself, on
    the list it prepares, ends with [err_] clear and the message "Device was
    successfully configured." iff every task validated cleanly, and
    otherwise with the error message "The device configuration could not be
    completed.". *)
Theorem configureDevice_runs_in_order (tasks : list string) w :
  let w0 := set_err_ w false in
  let executed := configureLoop displayConfiguration tasks w0 in
  let after_first j := runInOrder displayConfiguration (firstn j tasks) w0 in
  let done := configureDevice displayConfiguration w in
  (exists k, (k <= List.length tasks)%nat /\
     executed = after_first k /\
     (forall j, (j < k)%nat -> err_ (after_first j) = false) /\
     (forall j, (j <= List.length tasks)%nat ->
        err_ (after_first j) = true -> (k <= j)%nat) /\
     ((k < List.length tasks)%nat -> err_ executed = true)) /\
  (err_ executed = false <-> validatedCleanly displayConfiguration tasks w0) /\
  (err_ done = false <->
     validatedCleanly displayConfiguration (prepareTaskList w0) w0) /\
  (exists shown,
     dialogs done
     = shown ++
       [if err_ done
        then mkDialog Critical (QString.lit "Error")
               (QString.lit "The device configuration could not be completed.")
        else mkDialog Information (QString.lit "Device Configured")
               (QString.lit "Device was successfully configured.")]).
Proof.
  intros w0 executed after_first done.
  assert (He : err_ w0 = false) by reflexivity.
  split.
  { destruct (configureLoop_prefix tasks w0 He) as (k & Hk & Hrun & Hclean & Hstop).
    exists k. split; [exact Hk|]. split; [exact Hrun|].
    split; [exact Hclean|]. split; [|exact Hstop].
    intros j _ Hj. destruct (Nat.le_gt_cases k j) as [|Hlt]; [assumption|].
    unfold after_first in Hj. rewrite (Hclean j Hlt) in Hj. discriminate. }
  split; [exact (configureLoop_success tasks w0 He)|].
  assert (Herr : err_ done
                 = err_ (configureLoop displayConfiguration (prepareTaskList w0) w0)).
  { unfold done, configureDevice. fold w0. cbv zeta.
    destruct (err_ (configureLoop displayConfiguration (prepareTaskList w0) w0)) eqn:E;
      unfold messageBox; cbn [err_]; [rewrite handleError_err|]; exact E. }
  split; [rewrite Herr; exact (configureLoop_success _ w0 He)|].
  rewrite Herr. unfold done, configureDevice. fold w0. cbv zeta.
  destruct (err_ (configureLoop displayConfiguration (prepareTaskList w0) w0));
    unfold messageBox; cbn [dialogs]; eexists; reflexivity.
Qed.

End TaskRunner.

(* ================================================================== *)
(** * The bit rate search, on any channel *)

Section BitRateSearch.

Context {Dev : Type} {mcp2210 : MCP2210.t Dev} {limits : MCP2210Limits.t}.
Implicit Type w : Window Dev.
Implicit Type s : @SearchState Dev.

(** Once an error is counted the loop is left, whatever the fuel. *)
Lemma searchLoop_error (fuel : nat) (current : SPISettings.t) (bitrate : Z) s :
  errcnt (bus s) <> 0 -> searchLoop fuel current bitrate s = Some s.
Proof.
  intros H. destruct fuel; simpl;
    destruct (Z.eqb_spec (errcnt (bus s)) 0); congruence.
Qed.

(** One turn of the loop, when no error is counted yet. *)
Lemma searchLoop_turn (fuel : nat) (current : SPISettings.t) (bitrate : Z) s :
  errcnt (bus s) = 0 ->
  let t := testBitrate s in
  let r := fst (probe (SPISettings.set_bitrate current t) (bus s)) in
  let b := snd (probe (SPISettings.set_bitrate current t) (bus s)) in
  let log := probes s ++ [(t, r)] in
  let ge := if bitrate <=? t then t else nearestGreaterOrEqualBitrate s in
  searchLoop (S fuel) current bitrate s
  = if r =? t then
      if t <=? bitrate then Some (mkSearch b t ge t log)
      else searchLoop fuel current bitrate
             (mkSearch b (quint32 (t - 1)) ge (nearestLesserOrEqualBitrate s) log)
    else searchLoop fuel current bitrate
           (mkSearch b r (nearestGreaterOrEqualBitrate s)
              (nearestLesserOrEqualBitrate s) log).
Proof.
  intros H. cbn [searchLoop]. rewrite H. cbn [Z.eqb].
  destruct (probe (SPISettings.set_bitrate current (testBitrate s)) (bus s))
    as [r b].
  reflexivity.
Qed.

(** The two candidates stay on their side of the request. *)
Lemma searchLoop_sides (current : SPISettings.t) (bitrate : Z) (fuel : nat) :
  forall s s',
    searchLoop fuel current bitrate s = Some s' ->
    bitrate <= nearestGreaterOrEqualBitrate s ->
    nearestLesserOrEqualBitrate s <= bitrate ->
    nearestLesserOrEqualBitrate s' <= bitrate <= nearestGreaterOrEqualBitrate s'.
Proof.
  induction fuel as [|fuel IH]; intros s s' Hrun Hge Hle.
  - simpl in Hrun. destruct (errcnt (bus s) =? 0); [discriminate|].
    injection Hrun as <-. lia.
  - destruct (Z.eq_dec (errcnt (bus s)) 0) as [E | E].
    + rewrite searchLoop_turn in Hrun by exact E. cbv zeta in Hrun.
      destruct (_ =? testBitrate s) in Hrun.
      * destruct (Z.leb_spec (testBitrate s) bitrate) as [L | L].
        -- injection Hrun as <-. simpl.
           destruct (Z.leb_spec bitrate (testBitrate s)); lia.
        -- apply IH in Hrun; [exact Hrun | simpl | simpl; exact Hle].
           destruct (Z.leb_spec bitrate (testBitrate s)); lia.
      * apply IH in Hrun; [exact Hrun | exact Hge | exact Hle].
    + rewrite searchLoop_error in Hrun by exact E. injection Hrun as <-. lia.
Qed.

(** The error count never goes below zero. *)
Lemma searchLoop_errcnt (current : SPISettings.t) (bitrate : Z) (fuel : nat) :
  forall s s',
    searchLoop fuel current bitrate s = Some s' ->
    0 <= errcnt (bus s) -> 0 <= errcnt (bus s').
Proof.
  induction fuel as [|fuel IH]; intros s s' Hrun H0.
  - simpl in Hrun. destruct (errcnt (bus s) =? 0); [discriminate|].
    now injection Hrun as <-.
  - destruct (Z.eq_dec (errcnt (bus s)) 0) as [E | E].
    + rewrite searchLoop_turn in Hrun by exact E. cbv zeta in Hrun.
      assert (P : 0 <= errcnt (snd (probe (SPISettings.set_bitrate current
                                             (testBitrate s)) (bus s)))).
      { unfold probe, bind, request, ret. simpl. lia. }
      destruct (_ =? testBitrate s) in Hrun;
        [destruct (testBitrate s <=? bitrate) in Hrun|];
        [injection Hrun as <-; exact P | |]; apply IH in Hrun; auto.
    + rewrite searchLoop_error in Hrun by exact E. now injection Hrun as <-.
Qed.

(** On a device whose bit rates are 32-bit values, so are the candidates. *)
Lemma searchLoop_range (current : SPISettings.t) (bitrate : Z) (fuel : nat) :
  (forall d : Dev,
      0 <= SPISettings.bitrate (value (MCP2210.getSPISettings d)) < 2 ^ 32) ->
  forall s s',
    searchLoop fuel current bitrate s = Some s' ->
    0 <= nearestLesserOrEqualBitrate s ->
    nearestGreaterOrEqualBitrate s < 2 ^ 32 ->
    0 <= nearestLesserOrEqualBitrate s' /\
    nearestGreaterOrEqualBitrate s' < 2 ^ 32.
Proof.
  intros Hdev.
  induction fuel as [|fuel IH]; intros s s' Hrun Hle Hge.
  - simpl in Hrun. destruct (errcnt (bus s) =? 0); [discriminate|].
    injection Hrun as <-. auto.
  - destruct (Z.eq_dec (errcnt (bus s)) 0) as [E | E].
    + rewrite searchLoop_turn in Hrun by exact E. cbv zeta in Hrun.
      assert (P : 0 <= fst (probe (SPISettings.set_bitrate current
                                     (testBitrate s)) (bus s)) < 2 ^ 32).
      { unfold probe, bind, request, ret. cbn [fst]. apply Hdev. }
      destruct (Z.eqb_spec (fst (probe (SPISettings.set_bitrate current
                                          (testBitrate s)) (bus s)))
                  (testBitrate s)) as [Heq | Hne].
      * rewrite Heq in P.
        destruct (Z.leb_spec (testBitrate s) bitrate) as [L | L].
        -- injection Hrun as <-. simpl.
           destruct (bitrate <=? testBitrate s); lia.
        -- apply IH in Hrun; [exact Hrun | exact Hle | simpl].
           destruct (bitrate <=? testBitrate s); lia.
      * apply IH in Hrun; [exact Hrun | exact Hle | exact Hge].
    + rewrite searchLoop_error in Hrun by exact E. injection Hrun as <-. auto.
Qed.

(** What the function does after the loop. *)
Lemma getNearestCompatibleBitRate_unfold (fuel : nat) (bitrate : Z) w :
  let first := MCP2210.getSPISettings (mcp2210_ w) in
  let snapshot := value first in
  let b0 := mkBus (after first) (Z.of_N (nerr first)) (text first) in
  getNearestCompatibleBitRate fuel bitrate w
  = match searchLoop fuel snapshot bitrate
            (mkSearch b0 (quint32 (4 * bitrate)) MCP2210Limits.BITRATE_MAX
               MCP2210Limits.BITRATE_MIN [])
    with
    | None => None
    | Some s =>
        let back := MCP2210.configureSPISettings snapshot (dev (bus s)) in
        let ge := nearestGreaterOrEqualBitrate s in
        let le := nearestLesserOrEqualBitrate s in
        Some (mkFound
                (if quint32 (ge - bitrate) <? quint32 (bitrate - le) then ge else le)
                (validateOperation (QString.lit "get bit rate")
                   (errcnt (bus s) + Z.of_N (nerr back))
                   (errstr (bus s) ++ text back)
                   (set_mcp2210_ w (after back)))
                s)
    end.
Proof. reflexivity. Qed.

(** C2 (amended).  For every requested bit rate, channel and run of the
    search that returns: the settings read by the first device call are the
    snapshot, and the last device call writes exactly this snapshot back to
    the device as the loop left it, whether or not errors were counted; so
    the volatile SPI settings on exit are the snapshot whenever the device
    stores that last write.  The loop is left as soon as an error is counted,
    whatever fuel is left, and the error is reported; an error counted by
    the first read leaves no room for a probe, and the snapshot is written
    back all the same. *)
Theorem snapshot_written_back (fuel : nat) (bitrate : Z) w (f : Found) :
  getNearestCompatibleBitRate fuel bitrate w = Some f ->
  let first := MCP2210.getSPISettings (mcp2210_ w) in
  let snapshot := value first in
  let left := dev (bus (search f)) in
  mcp2210_ (window f) = after (MCP2210.configureSPISettings snapshot left) /\
  (value (MCP2210.getSPISettings
            (after (MCP2210.configureSPISettings snapshot left))) = snapshot ->
   value (MCP2210.getSPISettings (mcp2210_ (window f))) = snapshot) /\
  (forall fuel' s, errcnt (bus s) <> 0 ->
     searchLoop fuel' snapshot bitrate s = Some s) /\
  (errcnt (bus (search f)) <> 0 -> err_ (window f) = true) /\
  (nerr first <> 0%N ->
   probes (search f) = [] /\ left = after first /\
   forall fuel', exists f',
     getNearestCompatibleBitRate fuel' bitrate w = Some f' /\
     probes (search f') = [] /\
     mcp2210_ (window f')
     = after (MCP2210.configureSPISettings snapshot (after first))).
Proof.
  intros Hrun first snapshot left.
  pose proof (getNearestCompatibleBitRate_unfold fuel bitrate w) as U.
  cbv zeta in U. fold first snapshot in U. rewrite Hrun in U.
  destruct (searchLoop fuel snapshot bitrate _) as [s|] eqn:L; [|discriminate].
  injection U as ->. cbn [window search].
  match goal with |- context [validateOperation ?o ?n ?e ?x] =>
    destruct (validateOperation_frame o n e x) as (F1 & _);
    pose proof (validateOperation_err o n e x) as F2 end.
  rewrite F1. cbn [set_mcp2210_ mcp2210_].
  split; [reflexivity|]. split; [auto|].
  split; [intros; now apply searchLoop_error|]. split.
  - intros E. rewrite F2.
    assert (0 <= errcnt (bus s)) by (apply (searchLoop_errcnt _ _ _ _ _ L); simpl; lia).
    destruct (Z.ltb_spec 0 (errcnt (bus s) +
                Z.of_N (nerr (MCP2210.configureSPISettings snapshot (dev (bus s))))));
      [reflexivity | lia].
  - intros E.
    assert (E0 : forall n,
               searchLoop n snapshot bitrate
                 (mkSearch (mkBus (after first) (Z.of_N (nerr first)) (text first))
                    (quint32 (4 * bitrate)) MCP2210Limits.BITRATE_MAX
                    MCP2210Limits.BITRATE_MIN [])
               = Some (mkSearch (mkBus (after first) (Z.of_N (nerr first)) (text first))
                         (quint32 (4 * bitrate)) MCP2210Limits.BITRATE_MAX
                         MCP2210Limits.BITRATE_MIN [])).
    { intros n. apply searchLoop_error. simpl. lia. }
    rewrite E0 in L. injection L as <-. unfold left. cbn [search bus dev probes].
    split; [reflexivity|]. split; [reflexivity|].
    intros fuel'. eexists. rewrite getNearestCompatibleBitRate_unfold.
    cbv zeta. fold first snapshot. rewrite E0. split; [reflexivity|].
    cbn [search window probes bus dev].
    match goal with |- context [validateOperation ?o ?n ?e ?x] =>
      destruct (validateOperation_frame o n e x) as (G1 & _) end.
    rewrite G1. split; reflexivity.
Qed.

(** C3 (amended).  For every requested bit rate and every run of the search
    that returns, the value returned is [nearestGreaterOrEqualBitrate]
    exactly when the difference to it, reduced modulo [2^32], is strictly
    less than the difference from [nearestLesserOrEqualBitrate], reduced
    modulo [2^32], and [nearestLesserOrEqualBitrate] otherwise.  When the
    request lies between the two candidates and these are 32-bit values -
    as is the case for every request from [BITRATE_MIN] to [BITRATE_MAX] on
    a device whose bit rates are 32-bit values - this is the candidate of
    smaller absolute distance, a tie going to
    [nearestLesserOrEqualBitrate]. *)
Theorem nearest_of_candidates (fuel : nat) (bitrate : Z) w (f : Found) :
  getNearestCompatibleBitRate fuel bitrate w = Some f ->
  let ge := nearestGreaterOrEqualBitrate (search f) in
  let le := nearestLesserOrEqualBitrate (search f) in
  let nearest :=
    retval f = (if ge - bitrate <? bitrate - le then ge else le) /\
    Z.abs (retval f - bitrate)
      = Z.min (Z.abs (ge - bitrate)) (Z.abs (le - bitrate)) /\
    (Z.abs (ge - bitrate) = Z.abs (le - bitrate) -> retval f = le) in
  retval f
    = (if (ge - bitrate) mod 2 ^ 32 <? (bitrate - le) mod 2 ^ 32 then ge else le) /\
  (0 <= le <= bitrate -> bitrate <= ge < 2 ^ 32 -> nearest) /\
  (MCP2210Limits.BITRATE_MIN <= bitrate <= MCP2210Limits.BITRATE_MAX ->
     le <= bitrate <= ge) /\
  ((forall d : Dev,
       0 <= SPISettings.bitrate (value (MCP2210.getSPISettings d)) < 2 ^ 32) ->
   0 <= MCP2210Limits.BITRATE_MIN -> MCP2210Limits.BITRATE_MAX < 2 ^ 32 ->
   MCP2210Limits.BITRATE_MIN <= bitrate <= MCP2210Limits.BITRATE_MAX ->
   nearest).
Proof.
  intros Hrun ge le nearest.
  pose proof (getNearestCompatibleBitRate_unfold fuel bitrate w) as U.
  cbv zeta in U. rewrite Hrun in U.
  destruct (searchLoop fuel _ bitrate _) as [s|] eqn:L; [|discriminate].
  injection U as ->. unfold nearest. cbn [retval search] in *. fold ge le.
  unfold quint32.
  assert (Hnear : 0 <= le <= bitrate -> bitrate <= ge < 2 ^ 32 ->
            (if (ge - bitrate) mod 2 ^ 32 <? (bitrate - le) mod 2 ^ 32
             then ge else le)
            = (if ge - bitrate <? bitrate - le then ge else le) /\
            Z.abs ((if (ge - bitrate) mod 2 ^ 32 <? (bitrate - le) mod 2 ^ 32
                    then ge else le) - bitrate)
            = Z.min (Z.abs (ge - bitrate)) (Z.abs (le - bitrate)) /\
            (Z.abs (ge - bitrate) = Z.abs (le - bitrate) ->
             (if (ge - bitrate) mod 2 ^ 32 <? (bitrate - le) mod 2 ^ 32
              then ge else le) = le)).
  { intros Hle Hge.
    rewrite (Z.mod_small (ge - bitrate)), (Z.mod_small (bitrate - le)) by lia.
    split; [reflexivity|].
    destruct (Z.ltb_spec (ge - bitrate) (bitrate - le)); lia. }
  split; [reflexivity|]. split; [exact Hnear|].
  split.
  - intros Hb. apply searchLoop_sides in L; simpl; lia.
  - intros Hdev Hmin Hmax Hb.
    pose proof (searchLoop_sides _ _ _ _ _ L) as S. simpl in S.
    pose proof (searchLoop_range _ _ _ Hdev _ _ L) as R. simpl in R.
    fold ge le in S, R.
    apply Hnear; lia.
Qed.

End BitRateSearch.

(* ================================================================== *)
(** * The bit rate search, on a channel that rounds down *)

Section FloorSearch.

Context {Dev : Type} {mcp2210 : MCP2210.t Dev} {limits : MCP2210Limits.t}.
Variable divider : Z -> Z.
Variable Inv : Dev -> Prop.
Hypothesis channel : FloorChannel divider Inv.
Implicit Type s : @SearchState Dev.

(** A probe reads back the rounded rate and counts no error. *)
Lemma probe_rounds (current : SPISettings.t) (t : Z) (b : Bus Dev) :
  Inv (dev b) -> errcnt b = 0 ->
  let p := probe (SPISettings.set_bitrate current t) b in
  fst p = divider t /\ errcnt (snd p) = 0 /\ Inv (dev (snd p)).
Proof.
  intros Hinv Herr.
  destruct (write_clean _ _ channel (dev b) (SPISettings.set_bitrate current t) Hinv)
    as (W1 & W2 & W3).
  destruct (read_clean _ _ channel _ W2) as (R1 & R2).
  unfold probe, bind, request, ret. cbn [fst snd dev errcnt].
  rewrite W1, R1, Herr, W3. simpl. auto.
Qed.

Lemma bracket_log (bitrate start bound lower : Z) (b b' : Bus Dev)
    (t ge le le' : Z) (log : list (Z * Z)) (entry : Z * Z) :
  bracket divider bitrate start bound (mkSearch b t ge le log) lower ->
  bracket divider bitrate start bound
    (mkSearch b' t ge le' (log ++ [entry])) lower.
Proof.
  unfold bracket. cbn [nearestGreaterOrEqualBitrate probes].
  intros [H | (H1 & H2 & H3 & H4)]; [left; exact H | right].
  repeat split; try assumption; try lia. apply in_or_app. now left.
Qed.

(** The descent: with more fuel than the test rate, the loop is left through
    its [break], without an error counted. *)
Lemma searchLoop_descends (current : SPISettings.t) (bitrate start bound : Z) :
  0 <= bitrate -> start < 2 ^ 32 ->
  forall (fuel : nat) s,
    (Z.to_nat (testBitrate s) < fuel)%nat ->
    errcnt (bus s) = 0 -> Inv (dev (bus s)) ->
    descending divider bitrate start bound s ->
    exists s',
      searchLoop fuel current bitrate s = Some s' /\
      errcnt (bus s') = 0 /\ Inv (dev (bus s')) /\
      arrived divider bitrate start bound s'.
Proof.
  intros Hb Hstart.
  induction fuel as [|fuel IH]; intros s Hfuel Herr Hinv (Ht & Hlow & Hbr);
    [lia|].
  rewrite searchLoop_turn by exact Herr. cbv zeta.
  destruct (probe_rounds current (testBitrate s) (bus s) Hinv Herr)
    as (P1 & P2 & P3).
  set (p := probe (SPISettings.set_bitrate current (testBitrate s)) (bus s)) in *.
  rewrite P1.
  pose proof (divider_below _ _ channel (testBitrate s) ltac:(lia)) as Hd.
  destruct s as [b t ge le log]. cbn [testBitrate bus nearestGreaterOrEqualBitrate
    nearestLesserOrEqualBitrate probes] in *.
  destruct (Z.eqb_spec (divider t) t) as [Heq | Hne].
  - destruct (Z.leb_spec t bitrate) as [Hle | Hgt].
    + (* the break *)
      eexists. split; [reflexivity|]. cbn [bus]. split; [exact P2|].
      split; [exact P3|].
      unfold arrived. cbn [nearestLesserOrEqualBitrate probes].
      split; [exact Heq|]. split; [lia|].
      split; [apply in_or_app; right; left; congruence|].
      split; [exact Hlow|].
      destruct (Z.leb_spec bitrate t) as [Hge | Hlt].
      * right. cbn [nearestGreaterOrEqualBitrate probes].
        split; [exact Heq|]. split; [lia|].
        split; [apply in_or_app; right; left; congruence|]. intros; lia.
      * eapply bracket_log. exact Hbr.
    + (* still above the request: one below *)
      destruct (Z.leb_spec bitrate t) as [Hge | Hlt]; [|lia].
      unfold quint32. rewrite Z.mod_small by lia.
      apply IH; cbn [testBitrate bus]; try assumption; [lia|].
      unfold descending. cbn [testBitrate].
      split; [lia|]. split.
      * intros v Hv Hach Hvb. lia.
      * right. cbn [nearestGreaterOrEqualBitrate probes].
        split; [exact Heq|]. split; [lia|].
        split; [apply in_or_app; right; left; congruence|]. intros; lia.
  - (* rounded down: go on from the rate read back *)
    apply IH; cbn [testBitrate bus]; try assumption; [lia|].
    unfold descending. cbn [testBitrate].
    split; [lia|]. split.
    + intros v Hv Hach Hvb.
      apply (divider_nearest _ _ channel t v);
        [split; [lia | now apply Hlow] | lia | assumption].
    + assert (Hskip : forall v, divider v = v -> divider t < v -> t < v).
      { intros v Hach Hv. destruct (Z.lt_ge_cases t v) as [|Hvt]; [assumption|].
        pose proof (divider_nearest _ _ channel t v) as N.
        assert (0 <= v) by lia. lia. }
      destruct Hbr as [(H1 & H2) | (H1 & H2 & H3 & H4)].
      * left. cbn [nearestGreaterOrEqualBitrate]. split; [exact H1|].
        intros v Hach Hv. apply (H2 v Hach). split; [apply Hskip; tauto | lia].
      * right. cbn [nearestGreaterOrEqualBitrate probes] in *.
        split; [exact H1|]. split; [lia|].
        split; [apply in_or_app; now left|].
        intros v Hach Hv. apply (H4 v Hach). split; [apply Hskip; tauto | lia].
Qed.

(** C1 (amended).  For every requested bit rate below [2^30], so that four
    times the request is a 32-bit value, and every channel without transport
    errors whose read-back maps each written bit rate to the nearest
    achievable rate at or below it and on which [BITRATE_MAX] is achievable:
    the search returns (any fuel above four times the request is enough),
    reports no error, and the value returned was written and read back
    unchanged by a probe of the loop, so it is achievable; and no achievable
    rate at all is strictly closer to the request. *)
Theorem search_finds_nearest (bitrate : Z) (w : Window Dev) :
  Inv (mcp2210_ w) ->
  0 <= bitrate < 2 ^ 30 ->
  0 <= MCP2210Limits.BITRATE_MAX < 2 ^ 32 ->
  divider MCP2210Limits.BITRATE_MAX = MCP2210Limits.BITRATE_MAX ->
  forall fuel, (Z.to_nat (4 * bitrate) < fuel)%nat ->
  exists f,
    getNearestCompatibleBitRate fuel bitrate w = Some f /\
    err_ (window f) = err_ w /\
    In (retval f, retval f) (probes (search f)) /\
    divider (retval f) = retval f /\
    forall v, 0 <= v < 2 ^ 32 -> divider v = v ->
      Z.abs (retval f - bitrate) <= Z.abs (v - bitrate).
Proof.
  intros Hinv Hb Hmax Hmaxach fuel Hfuel.
  rewrite getNearestCompatibleBitRate_unfold. cbv zeta.
  destruct (read_clean _ _ channel _ Hinv) as (R1 & R2).
  set (first := MCP2210.getSPISettings (mcp2210_ w)) in *.
  rewrite R1. cbn [Z.of_N].
  assert (Hstart : quint32 (4 * bitrate) = 4 * bitrate)
    by (unfold quint32; apply Z.mod_small; lia).
  rewrite Hstart.
  destruct (searchLoop_descends (value first) bitrate
              (4 * bitrate) MCP2210Limits.BITRATE_MAX ltac:(lia) ltac:(lia) fuel
              (mkSearch (mkBus (after first) 0 (text first)) (4 * bitrate)
                 MCP2210Limits.BITRATE_MAX MCP2210Limits.BITRATE_MIN []))
    as (s' & Hrun & Herr & Hinv' & Harr).
  { exact Hfuel. }
  { reflexivity. }
  { exact R2. }
  { unfold descending, bracket. cbn [testBitrate nearestGreaterOrEqualBitrate].
    split; [lia|]. split; [intros; lia|]. left. split; [reflexivity | intros; lia]. }
  rewrite Hrun. eexists. split; [reflexivity|]. cbn [window retval search].
  destruct (write_clean _ _ channel (dev (bus s')) (value first) Hinv')
    as (W1 & _ & _).
  rewrite W1, Herr. cbn [Z.of_N Z.add].
  rewrite validateOperation_clean by lia. cbn [set_mcp2210_ err_].
  split; [reflexivity|].
  destruct Harr as (Hle & Hler & Hlein & Hlow & Hbr).
  set (le := nearestLesserOrEqualBitrate s') in *.
  unfold bracket in Hbr.
  set (ge := nearestGreaterOrEqualBitrate s') in *.
  cbv zeta in Hbr. unfold quint32.
  rewrite (Z.mod_small (bitrate - le)) by lia.
  destruct Hbr as [(Hge & Hnone) | (Hge & Hger & Hgein & Hnone)].
  - (* no achievable rate was met at or above the request *)
    assert (Hfar : MCP2210Limits.BITRATE_MAX <= le \/
                   4 * bitrate < MCP2210Limits.BITRATE_MAX).
    { destruct (Z.le_gt_cases MCP2210Limits.BITRATE_MAX le); [now left|].
      destruct (Z.lt_ge_cases (4 * bitrate) MCP2210Limits.BITRATE_MAX);
        [now right|].
      exfalso. apply (Hnone _ Hmaxach). lia. }
    assert (Hpick : ((ge - bitrate) mod 2 ^ 32 <? bitrate - le) = false).
    { apply Z.ltb_ge. rewrite Hge.
      destruct Hfar as [Hfar | Hfar].
      - destruct (Z.eq_dec MCP2210Limits.BITRATE_MAX bitrate) as [E | Hne].
        + replace (MCP2210Limits.BITRATE_MAX - bitrate) with 0 by lia.
          cbn. lia.
        + replace ((MCP2210Limits.BITRATE_MAX - bitrate) mod 2 ^ 32)
            with (MCP2210Limits.BITRATE_MAX - bitrate + 2 ^ 32); [lia|].
          symmetry.
          rewrite <- (Z.mod_add _ 1 (2 ^ 32)) by lia.
          apply Z.mod_small. lia.
      - rewrite Z.mod_small by lia. lia. }
    rewrite Hpick.
    split; [exact Hlein|]. split; [exact Hle|].
    intros v Hv Hach.
    destruct (Z.le_gt_cases v bitrate) as [Hvb | Hvb].
    + specialize (Hlow v ltac:(lia) Hach Hvb). lia.
    + destruct (Z.le_gt_cases v (4 * bitrate)) as [Hv4 | Hv4].
      * exfalso. apply (Hnone v Hach). lia.
      * lia.
  - (* an achievable rate at or above the request was met *)
    rewrite (Z.mod_small (ge - bitrate)) by lia.
    assert (Hall : forall v, 0 <= v < 2 ^ 32 -> divider v = v -> v <= le \/ ge <= v).
    { intros v Hv Hach.
      destruct (Z.le_gt_cases v le); [now left|].
      destruct (Z.le_gt_cases ge v); [now right|].
      exfalso. apply (Hnone v Hach). lia. }
    destruct (Z.ltb_spec (ge - bitrate) (bitrate - le)) as [Hnear | Hnear].
    + split; [exact Hgein|]. split; [exact Hge|].
      intros v Hv Hach. destruct (Hall v Hv Hach); lia.
    + split; [exact Hlein|]. split; [exact Hle|].
      intros v Hv Hach. destruct (Hall v Hv Hach); lia.
Qed.

End FloorSearch.

(* ================================================================== *)
(** * Runs on the simulated device *)

Section SimulatedRuns.

(** The simulated device with a rounding-down divider is a channel without
    transport errors whose read-back rounds down, as long as it is healthy. *)
Lemma multiplesOf_below (step top t : Z) :
  0 < step -> 0 <= top -> 0 <= t ->
  0 <= Sim.multiplesOf step top t <= t.
Proof.
  intros Hs Htop Ht. unfold Sim.multiplesOf.
  pose proof (Z.mul_div_le (Z.min t top) step Hs).
  assert (0 <= Z.min t top / step) by (apply Z.div_pos; lia).
  nia.
Qed.

Lemma multiplesOf_nearest (step top t v : Z) :
  0 < step -> 0 <= v <= t ->
  Sim.multiplesOf step top v = v -> v <= Sim.multiplesOf step top t.
Proof.
  intros Hs Hv Hach. unfold Sim.multiplesOf in *.
  assert (Hle : Z.min v top <= Z.min t top) by lia.
  apply (Z.div_le_mono _ _ step Hs) in Hle.
  rewrite <- Hach at 1. nia.
Qed.

Lemma Sim_rounds_down (step top : Z) :
  0 < step -> 0 <= top ->
  @FloorChannel Sim.t (Sim.device (Sim.multiplesOf step top))
    (Sim.multiplesOf step top) Sim.healthy.
Proof.
  intros Hs Htop. constructor.
  - intros t Ht. apply multiplesOf_below; lia.
  - intros t v Hv _ Hach. now apply multiplesOf_nearest.
  - intros [nv am vc vs fs un] [Hf Hu]. simpl in Hf, Hu. subst.
    simpl. unfold Sim.healthy. auto.
  - intros [nv am vc vs fs un] s [Hf Hu]. simpl in Hf, Hu. subst.
    simpl. unfold Sim.healthy. auto.
Qed.

Ltac refute H :=
  repeat match type of H with
         | _ \/ _ => destruct H as [H | H]
         end;
  solve [discriminate H | contradiction].

Ltac settle :=
  vm_compute;
  repeat match goal with
         | |- _ /\ _ => split
         | |- _ = _ => reflexivity
         | |- _ -> False => let H := fresh in intros H; refute H
         | |- _ <> _ => let H := fresh in intros H; refute H
         | |- ~ _ => let H := fresh in intros H; refute H
         end.

(** Counterexample to C1 as stated, on the channel whose achievable rates
    are the multiples of 1000 below 4 000 000, a channel that rounds down
    and reports no error.  A request of 11 999 999 Hz returns 12 000 000
    Hz, the initial [BITRATE_MAX], which no probe observed and which is not
    achievable.  A request of [2^30] Hz, for which four times the request
    wraps to 0, returns 0 Hz although the achievable 3 999 000 Hz, between
    the two final candidates, is strictly closer. *)
Lemma search_misses_outside_limits :
  let w := Sim.windowOn (Sim.fresh []) Sim.factory in
  @FloorChannel Sim.t (Sim.device Sim.belowFour) Sim.belowFour Sim.healthy /\
  Sim.healthy (mcp2210_ w) /\
  (exists f,
      getNearestCompatibleBitRate (mcp2210 := Sim.device Sim.belowFour)
        (limits := Sim.limits) 10 11999999 w = Some f /\
      err_ (window f) = false /\
      retval f = 12000000 /\
      ~ In (retval f, retval f) (probes (search f)) /\
      Sim.belowFour (retval f) <> retval f) /\
  (exists f,
      getNearestCompatibleBitRate (mcp2210 := Sim.device Sim.belowFour)
        (limits := Sim.limits) 10 (2 ^ 30) w = Some f /\
      err_ (window f) = false /\
      retval f = 0 /\
      nearestLesserOrEqualBitrate (search f) = 0 /\
      nearestGreaterOrEqualBitrate (search f) = 12000000 /\
      Sim.belowFour 3999000 = 3999000 /\
      Z.abs (3999000 - 2 ^ 30) < Z.abs (retval f - 2 ^ 30)).
Proof.
  intros w.
  split; [apply Sim_rounds_down; lia|].
  split; [split; reflexivity|].
  split; eexists; (split; [vm_compute; reflexivity|]); settle.
Qed.

(** C1 (amended) applies to a request of 2500 Hz on the channel whose
    achievable rates are the multiples of 1000 up to [BITRATE_MAX]. *)
Lemma search_finds_nearest_witness :
  let w := Sim.windowOn (Sim.fresh []) Sim.factory in
  exists f,
    getNearestCompatibleBitRate (mcp2210 := Sim.device Sim.upToMax)
      (limits := Sim.limits) (S (Z.to_nat (4 * 2500))) 2500 w = Some f /\
    err_ (window f) = err_ w /\
    In (retval f, retval f) (probes (search f)) /\
    Sim.upToMax (retval f) = retval f /\
    forall v, 0 <= v < 2 ^ 32 -> Sim.upToMax v = v ->
      Z.abs (retval f - 2500) <= Z.abs (v - 2500).
Proof.
  intros w.
  apply (@search_finds_nearest Sim.t (Sim.device Sim.upToMax) Sim.limits
           Sim.upToMax Sim.healthy
           (Sim_rounds_down 1000 12000000 ltac:(lia) ltac:(lia)) 2500 w).
  - split; reflexivity.
  - lia.
  - simpl. lia.
  - reflexivity.
  - lia.
Defined.

(** The end-to-end scenario of the specification: a request of 1 000 000
    Hz, already achievable, is returned as it is. *)
Example search_scenario :
  option_map retval
    (getNearestCompatibleBitRate (mcp2210 := Sim.device Sim.belowFour)
       (limits := Sim.limits) (Z.to_nat 6100) 1000000
       (Sim.windowOn (Sim.fresh []) Sim.factory))
  = Some 1000000.
Proof. vm_compute. reflexivity. Qed.

(** Counterexample to C2 as stated: the device performs the first five
    calls of a search for 3 999 000 Hz (the read of the snapshot and two
    probes) and fails the sixth, the write of the snapshot.  The snapshot
    holds 1 000 000 Hz; on exit the volatile bit rate is the 3 999 000 Hz of
    the last probe. *)
Lemma write_back_can_fail :
  let d := Sim.fresh [false; false; false; false; false; true] in
  let w := Sim.windowOn d Sim.factory in
  exists f,
    getNearestCompatibleBitRate (mcp2210 := Sim.device Sim.belowFour)
      (limits := Sim.limits) 10 3999000 w = Some f /\
    value (MCP2210.getSPISettings (t := Sim.device Sim.belowFour) d)
      = Sim.factorySPI /\
    SPISettings.bitrate
      (value (MCP2210.getSPISettings (t := Sim.device Sim.belowFour)
                (mcp2210_ (window f)))) = 3999000 /\
    value (MCP2210.getSPISettings (t := Sim.device Sim.belowFour)
             (mcp2210_ (window f))) <> Sim.factorySPI /\
    err_ (window f) = true.
Proof.
  intros d w. eexists. split; [vm_compute; reflexivity|]. settle.
Qed.

(** C2 (amended) applies to a search in which the read-back of the first
    probe fails: the loop is left, the snapshot is written back and the
    device holds it again. *)
Lemma snapshot_written_back_witness :
  let d := Sim.fresh [false; false; true] in
  let w := Sim.windowOn d Sim.factory in
  exists f,
    getNearestCompatibleBitRate (mcp2210 := Sim.device Sim.belowFour)
      (limits := Sim.limits) 10 2500 w = Some f /\
    probes (search f) = [(10000, 0)] /\
    err_ (window f) = true /\
    value (MCP2210.getSPISettings (t := Sim.device Sim.belowFour)
             (mcp2210_ (window f)))
    = value (MCP2210.getSPISettings (t := Sim.device Sim.belowFour) d).
Proof.
  intros d w. eexists. split; [vm_compute; reflexivity|].
  split; [reflexivity|].
  match goal with |- err_ (window ?f) = true /\ _ =>
    pose proof (@snapshot_written_back Sim.t (Sim.device Sim.belowFour)
                  Sim.limits 10 2500 w f eq_refl) as H end.
  cbv zeta in H. destruct H as (_ & H2 & _ & H3 & _).
  split.
  - apply H3. vm_compute. discriminate.
  - apply H2. vm_compute. reflexivity.
Defined.

(** Counterexample to C3 as stated.  Without any error, a request of [2^30]
    Hz ends with the candidates 12 000 000 and 0 and returns 0, although
    12 000 000 has the smaller absolute distance.  When the read of the
    snapshot fails, a request of 1000 Hz keeps the initial candidates
    12 000 000 and 1464 and returns 12 000 000, although 1464 has the
    smaller absolute distance. *)
Lemma nearest_is_not_by_absolute_distance :
  (exists f,
      getNearestCompatibleBitRate (mcp2210 := Sim.device Sim.belowFour)
        (limits := Sim.limits) 10 (2 ^ 30)
        (Sim.windowOn (Sim.fresh []) Sim.factory) = Some f /\
      err_ (window f) = false /\
      nearestGreaterOrEqualBitrate (search f) = 12000000 /\
      nearestLesserOrEqualBitrate (search f) = 0 /\
      retval f = nearestLesserOrEqualBitrate (search f) /\
      Z.abs (nearestGreaterOrEqualBitrate (search f) - 2 ^ 30)
        < Z.abs (nearestLesserOrEqualBitrate (search f) - 2 ^ 30)) /\
  (exists f,
      getNearestCompatibleBitRate (mcp2210 := Sim.device Sim.belowFour)
        (limits := Sim.limits) 10 1000
        (Sim.windowOn (Sim.fresh [true]) Sim.factory) = Some f /\
      nearestGreaterOrEqualBitrate (search f) = 12000000 /\
      nearestLesserOrEqualBitrate (search f) = 1464 /\
      retval f = nearestGreaterOrEqualBitrate (search f) /\
      Z.abs (nearestLesserOrEqualBitrate (search f) - 1000)
        < Z.abs (nearestGreaterOrEqualBitrate (search f) - 1000)).
Proof.
  split; eexists; (split; [vm_compute; reflexivity|]); settle.
Qed.

(** C3 (amended) applies to a request of 2500 Hz, half way between the
    achievable 2000 Hz and 3000 Hz: the tie goes to 2000 Hz. *)
Lemma nearest_of_candidates_witness :
  exists f,
    getNearestCompatibleBitRate (mcp2210 := Sim.device Sim.belowFour)
      (limits := Sim.limits) 40 2500
      (Sim.windowOn (Sim.fresh []) Sim.factory) = Some f /\
    nearestGreaterOrEqualBitrate (search f) = 3000 /\
    nearestLesserOrEqualBitrate (search f) = 2000 /\
    retval f = 2000.
Proof.
  eexists. split; [vm_compute; reflexivity|].
  split; [reflexivity|]. split; [reflexivity|].
  match goal with |- retval ?f = _ =>
    pose proof (@nearest_of_candidates Sim.t (Sim.device Sim.belowFour)
                  Sim.limits 40 2500 (Sim.windowOn (Sim.fresh []) Sim.factory)
                  f eq_refl) as H end.
  cbv zeta in H. destruct H as (_ & H & _).
  destruct H as (_ & _ & H); [settle ..|].
  rewrite H; reflexivity.
Defined.

(** C6 applies to a window whose edited product descriptor differs from the
    one in the NVRAM: the re-read succeeds and the verification fails. *)
Lemma verifyConfiguration_verdict_witness :
  let w := set_editedConfiguration_
             (Sim.windowOn (Sim.fresh []) Sim.factory) Sim.renamed in
  let w' := verifyConfiguration (mcp2210 := Sim.device Sim.belowFour)
              Sim.noDisplay w in
  err_ w' = true /\ errmsg_ w' = QString.lit "Failed verification.".
Proof.
  intros w w'.
  pose proof (@verifyConfiguration_verdict Sim.t (Sim.device Sim.belowFour)
                Sim.noDisplay w eq_refl) as H.
  cbv zeta in H. destruct H as (_ & _ & H & _).
  apply H; [reflexivity|].
  right. left. vm_compute. discriminate.
Defined.

(** Counterexample to C7 as stated: the third of the six reads fails.  The
    channel reports an error, [err_] is set, and the stored device
    configuration has lost its USB parameters. *)
Lemma failed_read_overwrites :
  let w := Sim.windowOn (Sim.fresh [false; false; true]) Sim.factory in
  let w' := readDeviceConfiguration (mcp2210 := Sim.device Sim.belowFour) w in
  errcnt (snd (calls (readAll (mcp2210 := Sim.device Sim.belowFour)) w)) = 1 /\
  err_ w' = true /\
  Configuration.usbParameters (deviceConfiguration_ w)
    = USBParameters.mk 1240 222 50 0 false /\
  Configuration.usbParameters (deviceConfiguration_ w')
    = USBParameters.mk 0 0 0 0 false /\
  deviceConfiguration_ w' <> deviceConfiguration_ w.
Proof. intros w w'. settle. Qed.

(** C8 applies to an error-free operation, and to two errors on an unplugged
    device. *)
Lemma validateOperation_classifies_witness :
  let w := Sim.windowOn (Sim.fresh []) Sim.factory in
  let gone := Sim.windowOn Sim.gone Sim.factory in
  validateOperation (mcp2210 := Sim.device Sim.belowFour)
    (QString.lit "get bit rate") 0 Sim.failure w = w /\
  err_ (validateOperation (mcp2210 := Sim.device Sim.belowFour)
          (QString.lit "get bit rate") 2 Sim.failure gone) = true /\
  errmsg_ (validateOperation (mcp2210 := Sim.device Sim.belowFour)
             (QString.lit "get bit rate") 2 Sim.failure gone)
  = QString.lit "Device disconnected." ++ [QString.LF; QString.LF] ++
    QString.lit "Please reconnect it and try again.".
Proof.
  intros w gone.
  pose proof (@validateOperation_classifies Sim.t (Sim.device Sim.belowFour)
                (QString.lit "get bit rate") 0 Sim.failure w) as [H0 _].
  pose proof (@validateOperation_classifies Sim.t (Sim.device Sim.belowFour)
                (QString.lit "get bit rate") 2 Sim.failure gone) as [_ H2].
  destruct (H0 eq_refl) as (E0 & _).
  destruct (H2 eq_refl eq_refl) as (E1 & E2 & _).
  split; [exact E0|]. split; [exact E1 | exact E2].
Defined.

(** Counterexample to C9 as stated: an error text without a line feed at its
    end loses its last letter. *)
Lemma chop_removes_a_letter :
  let w := Sim.windowOn (Sim.fresh []) Sim.factory in
  let w' := validateOperation (mcp2210 := Sim.device Sim.belowFour)
              (QString.lit "get bit rate") 1 (QString.lit "Timeout") w in
  err_ w' = true /\
  MCP2210.disconnected (t := Sim.device Sim.belowFour) (mcp2210_ w) = false /\
  errmsg_ w' = failedMessage (QString.lit "get bit rate")
                 (bullet ++ QString.lit "Timeou") /\
  errmsg_ w' <> failedMessage (QString.lit "get bit rate")
                  (bullet ++ QString.lit "Timeout").
Proof. intros w w'. settle. Qed.

(** C9 (amended) applies to two errors reported on two lines. *)
Lemma validateOperation_message_witness :
  let w := Sim.windowOn (Sim.fresh []) Sim.factory in
  let errstr := QString.lit "Timeout" ++ [QString.LF] ++
                QString.lit "No reply" ++ [QString.LF] in
  errmsg_ (validateOperation (mcp2210 := Sim.device Sim.belowFour)
             (QString.lit "get bit rate") 2 errstr w)
  = failedMessage (QString.lit "get bit rate")
      (bullet ++ QString.lit "Timeout" ++ bullet ++ QString.lit "No reply").
Proof.
  intros w errstr.
  pose proof (@validateOperation_message Sim.t (Sim.device Sim.belowFour)
                (QString.lit "get bit rate") 2 errstr w eq_refl eq_refl) as H.
  cbv zeta in H. destruct H as (_ & _ & _ & H & _).
  rewrite (H (QString.lit "Timeout" ++ [QString.LF] ++ QString.lit "No reply")
             eq_refl).
  reflexivity.
Defined.

(** The end-to-end scenario of the specification: only the maximum power is
    edited; the task list is the write of the USB parameters and the
    verification, and the device, which accepts the write, is configured. *)
Example configure_scenario :
  let w := set_editedConfiguration_
             (Sim.windowOn (Sim.fresh []) Sim.factory) Sim.morePower in
  let w' := configureDevice (mcp2210 := Sim.device Sim.belowFour)
              Sim.noDisplay w in
  prepareTaskList w = ["writeUSBParameters"%string; "verifyConfiguration"%string] /\
  err_ w' = false /\
  dialogs w' = [mkDialog Information (QString.lit "Device Configured")
                  (QString.lit "Device was successfully configured.")] /\
  Sim.nvram (mcp2210_ w') = Sim.morePower.
Proof. intros w w'. settle. Qed.

(** The scenario of the specification for a pair that differs only in the
    product descriptor. *)
Example product_scenario :
  prepareTaskList
    (set_editedConfiguration_
       (Sim.windowOn (Sim.fresh []) Sim.factory) Sim.renamed)
  = ["writeProductDesc"%string; "verifyConfiguration"%string].
Proof. reflexivity. Qed.

End SimulatedRuns.

(* ================================================================== *)
(** * What a task leaves alone *)

Section TaskFrames.

Context {Dev : Type} {mcp2210 : MCP2210.t Dev}.
Variable displayConfiguration : Z -> Configuration.t -> Ui -> Ui.
Implicit Type w : Window Dev.

Lemma validateOperation_view (operation : QString.t) (errcnt : Z)
    (errstr : QString.t) w :
  viewEnabled_ (validateOperation operation errcnt errstr w) = viewEnabled_ w.
Proof.
  unfold validateOperation. destruct (0 <? errcnt); [|reflexivity].
  cbv zeta. destruct (MCP2210.disconnected _); reflexivity.
Qed.

(** A validated device call leaves the rest of the window alone. *)
Lemma validated_call (operation : QString.t) (errcnt : Z) (errstr : QString.t)
    w (d : Dev) :
  sameButDevice w (validateOperation operation errcnt errstr (set_mcp2210_ w d)).
Proof.
  destruct (validateOperation_frame operation errcnt errstr (set_mcp2210_ w d))
    as (_ & F2 & F3 & F4 & F5 & F6).
  unfold sameButDevice.
  rewrite F2, F3, F4, F5, F6, validateOperation_view, validateOperation_err.
  simpl. repeat split. intros ->. apply orb_true_r.
Qed.

Lemma writeManufacturerDesc_frame w : sameButDevice w (writeManufacturerDesc w).
Proof. apply validated_call. Qed.

Lemma writeProductDesc_frame w : sameButDevice w (writeProductDesc w).
Proof. apply validated_call. Qed.

Lemma writeUSBParameters_frame w : sameButDevice w (writeUSBParameters w).
Proof. apply validated_call. Qed.

Lemma writeChipSettings_frame w : sameButDevice w (writeChipSettings w).
Proof. apply validated_call. Qed.

Lemma applyChipSettings_frame w : sameButDevice w (applyChipSettings w).
Proof. apply validated_call. Qed.

Lemma applySPISettings_frame w : sameButDevice w (applySPISettings w).
Proof. apply validated_call. Qed.

Lemma verifyConfiguration_frame w :
  let w' := verifyConfiguration displayConfiguration w in
  editedConfiguration_ w' = editedConfiguration_ w /\
  dialogs w' = dialogs w /\ viewEnabled_ w' = viewEnabled_ w /\
  (err_ w = true -> err_ w' = true).
Proof.
  cbv zeta. unfold verifyConfiguration. cbv zeta.
  assert (R : editedConfiguration_ (readDeviceConfiguration w)
              = editedConfiguration_ w /\
              dialogs (readDeviceConfiguration w) = dialogs w /\
              viewEnabled_ (readDeviceConfiguration w) = viewEnabled_ w /\
              (err_ w = true -> err_ (readDeviceConfiguration w) = true)).
  { rewrite readDeviceConfiguration_unfold.
    match goal with |- context [validateOperation ?o ?n ?e ?x] =>
      destruct (validateOperation_frame o n e x) as (_ & _ & F3 & _ & _ & F6);
      rewrite F3, F6, validateOperation_view, validateOperation_err end.
    simpl. repeat split. intros ->. apply orb_true_r. }
  revert R. generalize (readDeviceConfiguration w).
  intros [d1 e1 m1 dc1 ec1 a1 v1 u1 ds1]. simpl.
  intros (-> & -> & -> & L).
  destruct e1; simpl; [auto|].
  destruct (Configuration.eqb dc1 (editedConfiguration_ w)); simpl; auto.
Qed.

(** Whatever the name, invoking it keeps the edited configuration, shows no
    message, keeps the view as it is and never clears [err_]. *)
Lemma invokeMethod_keeps (name : string) w :
  let w' := invokeMethod displayConfiguration name w in
  editedConfiguration_ w' = editedConfiguration_ w /\
  dialogs w' = dialogs w /\ viewEnabled_ w' = viewEnabled_ w /\
  (err_ w = true -> err_ w' = true).
Proof.
  cbv zeta. unfold invokeMethod.
  repeat match goal with
         | |- context [if String.eqb name ?s then _ else _] =>
             destruct (String.eqb name s)
         end;
    try (apply verifyConfiguration_frame);
    try (match goal with |- context [?f w] =>
           let F := fresh in
           assert (F : sameButDevice w (f w)) by apply validated_call;
           destruct F as (_ & F2 & _ & _ & F5 & F6 & F7); auto
         end);
    auto.
Qed.

(** The tasks other than the verification touch the device and the error
    flag only. *)
Lemma invokeMethod_frame (name : string) w :
  name <> "verifyConfiguration"%string ->
  sameButDevice w (invokeMethod displayConfiguration name w).
Proof.
  intros Hname. unfold invokeMethod.
  repeat match goal with
         | |- context [if String.eqb name ?s then _ else _] =>
             let E := fresh "E" in
             destruct (String.eqb name s) eqn:E;
             [first [apply validated_call
                    | apply String.eqb_eq in E; contradiction] |]
         end.
  unfold sameButDevice. auto 10.
Qed.


End TaskFrames.

(* ================================================================== *)
(** * The configuration routine as a whole *)

Section ConfigureDevice.

Context {Dev : Type} {mcp2210 : MCP2210.t Dev}.
Variable displayConfiguration : Z -> Configuration.t -> Ui -> Ui.
Implicit Type w : Window Dev.

Lemma runInOrder_app (a b : list string) w :
  runInOrder displayConfiguration (a ++ b) w
  = runInOrder displayConfiguration b (runInOrder displayConfiguration a w).
Proof. unfold runInOrder. apply fold_left_app. Qed.

Lemma runInOrder_keeps (tasks : list string) :
  forall w,
    let w' := runInOrder displayConfiguration tasks w in
    editedConfiguration_ w' = editedConfiguration_ w /\
    dialogs w' = dialogs w /\ viewEnabled_ w' = viewEnabled_ w /\
    (err_ w = true -> err_ w' = true).
Proof.
  induction tasks as [|task rest IH]; intros w; cbv zeta; [simpl; auto|].
  rewrite run_cons.
  destruct (invokeMethod_keeps displayConfiguration task w) as (K1 & K2 & K3 & K4).
  destruct (IH (invokeMethod displayConfiguration task w)) as (I1 & I2 & I3 & I4).
  cbv zeta in *. rewrite I1, I2, I3.
  repeat split; try assumption. intros H. apply I4, K4, H.
Qed.

Lemma runInOrder_frame (tasks : list string) :
  (forall name, In name tasks -> name <> "verifyConfiguration"%string) ->
  forall w, sameButDevice w (runInOrder displayConfiguration tasks w).
Proof.
  induction tasks as [|task rest IH]; intros Hnames w.
  - unfold sameButDevice. simpl. auto 10.
  - rewrite run_cons.
    destruct (invokeMethod_frame displayConfiguration task w
                (Hnames task (or_introl eq_refl)))
      as (F1 & F2 & F3 & F4 & F5 & F6 & F7).
    destruct (IH (fun n H => Hnames n (or_intror H))
                (invokeMethod displayConfiguration task w))
      as (G1 & G2 & G3 & G4 & G5 & G6 & G7).
    unfold sameButDevice. rewrite G1, G2, G3, G4, G5, G6.
    repeat split; try assumption. intros H. apply G7, F7, H.
Qed.

(** A loop that ends with [err_] clear has run the whole list. *)
Lemma configureLoop_clean (tasks : list string) w :
  err_ w = false ->
  err_ (configureLoop displayConfiguration tasks w) = false ->
  configureLoop displayConfiguration tasks w
  = runInOrder displayConfiguration tasks w.
Proof.
  intros He Hok.
  destruct (configureLoop_prefix displayConfiguration tasks w He)
    as (k & Hk & Hrun & _ & Hstop).
  destruct (Nat.eq_dec k (List.length tasks)) as [-> | Hne].
  - now rewrite firstn_all in Hrun.
  - rewrite Hstop in Hok by lia. discriminate.
Qed.

Lemma configureLoop_keeps (tasks : list string) :
  forall w,
    let w' := configureLoop displayConfiguration tasks w in
    editedConfiguration_ w' = editedConfiguration_ w /\
    dialogs w' = dialogs w /\ viewEnabled_ w' = viewEnabled_ w.
Proof.
  induction tasks as [|task rest IH]; intros w; cbv zeta; [simpl; auto|].
  simpl configureLoop.
  destruct (invokeMethod_keeps displayConfiguration task w) as (K1 & K2 & K3 & _).
  destruct (err_ (invokeMethod displayConfiguration task w)); [auto|].
  destruct (IH (invokeMethod displayConfiguration task w)) as (I1 & I2 & I3).
  cbv zeta in *. rewrite I1, I2, I3. auto.
Qed.

(** The prepared list is some of the four writes, the verification, and
    some of the two applications. *)
Lemma prepareTaskList_shape w :
  exists writes applies,
    prepareTaskList w = writes ++ "verifyConfiguration"%string :: applies /\
    (forall name, In name writes -> In name writeTasks) /\
    (forall name, In name applies -> name <> "verifyConfiguration"%string) /\
    (Configuration.eqb (editedConfiguration_ w) (deviceConfiguration_ w) = true ->
     writes = [] /\ applies = []) /\
    (Configuration.spiSettings (editedConfiguration_ w)
     = Configuration.spiSettings (deviceConfiguration_ w) ->
     Configuration.eqb (editedConfiguration_ w) (deviceConfiguration_ w) = false ->
     writes <> []).
Proof.
  rewrite prepareTaskList_flags. cbv zeta.
  remember (editedConfiguration_ w) as e. remember (deviceConfiguration_ w) as d.
  assert (Heqb : Configuration.eqb e d
                 = QString.eqb (Configuration.manufacturer e)
                     (Configuration.manufacturer d) &&
                   QString.eqb (Configuration.product e) (Configuration.product d) &&
                   USBParameters.eqb (Configuration.usbParameters e)
                     (Configuration.usbParameters d) &&
                   ChipSettings.eqb (Configuration.chipSettings e)
                     (Configuration.chipSettings d) &&
                   SPISettings.eqb (Configuration.spiSettings e)
                     (Configuration.spiSettings d)) by reflexivity.
  assert (Hspi : Configuration.spiSettings e = Configuration.spiSettings d ->
                 SPISettings.eqb (Configuration.spiSettings e)
                   (Configuration.spiSettings d) = true)
    by (intros H; now apply SPISettings_eqb_eq).
  revert Heqb Hspi.
  generalize (Configuration.eqb e d),
    (QString.eqb (Configuration.manufacturer e) (Configuration.manufacturer d)),
    (QString.eqb (Configuration.product e) (Configuration.product d)),
    (USBParameters.eqb (Configuration.usbParameters e)
       (Configuration.usbParameters d)),
    (ChipSettings.eqb (Configuration.chipSettings e)
       (Configuration.chipSettings d)),
    (SPISettings.eqb (Configuration.spiSettings e) (Configuration.spiSettings d)),
    (checkBoxApplyImmediately (ui w)).
  intros q m p u c s a Heqb Hspi.
  exists ((if negb m then ["writeManufacturerDesc"%string] else []) ++
          (if negb p then ["writeProductDesc"%string] else []) ++
          (if negb u then ["writeUSBParameters"%string] else []) ++
          (if negb c then ["writeChipSettings"%string] else [])),
         ((if a && negb c then ["applyChipSettings"%string] else []) ++
          (if a && negb s then ["applySPISettings"%string] else [])).
  split; [unfold buildTaskList; now rewrite <- !app_assoc|].
  split.
  { intros name. destruct m, p, u, c; cbn; unfold writeTasks; cbn; tauto. }
  split.
  { intros name. destruct a, c, s; cbn; intros H;
      repeat (destruct H as [H | H]; [subst name; discriminate|]);
      destruct H. }
  split.
  { intros ->. destruct m, p, u, c, s; try discriminate. cbn.
    rewrite !andb_false_r. auto. }
  { intros Hs ->. rewrite (Hspi Hs) in Heqb.
    destruct m, p, u, c; try discriminate; cbn; discriminate. }
Qed.

(** A verification that leaves [err_] clear has found the device in the
    edited configuration. *)
Lemma verifyConfiguration_passed w :
  err_ (verifyConfiguration displayConfiguration w) = false ->
  deviceConfiguration_ (verifyConfiguration displayConfiguration w)
  = editedConfiguration_ (verifyConfiguration displayConfiguration w).
Proof.
  unfold verifyConfiguration. cbv zeta.
  generalize (readDeviceConfiguration w).
  intros [d1 e1 m1 dc1 ec1 a1 v1 u1 ds1]. simpl.
  destruct e1; simpl; [discriminate|].
  destruct (Configuration.eqb dc1 ec1) eqn:E; simpl; [|discriminate].
  intros _. now apply Configuration_eqb_eq.
Qed.

Lemma configureDevice_err w :
  err_ (configureDevice displayConfiguration w)
  = err_ (configureLoop displayConfiguration
            (prepareTaskList (set_err_ w false)) (set_err_ w false)).
Proof.
  unfold configureDevice. cbv zeta.
  destruct (err_ (configureLoop displayConfiguration _ _)) eqn:E;
    unfold messageBox; cbn [err_]; [rewrite handleError_err|]; exact E.
Qed.

Lemma configureDevice_success w :
  err_ (configureLoop displayConfiguration
          (prepareTaskList (set_err_ w false)) (set_err_ w false)) = false ->
  configureDevice displayConfiguration w
  = messageBox (configureLoop displayConfiguration
                  (prepareTaskList (set_err_ w false)) (set_err_ w false))
      Information (QString.lit "Device Configured") msgConfigured.
Proof. intros H. unfold configureDevice. cbv zeta. now rewrite H. Qed.

Lemma configureDevice_failure w :
  err_ (configureLoop displayConfiguration
          (prepareTaskList (set_err_ w false)) (set_err_ w false)) = true ->
  configureDevice displayConfiguration w
  = messageBox (handleError
                  (configureLoop displayConfiguration
                     (prepareTaskList (set_err_ w false)) (set_err_ w false)))
      Critical (QString.lit "Error") msgNotCompleted.
Proof. intros H. unfold configureDevice. cbv zeta. now rewrite H. Qed.

Lemma invokeMethod_verify w :
  invokeMethod displayConfiguration "verifyConfiguration" w
  = verifyConfiguration displayConfiguration w.
Proof. reflexivity. Qed.

Lemma runInOrder_one (task : string) w :
  runInOrder displayConfiguration [task] w
  = invokeMethod displayConfiguration task w.
Proof. reflexivity. Qed.

Lemma prepareTaskList_equal w :
  editedConfiguration_ w = deviceConfiguration_ w ->
  prepareTaskList w = ["verifyConfiguration"%string].
Proof.
  intros Heq.
  destruct (prepareTaskList_shape w) as (ws & ap & Hs & _ & _ & Hnil & _).
  destruct Hnil as (-> & ->); [|exact Hs].
  apply Configuration_eqb_eq. exact Heq.
Qed.

(** A run of the prepared list that ends with [err_] clear ends with the
    stored device configuration equal to the edited one. *)
Lemma configureLoop_synchronises w :
  err_ w = false ->
  err_ (configureLoop displayConfiguration (prepareTaskList w) w) = false ->
  deviceConfiguration_ (configureLoop displayConfiguration (prepareTaskList w) w)
  = editedConfiguration_ w.
Proof.
  intros He Hok.
  pose proof (configureLoop_clean _ _ He Hok) as C. rewrite C in Hok |- *.
  clear C.
  destruct (prepareTaskList_shape w) as (writes & applies & Hshape & _ & Happ & _).
  rewrite Hshape in Hok |- *. clear Hshape.
  rewrite runInOrder_app, run_cons, invokeMethod_verify in Hok |- *.
  destruct (runInOrder_keeps writes w) as (W1 & _). cbv zeta in W1.
  revert Hok W1. generalize (runInOrder displayConfiguration writes w).
  intros w1 Hok W1.
  destruct (verifyConfiguration_frame displayConfiguration w1) as (V1 & _).
  cbv zeta in V1.
  pose proof (verifyConfiguration_passed w1) as V2.
  revert Hok V1 V2. generalize (verifyConfiguration displayConfiguration w1).
  intros w2 Hok V1 V2.
  destruct (runInOrder_frame applies Happ w2) as (F1 & _ & _ & _ & _ & _ & F7).
  rewrite F1, <- W1, <- V1. apply V2.
  destruct (err_ w2); [|reflexivity].
  rewrite (F7 eq_refl) in Hok. discriminate.
Qed.

(** X2.  A configuration that ends without error leaves the stored device
    configuration equal to the edited configuration, which it never
    changes; preparing the task list again then gives the verification
    alone. *)
Theorem configureDevice_synchronises w :
  err_ (configureDevice displayConfiguration w) = false ->
  let w' := configureDevice displayConfiguration w in
  deviceConfiguration_ w' = editedConfiguration_ w' /\
  editedConfiguration_ w' = editedConfiguration_ w /\
  prepareTaskList w' = ["verifyConfiguration"%string].
Proof.
  intros Hok. cbv zeta.
  rewrite configureDevice_err in Hok.
  pose proof (configureLoop_synchronises (set_err_ w false) eq_refl Hok) as S.
  destruct (configureLoop_keeps (prepareTaskList (set_err_ w false))
              (set_err_ w false)) as (K1 & _).
  cbv zeta in K1.
  rewrite (configureDevice_success w Hok).
  revert S K1.
  generalize (configureLoop displayConfiguration
                (prepareTaskList (set_err_ w false)) (set_err_ w false)).
  intros l S K1.
  assert (D : deviceConfiguration_
                (messageBox l Information (QString.lit "Device Configured")
                   msgConfigured) = deviceConfiguration_ l) by reflexivity.
  assert (E : editedConfiguration_
                (messageBox l Information (QString.lit "Device Configured")
                   msgConfigured) = editedConfiguration_ l) by reflexivity.
  assert (H : deviceConfiguration_
                (messageBox l Information (QString.lit "Device Configured")
                   msgConfigured)
              = editedConfiguration_
                  (messageBox l Information (QString.lit "Device Configured")
                     msgConfigured))
    by (rewrite D, E, S, K1; reflexivity).
  split; [exact H|]. split; [rewrite E; exact K1|].
  apply prepareTaskList_equal. symmetry. exact H.
Qed.

(** X3.  The configuration routine shows the messages of its own only: on
    success the one saying that the device was configured; on failure the
    error message left by the failing task and then the one saying that the
    configuration could not be completed.  It never changes the edited
    configuration, and it disables the view exactly when it fails on a
    device that is disconnected or no longer open. *)
Theorem configureDevice_messages w :
  let w0 := set_err_ w false in
  let left := configureLoop displayConfiguration (prepareTaskList w0) w0 in
  let w' := configureDevice displayConfiguration w in
  dialogs w'
  = dialogs w ++
    (if err_ w'
     then [mkDialog Critical (QString.lit "Error") (errmsg_ left);
           mkDialog Critical (QString.lit "Error")
             (QString.lit "The device configuration could not be completed.")]
     else [mkDialog Information (QString.lit "Device Configured")
             (QString.lit "Device was successfully configured.")]) /\
  editedConfiguration_ w' = editedConfiguration_ w /\
  viewEnabled_ w'
  = (if err_ w' &&
        (MCP2210.disconnected (mcp2210_ left) ||
         negb (MCP2210.isOpen (mcp2210_ left)))
     then false else viewEnabled_ w).
Proof.
  intros w0 left w'.
  destruct (configureLoop_keeps (prepareTaskList w0) w0) as (K1 & K2 & K3).
  cbv zeta in K1, K2, K3. fold left in K1, K2, K3.
  assert (E : err_ w' = err_ left) by apply configureDevice_err.
  rewrite E. unfold w', configureDevice. fold w0 left. cbv zeta.
  destruct (err_ left).
  - unfold handleError, messageBox, disableView.
    destruct (MCP2210.disconnected (mcp2210_ left) ||
              negb (MCP2210.isOpen (mcp2210_ left)));
      cbn; rewrite K1, K2, ?K3, <- app_assoc; auto.
  - unfold messageBox. cbn. rewrite K1, K2, K3. auto.
Qed.

Lemma handleError_device w :
  mcp2210_ (handleError w) = mcp2210_ w \/
  mcp2210_ (handleError w) = MCP2210.close (mcp2210_ w).
Proof.
  unfold handleError.
  destruct (MCP2210.disconnected (mcp2210_ w) || negb (MCP2210.isOpen (mcp2210_ w)));
    [right | left]; reflexivity.
Qed.

(** The verification of a window whose [err_] is clear: the device after the
    six reads, and no failure iff the reads were clean and gave the edited
    configuration. *)
Lemma verifyConfiguration_reads w :
  err_ w = false ->
  mcp2210_ (verifyConfiguration displayConfiguration w)
  = dev (snd (calls readAll w)) /\
  (err_ (verifyConfiguration displayConfiguration w) = false <->
   errcnt (snd (calls readAll w)) = 0 /\
   fst (fst (calls readAll w)) = editedConfiguration_ w).
Proof.
  intros He.
  pose proof (readDeviceConfiguration_fields w) as F. cbv zeta in F.
  destruct F as (F1 & _ & F3 & F4 & F5). rewrite He, orb_false_r in F5.
  pose proof (readAll_calls w) as R. cbv zeta in R. destruct R as (_ & _ & R).
  assert (Hnn : 0 <= errcnt (snd (calls readAll w))) by (rewrite R; lia).
  clear R. unfold verifyConfiguration. cbv zeta.
  revert F1 F3 F4 F5 Hnn.
  generalize (fst (fst (calls readAll w))) (snd (calls readAll w))
    (readDeviceConfiguration w).
  intros cfg read [d1 e1 m1 dc1 ec1 a1 v1 u1 ds1].
  cbn [deviceConfiguration_ editedConfiguration_ err_ mcp2210_ ui accessMode_].
  intros -> -> -> -> Hnn.
  destruct (Z.ltb_spec 0 (errcnt read)); cbn [negb].
  - split; [reflexivity|]. split; [discriminate | intros []; lia].
  - unfold set_ui, set_err_, set_errmsg_.
    cbn [deviceConfiguration_ editedConfiguration_ err_ mcp2210_ ui accessMode_
           errmsg_ viewEnabled_ dialogs].
    destruct (Configuration.eqb cfg (editedConfiguration_ w)) eqn:E;
      cbn [negb err_ mcp2210_].
    + apply Configuration_eqb_eq in E.
      split; [reflexivity|].
      split; [intros; split; [lia | exact E] | reflexivity].
    + split; [reflexivity|]. split; [discriminate|].
      intros (_ & E'). apply Configuration_eqb_eq in E'. congruence.
Qed.

(** X4.  With an edited configuration equal to the stored device
    configuration, the configuration routine makes no device call but the
    six reads of the verification: the device is left as these reads leave
    it, closed in addition when the routine fails on a device that is
    disconnected or not open. *)
Theorem configureDevice_unchanged_only_reads w :
  editedConfiguration_ w = deviceConfiguration_ w ->
  let read := snd (calls readAll w) in
  let w' := configureDevice displayConfiguration w in
  (mcp2210_ w' = dev read \/ mcp2210_ w' = MCP2210.close (dev read)) /\
  (err_ w' = false -> mcp2210_ w' = dev read) /\
  (err_ w' = false <->
   errcnt read = 0 /\ fst (fst (calls readAll w)) = editedConfiguration_ w).
Proof.
  intros Heq. cbv zeta.
  assert (Hloop : configureLoop displayConfiguration
                    (prepareTaskList (set_err_ w false)) (set_err_ w false)
                  = verifyConfiguration displayConfiguration (set_err_ w false)).
  { rewrite (prepareTaskList_equal (set_err_ w false) Heq).
    cbn [configureLoop]. rewrite invokeMethod_verify.
    now destruct (err_ (verifyConfiguration displayConfiguration _)). }
  destruct (verifyConfiguration_reads (set_err_ w false) eq_refl) as (V1 & V2).
  assert (C : calls readAll (set_err_ w false) = calls readAll w) by reflexivity.
  assert (Ed : editedConfiguration_ (set_err_ w false) = editedConfiguration_ w)
    by reflexivity.
  rewrite C in V1, V2. rewrite Ed in V2. clear C Ed.
  pose proof (configureDevice_err w) as E. rewrite Hloop in E.
  pose proof (configureDevice_success w) as S.
  pose proof (configureDevice_failure w) as F.
  rewrite Hloop in S, F.
  pose proof (handleError_device
                (verifyConfiguration displayConfiguration (set_err_ w false))) as H.
  revert E S F H V1 V2.
  generalize (verifyConfiguration displayConfiguration (set_err_ w false)).
  generalize (configureDevice displayConfiguration w).
  intros w' v E S F H V1 V2. rewrite E.
  destruct (err_ v).
  - rewrite (F eq_refl).
    assert (M : mcp2210_ (messageBox (handleError v) Critical (QString.lit "Error")
                            msgNotCompleted) = mcp2210_ (handleError v))
      by reflexivity.
    rewrite M, <- V1. split; [exact H|]. split; [discriminate | exact V2].
  - rewrite (S eq_refl).
    assert (M : mcp2210_ (messageBox v Information (QString.lit "Device Configured")
                            msgConfigured) = mcp2210_ v) by reflexivity.
    rewrite M, <- V1. split; [now left|]. split; [reflexivity | exact V2].
Qed.

End ConfigureDevice.

(* ================================================================== *)
(** * The order of the tasks, and the write button *)

Section WriteFlow.

Context {Dev : Type} {mcp2210 : MCP2210.t Dev}.
Variable toUShort : QString.t -> Z -> Z.
Variable displayConfiguration : Z -> Configuration.t -> Ui -> Ui.
Implicit Type w : Window Dev.



Lemma getEditedConfiguration_device w :
  mcp2210_ (getEditedConfiguration toUShort w) = mcp2210_ w /\
  deviceConfiguration_ (getEditedConfiguration toUShort w) = deviceConfiguration_ w /\
  dialogs (getEditedConfiguration toUShort w) = dialogs w.
Proof. unfold getEditedConfiguration. simpl. auto. Qed.

(** X6.  The write button touches the device only when the device is open,
    the input is valid, the captured configuration differs from the stored
    device configuration and the user agrees: otherwise the device and the
    stored device configuration are as before.  When it does, it runs the
    configuration routine on the captured configuration, and the task list
    of that run begins with a write to the NVRAM. *)
Theorem write_button_needs_a_change (e : Entries) (proceed : bool) w :
  let captured := getEditedConfiguration toUShort w in
  let changed :=
    negb (Configuration.eqb (editedConfiguration_ captured)
            (deviceConfiguration_ captured)) in
  let go := MCP2210.isOpen (mcp2210_ w) && negb (showInvalidInput (ui w) e)
            && changed && proceed in
  let w' := on_pushButtonWrite_clicked toUShort displayConfiguration e proceed w in
  (go = false ->
   mcp2210_ w' = mcp2210_ w /\ deviceConfiguration_ w' = deviceConfiguration_ w) /\
  (go = true ->
   w' = configureDevice displayConfiguration captured /\
   exists first rest,
     prepareTaskList (set_err_ captured false) = first :: rest /\
     In first writeTasks) /\
  (MCP2210.isOpen (mcp2210_ w) = true -> showInvalidInput (ui w) e = false ->
   changed = false ->
   dialogs w'
   = dialogs w ++
     [mkDialog Information (QString.lit "No Changes Done")
        (QString.lit "No changes were effected, because no values were modified.")]).
Proof.
  intros captured changed go w'.
  destruct (getEditedConfiguration_device w) as (G1 & G2 & G3).
  fold captured in G1, G2, G3.
  unfold w', on_pushButtonWrite_clicked, go, changed. cbv zeta. fold captured.
  destruct (MCP2210.isOpen (mcp2210_ w)); cbn [andb];
    [|split; [auto | split; [discriminate | discriminate]]].
  destruct (showInvalidInput (ui w) e); cbn [andb negb];
    [split; [auto | split; [discriminate | discriminate]]|].
  destruct (Configuration.eqb (editedConfiguration_ captured)
              (deviceConfiguration_ captured)) eqn:E; cbn [andb negb].
  - split; [intros _; unfold messageBox; cbn [mcp2210_ deviceConfiguration_]; auto|].
    split; [discriminate|].
    intros _ _ _. unfold messageBox. cbn [dialogs]. now rewrite G3.
  - destruct proceed.
    + split; [discriminate|]. split; [|discriminate].
      intros _. split; [reflexivity|].
      destruct (prepareTaskList_shape (set_err_ captured false))
        as (writes & applies & Hs & Hw & _ & _ & Hne).
      assert (Hn : writes <> []).
      { apply Hne; [|exact E].
        cbn [set_err_ editedConfiguration_ deviceConfiguration_].
        unfold captured. rewrite getEditedConfiguration_spi.
        now destruct (getEditedConfiguration_frame toUShort w) as (-> & _). }
      destruct writes as [|first rest]; [congruence|].
      exists first, (rest ++ "verifyConfiguration"%string :: applies).
      split; [exact Hs | apply Hw; now left].
    + split; [auto|]. split; discriminate.
Qed.

End WriteFlow.

(* ================================================================== *)
(** * The chip settings on the form *)

Section ChipSettingsForm.

Context {Dev : Type} {mcp2210 : MCP2210.t Dev}.
Variable toUShort : QString.t -> Z -> Z.
Variable count : Combo -> Z.
Implicit Type w : Window Dev.

(** A property of bytes that holds of the 256 of them holds of each. *)
Lemma byte_cases (P : Z -> bool) :
  forallb P (map Z.of_nat (seq 0 256)) = true ->
  forall x, 0 <= x < 256 -> P x = true.
Proof.
  intros H x Hx. rewrite forallb_forall in H. apply H.
  apply in_map_iff. exists (Z.to_nat x). split; [lia|].
  apply in_seq. lia.
Qed.

Lemma pack_masks (x : Z) :
  0 <= x < 256 ->
  pack (negb (Z.land 128 x =? 0)) (negb (Z.land 64 x =? 0))
    (negb (Z.land 32 x =? 0)) (negb (Z.land 16 x =? 0))
    (negb (Z.land 8 x =? 0)) (negb (Z.land 4 x =? 0))
    (negb (Z.land 2 x =? 0)) (negb (Z.land 1 x =? 0)) = x.
Proof.
  intros Hx. apply Z.eqb_eq.
  apply (byte_cases
           (fun x =>
              pack (negb (Z.land 128 x =? 0)) (negb (Z.land 64 x =? 0))
                (negb (Z.land 32 x =? 0)) (negb (Z.land 16 x =? 0))
                (negb (Z.land 8 x =? 0)) (negb (Z.land 4 x =? 0))
                (negb (Z.land 2 x =? 0)) (negb (Z.land 1 x =? 0)) =? x));
    [vm_compute; reflexivity | exact Hx].
Qed.

Lemma pack_bits (b7 b6 b5 b4 b3 b2 b1 b0 : bool) :
  let x := pack b7 b6 b5 b4 b3 b2 b1 b0 in
  0 <= x < 256 /\
  Z.testbit x 0 = b0 /\ Z.testbit x 1 = b1 /\ Z.testbit x 2 = b2 /\
  Z.testbit x 3 = b3 /\ Z.testbit x 4 = b4 /\ Z.testbit x 5 = b5 /\
  Z.testbit x 6 = b6 /\ Z.testbit x 7 = b7.
Proof.
  destruct b7, b6, b5, b4, b3, b2, b1, b0; vm_compute;
    repeat split; discriminate.
Qed.

(** X7.  Whatever the form holds, the two masks captured from it are 8-bit
    values; bit [i] of the direction mask is set exactly when the combo box
    of pin [i] is not at index 1 (output), and bit [i] of the default output
    mask exactly when the check box of pin [i] is checked, pin 0 being the
    least significant bit. *)
Theorem captured_masks w :
  let u := ui w in
  let c := Configuration.chipSettings
             (editedConfiguration_ (getEditedConfiguration toUShort w)) in
  let dir := ChipSettings.gpdir c in
  let out := ChipSettings.gpout c in
  (0 <= dir < 256 /\
   Z.testbit dir 0 = negb (comboBoxGP0 u =? 1) /\
   Z.testbit dir 1 = negb (comboBoxGP1 u =? 1) /\
   Z.testbit dir 2 = negb (comboBoxGP2 u =? 1) /\
   Z.testbit dir 3 = negb (comboBoxGP3 u =? 1) /\
   Z.testbit dir 4 = negb (comboBoxGP4 u =? 1) /\
   Z.testbit dir 5 = negb (comboBoxGP5 u =? 1) /\
   Z.testbit dir 6 = negb (comboBoxGP6 u =? 1) /\
   Z.testbit dir 7 = negb (comboBoxGP7 u =? 1)) /\
  (0 <= out < 256 /\
   Z.testbit out 0 = checkBoxGP0DefaultValue u /\
   Z.testbit out 1 = checkBoxGP1DefaultValue u /\
   Z.testbit out 2 = checkBoxGP2DefaultValue u /\
   Z.testbit out 3 = checkBoxGP3DefaultValue u /\
   Z.testbit out 4 = checkBoxGP4DefaultValue u /\
   Z.testbit out 5 = checkBoxGP5DefaultValue u /\
   Z.testbit out 6 = checkBoxGP6DefaultValue u /\
   Z.testbit out 7 = checkBoxGP7DefaultValue u).
Proof.
  intros u c dir out. split.
  - exact (pack_bits (negb (comboBoxGP7 u =? 1)) (negb (comboBoxGP6 u =? 1))
             (negb (comboBoxGP5 u =? 1)) (negb (comboBoxGP4 u =? 1))
             (negb (comboBoxGP3 u =? 1)) (negb (comboBoxGP2 u =? 1))
             (negb (comboBoxGP1 u =? 1)) (negb (comboBoxGP0 u =? 1))).
  - exact (pack_bits (checkBoxGP7DefaultValue u) (checkBoxGP6DefaultValue u)
             (checkBoxGP5DefaultValue u) (checkBoxGP4DefaultValue u)
             (checkBoxGP3DefaultValue u) (checkBoxGP2DefaultValue u)
             (checkBoxGP1DefaultValue u) (checkBoxGP0DefaultValue u)).
Qed.

(** A pin shown and read back. *)
Lemma pin_read_back (c : Combo) (mask gp gpdir : Z) :
  MCP2210.PCGPIO (t := mcp2210) = 0 ->
  pinShown (count c) mask gp gpdir ->
  pinOf (setCurrentIndex count c (pinIndex mask gp gpdir)) = gp /\
  negb (setCurrentIndex count c (pinIndex mask gp gpdir) =? 1)
  = negb (Z.land mask gpdir =? 0).
Proof.
  intros H0 (Hgp & Hitems & H2 & Hdir).
  unfold pinOf, setCurrentIndex, pinIndex, quint8. rewrite H0.
  destruct (Z.eqb_spec gp 0) as [-> | Hne].
  - destruct (Z.land mask gpdir =? 0); cbn [Z.b2z];
      (replace ((0 <=? _) && (_ <? count c)) with true
        by (symmetry; apply andb_true_iff; split;
            [apply Z.leb_le | apply Z.ltb_lt]; lia));
      auto.
  - replace ((0 <=? gp + 1) && (gp + 1 <? count c)) with true
      by (symmetry; apply andb_true_iff; split;
          [apply Z.leb_le | apply Z.ltb_lt]; lia).
    destruct (Z.ltb_spec 0 (gp + 1)); [|lia].
    replace (gp + 1 - 1) with gp by lia. rewrite Z.mod_small by lia.
    split; [reflexivity|].
    destruct (Z.eqb_spec (gp + 1) 1); [lia|].
    rewrite H0 in Hdir. destruct (Z.eqb_spec (Z.land mask gpdir) 0);
      [exfalso; now apply Hdir | reflexivity].
Qed.

(** X8.  Chip settings that the form can show are read back from it as they
    were shown: capturing the edited configuration right after
    [displayChipSettings] gives the chip settings displayed. *)
Theorem shown_chip_settings_are_read_back (c : ChipSettings.t) w :
  displayable count c ->
  Configuration.chipSettings
    (editedConfiguration_
       (getEditedConfiguration toUShort
          (set_ui w (displayChipSettings count c (ui w))))) = c.
Proof.
  intros (H0 & Hf & P0 & P1 & P2 & P3 & P4 & P5 & P6 & P7 & H8 & C8 & Hdir
          & Hout & Hint & Cint).
  destruct c as [g0 g1 g2 g3 g4 g5 g6 g7 g8 gpdir gpout rw im ns].
  cbn [ChipSettings.gp0 ChipSettings.gp1 ChipSettings.gp2 ChipSettings.gp3
       ChipSettings.gp4 ChipSettings.gp5 ChipSettings.gp6 ChipSettings.gp7
       ChipSettings.gp8 ChipSettings.gpdir ChipSettings.gpout
       ChipSettings.intmode] in *.
  destruct (pin_read_back cbGP0 _ _ _ H0 P0) as (R0 & D0).
  destruct (pin_read_back cbGP1 _ _ _ H0 P1) as (R1 & D1).
  destruct (pin_read_back cbGP2 _ _ _ H0 P2) as (R2 & D2).
  destruct (pin_read_back cbGP3 _ _ _ H0 P3) as (R3 & D3).
  destruct (pin_read_back cbGP4 _ _ _ H0 P4) as (R4 & D4).
  destruct (pin_read_back cbGP5 _ _ _ H0 P5) as (R5 & D5).
  destruct (pin_read_back cbGP6 _ _ _ H0 P6) as (R6 & D6).
  destruct (pin_read_back cbGP7 _ _ _ H0 P7) as (R7 & D7).
  unfold getEditedConfiguration, displayChipSettings.
  cbn [editedConfiguration_ set_editedConfiguration_ set_ui ui
       Configuration.chipSettings
       comboBoxGP0 comboBoxGP1 comboBoxGP2 comboBoxGP3 comboBoxGP4 comboBoxGP5
       comboBoxGP6 comboBoxGP7 comboBoxGP8 comboBoxInterruptMode
       checkBoxGP0DefaultValue checkBoxGP1DefaultValue checkBoxGP2DefaultValue
       checkBoxGP3DefaultValue checkBoxGP4DefaultValue checkBoxGP5DefaultValue
       checkBoxGP6DefaultValue checkBoxGP7DefaultValue checkBoxRemoteWakeUp
       checkBoxSPIBusCaptive
       ChipSettings.gp0 ChipSettings.gp1 ChipSettings.gp2 ChipSettings.gp3
       ChipSettings.gp4 ChipSettings.gp5 ChipSettings.gp6 ChipSettings.gp7
       ChipSettings.gp8 ChipSettings.gpdir ChipSettings.gpout
       ChipSettings.intmode ChipSettings.rmwakeup ChipSettings.nrelspi].
  rewrite R0, R1, R2, R3, R4, R5, R6, R7, D0, D1, D2, D3, D4, D5, D6, D7.
  fold (pack (negb (Z.land 128 gpdir =? 0)) (negb (Z.land 64 gpdir =? 0))
          (negb (Z.land 32 gpdir =? 0)) (negb (Z.land 16 gpdir =? 0))
          (negb (Z.land 8 gpdir =? 0)) (negb (Z.land 4 gpdir =? 0))
          (negb (Z.land 2 gpdir =? 0)) (negb (Z.land 1 gpdir =? 0))).
  fold (pack (negb (Z.land 128 gpout =? 0)) (negb (Z.land 64 gpout =? 0))
          (negb (Z.land 32 gpout =? 0)) (negb (Z.land 16 gpout =? 0))
          (negb (Z.land 8 gpout =? 0)) (negb (Z.land 4 gpout =? 0))
          (negb (Z.land 2 gpout =? 0)) (negb (Z.land 1 gpout =? 0))).
  rewrite !pack_masks by assumption.
  assert (E8 : quint8 (if setCurrentIndex count cbGP8
                             (if g8 =? MCP2210.PCGPIO then 0 else 1) =? 0
                       then MCP2210.PCGPIO else MCP2210.PCFUNC) = g8).
  { unfold setCurrentIndex, quint8. rewrite H0 in *.
    destruct (Z.eqb_spec g8 0) as [-> | Hne].
    - replace ((0 <=? 0) && (0 <? count cbGP8)) with true
        by (symmetry; apply andb_true_iff; split;
            [apply Z.leb_le | apply Z.ltb_lt]; lia).
      reflexivity.
    - replace ((0 <=? 1) && (1 <? count cbGP8)) with true
        by (symmetry; apply andb_true_iff; split;
            [apply Z.leb_le | apply Z.ltb_lt]; lia).
      cbn [Z.eqb]. destruct H8 as [-> | ->]; [congruence|].
      apply Z.mod_small. lia. }
  assert (Ei : quint8 (setCurrentIndex count cbInterruptMode im) = im).
  { unfold setCurrentIndex, quint8.
    replace ((0 <=? im) && (im <? count cbInterruptMode)) with true
      by (symmetry; apply andb_true_iff; split;
          [apply Z.leb_le | apply Z.ltb_lt]; lia).
    apply Z.mod_small. lia. }
  rewrite E8, Ei. reflexivity.
Qed.

(** X9.  After [on_lineEditManufacturer_textEdited] and after
    [on_lineEditProduct_textEdited] the field holds no line feed; its text
    is as long as the text edited, and a text without a line feed is kept as
    it is.  Nothing else of the window changes. *)
Theorem descriptors_hold_no_line_feed (text : QString.t) w :
  let m := on_lineEditManufacturer_textEdited text w in
  let p := on_lineEditProduct_textEdited w in
  (~ In QString.LF (lineEditManufacturer (ui m)) /\
   List.length (lineEditManufacturer (ui m)) = List.length text /\
   (~ In QString.LF text -> lineEditManufacturer (ui m) = text) /\
   lineEditProduct (ui m) = lineEditProduct (ui w) /\
   getEditedConfiguration toUShort m
   = set_editedConfiguration_ m
       (Configuration.mk (lineEditManufacturer (ui m))
          (Configuration.product
             (editedConfiguration_ (getEditedConfiguration toUShort w)))
          (Configuration.usbParameters
             (editedConfiguration_ (getEditedConfiguration toUShort w)))
          (Configuration.chipSettings
             (editedConfiguration_ (getEditedConfiguration toUShort w)))
          (Configuration.spiSettings
             (editedConfiguration_ (getEditedConfiguration toUShort w))))) /\
  (~ In QString.LF (lineEditProduct (ui p)) /\
   List.length (lineEditProduct (ui p)) = List.length (lineEditProduct (ui w)) /\
   (~ In QString.LF (lineEditProduct (ui w)) ->
    lineEditProduct (ui p) = lineEditProduct (ui w)) /\
   lineEditManufacturer (ui p) = lineEditManufacturer (ui w)).
Proof.
  assert (R : forall s,
             ~ In QString.LF (replaceChar QString.LF QString.SPACE s) /\
             List.length (replaceChar QString.LF QString.SPACE s) = List.length s /\
             (~ In QString.LF s -> replaceChar QString.LF QString.SPACE s = s)).
  { intros s. unfold replaceChar. split; [|split].
    - intros H. apply in_map_iff in H. destruct H as (c & Hc & _).
      destruct (N.eqb_spec c QString.LF); [discriminate | congruence].
    - apply length_map.
    - induction s as [|c s IH]; [reflexivity|]. intros H. simpl.
      destruct (N.eqb_spec c QString.LF) as [-> | _];
        [exfalso; apply H; now left|].
      f_equal. apply IH. intros H'. apply H. now right. }
  cbv zeta. split.
  - destruct (R text) as (R1 & R2 & R3).
    unfold on_lineEditManufacturer_textEdited, getEditedConfiguration.
    cbn. auto 10.
  - destruct (R (lineEditProduct (ui w))) as (R1 & R2 & R3).
    unfold on_lineEditProduct_textEdited. cbn. auto 10.
Qed.

End ChipSettingsForm.

(* ================================================================== *)
(** * More on the bit rate search *)

Section SearchFurther.

Context {Dev : Type} {mcp2210 : MCP2210.t Dev} {limits : MCP2210Limits.t}.
Implicit Type w : Window Dev.
Implicit Type s : @SearchState Dev.

(** Where the candidates come from: each is its initial value or a rate
    that a probe wrote and read back, on its side of the request; and a
    loop left without an error counted was left through its [break]. *)
Lemma searchLoop_provenance (current : SPISettings.t) (bitrate hi lo : Z)
    (fuel : nat) :
  forall s s',
    searchLoop fuel current bitrate s = Some s' ->
    (nearestGreaterOrEqualBitrate s = hi \/
     In (nearestGreaterOrEqualBitrate s, nearestGreaterOrEqualBitrate s) (probes s) /\
     bitrate <= nearestGreaterOrEqualBitrate s) ->
    (nearestLesserOrEqualBitrate s = lo \/
     In (nearestLesserOrEqualBitrate s, nearestLesserOrEqualBitrate s) (probes s) /\
     nearestLesserOrEqualBitrate s <= bitrate) ->
    (nearestGreaterOrEqualBitrate s' = hi \/
     In (nearestGreaterOrEqualBitrate s', nearestGreaterOrEqualBitrate s')
       (probes s') /\
     bitrate <= nearestGreaterOrEqualBitrate s') /\
    (nearestLesserOrEqualBitrate s' = lo \/
     In (nearestLesserOrEqualBitrate s', nearestLesserOrEqualBitrate s')
       (probes s') /\
     nearestLesserOrEqualBitrate s' <= bitrate) /\
    (errcnt (bus s') = 0 ->
     In (nearestLesserOrEqualBitrate s', nearestLesserOrEqualBitrate s')
       (probes s') /\
     nearestLesserOrEqualBitrate s' <= bitrate).
Proof.
  induction fuel as [|fuel IH]; intros s s' Hrun Hge Hle.
  - simpl in Hrun. destruct (Z.eqb_spec (errcnt (bus s)) 0); [discriminate|].
    injection Hrun as <-. tauto.
  - destruct (Z.eq_dec (errcnt (bus s)) 0) as [E | E].
    + rewrite searchLoop_turn in Hrun by exact E. cbv zeta in Hrun.
      set (p := probe (SPISettings.set_bitrate current (testBitrate s)) (bus s))
        in *.
      assert (Hold : forall x, In x (probes s) ->
                In x (probes s ++ [(testBitrate s, fst p)]))
        by (intros; apply in_or_app; now left).
      destruct (Z.eqb_spec (fst p) (testBitrate s)) as [Heq | Hne].
      * assert (Hnew : In (testBitrate s, testBitrate s)
                         (probes s ++ [(testBitrate s, fst p)]))
          by (apply in_or_app; right; left; congruence).
        assert (Hge' : (if bitrate <=? testBitrate s then testBitrate s
                        else nearestGreaterOrEqualBitrate s) = hi \/
                       In ((if bitrate <=? testBitrate s then testBitrate s
                            else nearestGreaterOrEqualBitrate s),
                           (if bitrate <=? testBitrate s then testBitrate s
                            else nearestGreaterOrEqualBitrate s))
                         (probes s ++ [(testBitrate s, fst p)]) /\
                       bitrate <= (if bitrate <=? testBitrate s then testBitrate s
                                   else nearestGreaterOrEqualBitrate s)).
        { destruct (Z.leb_spec bitrate (testBitrate s)); [right; auto|].
          destruct Hge as [? | (? & ?)]; [now left | right; auto]. }
        destruct (Z.leb_spec (testBitrate s) bitrate) as [L | L].
        -- injection Hrun as <-.
           cbn [nearestGreaterOrEqualBitrate nearestLesserOrEqualBitrate
                  probes bus].
           split; [exact Hge'|]. split; [right; auto | auto].
        -- apply IH in Hrun; [exact Hrun | exact Hge' |].
           cbn [nearestLesserOrEqualBitrate probes].
           destruct Hle as [? | (? & ?)]; [now left | right; auto].
      * apply IH in Hrun; [exact Hrun | |];
          cbn [nearestGreaterOrEqualBitrate nearestLesserOrEqualBitrate probes].
        -- destruct Hge as [? | (? & ?)]; [now left | right; auto].
        -- destruct Hle as [? | (? & ?)]; [now left | right; auto].
    + rewrite searchLoop_error in Hrun by exact E. injection Hrun as <-. tauto.
Qed.

(** X10.  On any channel, with or without errors, the value returned by the
    search is one of its two candidates; the candidate at or above the
    request is [BITRATE_MAX] or a rate at or above the request that a probe
    wrote and read back unchanged, the candidate at or below it is
    [BITRATE_MIN] or such a rate at or below the request; and when the loop
    was left without an error counted, the candidate at or below the
    request is a probed rate. *)
Theorem search_returns_limit_or_probed (fuel : nat) (bitrate : Z) w (f : Found) :
  getNearestCompatibleBitRate fuel bitrate w = Some f ->
  let ge := nearestGreaterOrEqualBitrate (search f) in
  let le := nearestLesserOrEqualBitrate (search f) in
  (retval f = ge \/ retval f = le) /\
  (ge = MCP2210Limits.BITRATE_MAX \/
   In (ge, ge) (probes (search f)) /\ bitrate <= ge) /\
  (le = MCP2210Limits.BITRATE_MIN \/
   In (le, le) (probes (search f)) /\ le <= bitrate) /\
  (errcnt (bus (search f)) = 0 ->
   In (le, le) (probes (search f)) /\ le <= bitrate).
Proof.
  intros Hrun ge le.
  pose proof (getNearestCompatibleBitRate_unfold fuel bitrate w) as U.
  cbv zeta in U. rewrite Hrun in U.
  destruct (searchLoop fuel _ bitrate _) as [s|] eqn:L; [|discriminate].
  injection U as ->. unfold ge, le. cbn [retval search].
  split.
  - destruct (_ <? _); [now left | now right].
  - apply (searchLoop_provenance _ _ MCP2210Limits.BITRATE_MAX
             MCP2210Limits.BITRATE_MIN _ _ _ L); now left.
Qed.

(** What the loop does to the device, it does through the two calls on the
    volatile SPI settings. *)
Lemma searchLoop_device (R : Dev -> Dev -> Prop) (current : SPISettings.t)
    (bitrate : Z) :
  (forall d, R d d) ->
  (forall a b c, R a b -> R b c -> R a c) ->
  (forall d, R d (after (MCP2210.getSPISettings d))) ->
  (forall x d, R d (after (MCP2210.configureSPISettings x d))) ->
  forall (fuel : nat) s s',
    searchLoop fuel current bitrate s = Some s' ->
    R (dev (bus s)) (dev (bus s')).
Proof.
  intros Hrefl Htrans Hget Hset.
  induction fuel as [|fuel IH]; intros s s' Hrun.
  - simpl in Hrun. destruct (errcnt (bus s) =? 0); [discriminate|].
    injection Hrun as <-. apply Hrefl.
  - destruct (Z.eq_dec (errcnt (bus s)) 0) as [E | E].
    + rewrite searchLoop_turn in Hrun by exact E. cbv zeta in Hrun.
      assert (P : R (dev (bus s))
                    (dev (snd (probe (SPISettings.set_bitrate current
                                        (testBitrate s)) (bus s))))).
      { unfold probe, bind, request, ret. cbn [snd dev].
        eapply Htrans; [apply Hset | apply Hget]. }
      destruct (_ =? testBitrate s) in Hrun;
        [destruct (testBitrate s <=? bitrate) in Hrun|];
        [injection Hrun as <-; exact P | |];
        apply IH in Hrun; eapply Htrans; eauto.
    + rewrite searchLoop_error in Hrun by exact E. injection Hrun as <-.
      apply Hrefl.
Qed.

(** X11.  The search leaves the window as it was but for the device, [err_]
    and [errmsg_], and never clears [err_]; and whatever relation between
    device states is kept by reading and by writing the volatile SPI
    settings (it is reflexive and transitive) holds between the device
    before and after the search, since these are the only calls the search
    makes. *)
Theorem search_leaves_the_rest (fuel : nat) (bitrate : Z) w (f : Found) :
  getNearestCompatibleBitRate fuel bitrate w = Some f ->
  sameButDevice w (window f) /\
  forall R : Dev -> Dev -> Prop,
    (forall d, R d d) ->
    (forall a b c, R a b -> R b c -> R a c) ->
    (forall d, R d (after (MCP2210.getSPISettings d))) ->
    (forall x d, R d (after (MCP2210.configureSPISettings x d))) ->
    R (mcp2210_ w) (mcp2210_ (window f)).
Proof.
  intros Hrun.
  pose proof (getNearestCompatibleBitRate_unfold fuel bitrate w) as U.
  cbv zeta in U. rewrite Hrun in U.
  destruct (searchLoop fuel _ bitrate _) as [s|] eqn:L; [|discriminate].
  injection U as ->. cbn [window].
  split; [apply validated_call|].
  intros R Hrefl Htrans Hget Hset.
  match goal with |- context [validateOperation ?o ?n ?e ?x] =>
    destruct (validateOperation_frame o n e x) as (F1 & _) end.
  rewrite F1. cbn [set_mcp2210_ mcp2210_].
  apply (searchLoop_device R _ _ Hrefl Htrans Hget Hset) in L.
  cbn [bus dev] in L.
  eapply Htrans; [apply Hget|]. eapply Htrans; [exact L | apply Hset].
Qed.

End SearchFurther.

(* ================================================================== *)
(** * The search depends on the request only *)

Section SearchOnFloorChannel.

Context {Dev : Type} {mcp2210 : MCP2210.t Dev} {limits : MCP2210Limits.t}.
Variable divider : Z -> Z.
Variable Inv : Dev -> Prop.
Hypothesis channel : FloorChannel divider Inv.
Implicit Type w : Window Dev.

(** A request that was itself achieved is returned, whatever the other
    candidate. *)
Lemma chosen_at_request (bitrate ge : Z) : chosen bitrate ge bitrate = bitrate.
Proof.
  unfold chosen. rewrite Z.sub_diag.
  assert (0 <= quint32 (ge - bitrate))
    by (unfold quint32; apply Z.mod_pos_bound; lia).
  change (quint32 0) with 0.
  destruct (Z.ltb_spec (quint32 (ge - bitrate)) 0); [lia | reflexivity].
Qed.

(** Two loops left through the [break] for the same request hold candidates
    that give the same choice. *)
Lemma arrived_agree (bitrate start bound : Z) (s1 s2 : @SearchState Dev) :
  arrived divider bitrate start bound s1 ->
  arrived divider bitrate start bound s2 ->
  chosen bitrate (nearestGreaterOrEqualBitrate s1) (nearestLesserOrEqualBitrate s1)
  = chosen bitrate (nearestGreaterOrEqualBitrate s2)
      (nearestLesserOrEqualBitrate s2).
Proof.
  unfold arrived, bracket. cbv zeta.
  generalize (nearestGreaterOrEqualBitrate s1), (nearestLesserOrEqualBitrate s1),
    (nearestGreaterOrEqualBitrate s2), (nearestLesserOrEqualBitrate s2).
  intros ge1 le1 ge2 le2 (A1 & B1 & _ & C1 & D1) (A2 & B2 & _ & C2 & D2).
  assert (le1 = le2) as <-.
  { pose proof (C1 le2 ltac:(lia) A2 ltac:(lia)).
    pose proof (C2 le1 ltac:(lia) A1 ltac:(lia)). lia. }
  destruct D1 as [(-> & N1) | (G1 & R1 & _ & N1)];
    destruct D2 as [(-> & N2) | (G2 & R2 & _ & N2)].
  - reflexivity.
  - assert (ge2 <= le1)
      by (destruct (Z_le_gt_dec ge2 le1); [assumption|];
          exfalso; apply (N1 ge2 G2); lia).
    replace le1 with bitrate by lia. now rewrite !chosen_at_request.
  - assert (ge1 <= le1)
      by (destruct (Z_le_gt_dec ge1 le1); [assumption|];
          exfalso; apply (N2 ge1 G1); lia).
    replace le1 with bitrate by lia. now rewrite !chosen_at_request.
  - destruct (Z_le_gt_dec ge1 le1);
      [replace le1 with bitrate by lia; now rewrite !chosen_at_request|].
    destruct (Z_le_gt_dec ge2 le1);
      [replace le1 with bitrate by lia; now rewrite !chosen_at_request|].
    assert (ge1 = ge2); [|congruence].
    destruct (Z.lt_trichotomy ge1 ge2) as [L | [E | L]]; [|exact E|].
    + exfalso. apply (N2 ge1 G1). lia.
    + exfalso. apply (N1 ge2 G2). lia.
Qed.

(** With more fuel than four times the request, the search on a
    rounding-down channel returns, having left its loop through the
    [break]. *)
Lemma search_arrives (bitrate : Z) w (fuel : nat) :
  Inv (mcp2210_ w) ->
  0 <= bitrate < 2 ^ 30 ->
  (Z.to_nat (4 * bitrate) < fuel)%nat ->
  exists f,
    getNearestCompatibleBitRate fuel bitrate w = Some f /\
    retval f = chosen bitrate (nearestGreaterOrEqualBitrate (search f))
                 (nearestLesserOrEqualBitrate (search f)) /\
    arrived divider bitrate (4 * bitrate) MCP2210Limits.BITRATE_MAX (search f).
Proof.
  intros Hinv Hb Hfuel.
  rewrite getNearestCompatibleBitRate_unfold. cbv zeta.
  destruct (read_clean _ _ channel _ Hinv) as (R1 & R2).
  set (first := MCP2210.getSPISettings (mcp2210_ w)) in *.
  rewrite R1. cbn [Z.of_N].
  assert (Hstart : quint32 (4 * bitrate) = 4 * bitrate)
    by (unfold quint32; apply Z.mod_small; lia).
  rewrite Hstart.
  destruct (searchLoop_descends divider Inv channel (value first) bitrate
              (4 * bitrate) MCP2210Limits.BITRATE_MAX ltac:(lia) ltac:(lia) fuel
              (mkSearch (mkBus (after first) 0 (text first)) (4 * bitrate)
                 MCP2210Limits.BITRATE_MAX MCP2210Limits.BITRATE_MIN []))
    as (s' & Hrun & _ & _ & Harr).
  { exact Hfuel. }
  { reflexivity. }
  { exact R2. }
  { unfold descending, bracket. cbn [testBitrate nearestGreaterOrEqualBitrate].
    split; [lia|]. split; [intros; lia|]. left. split; [reflexivity | intros; lia]. }
  rewrite Hrun. eexists. split; [reflexivity|]. cbn [retval search].
  split; [reflexivity | exact Harr].
Qed.

(** X12.  On a channel that rounds down and reports no error, the value
    returned depends on the request only: two searches for the same bit
    rate below [2^30], each with more fuel than four times the request,
    both return, and return the same value, whatever the settings the two
    devices held before and however much fuel each was given. *)
Theorem search_depends_on_request_only (bitrate : Z) (w1 w2 : Window Dev)
    (fuel1 fuel2 : nat) :
  Inv (mcp2210_ w1) -> Inv (mcp2210_ w2) ->
  0 <= bitrate < 2 ^ 30 ->
  (Z.to_nat (4 * bitrate) < fuel1)%nat ->
  (Z.to_nat (4 * bitrate) < fuel2)%nat ->
  exists f1 f2,
    getNearestCompatibleBitRate fuel1 bitrate w1 = Some f1 /\
    getNearestCompatibleBitRate fuel2 bitrate w2 = Some f2 /\
    retval f1 = retval f2.
Proof.
  intros I1 I2 Hb F1 F2.
  destruct (search_arrives bitrate w1 fuel1 I1 Hb F1) as (f1 & R1 & V1 & A1).
  destruct (search_arrives bitrate w2 fuel2 I2 Hb F2) as (f2 & R2 & V2 & A2).
  exists f1, f2. split; [exact R1|]. split; [exact R2|].
  rewrite V1, V2. exact (arrived_agree _ _ _ _ _ A1 A2).
Qed.

End SearchOnFloorChannel.

(* ================================================================== *)
(** * Edits of the SPI settings *)

Section SPIEdits.

Context {Dev : Type} {mcp2210 : MCP2210.t Dev}.
Variable displayConfiguration : Z -> Configuration.t -> Ui -> Ui.
Implicit Type w : Window Dev.

(** The task list for an edit of the SPI settings alone. *)
Lemma prepareTaskList_spi_only w :
  Configuration.manufacturer (editedConfiguration_ w)
  = Configuration.manufacturer (deviceConfiguration_ w) ->
  Configuration.product (editedConfiguration_ w)
  = Configuration.product (deviceConfiguration_ w) ->
  Configuration.usbParameters (editedConfiguration_ w)
  = Configuration.usbParameters (deviceConfiguration_ w) ->
  Configuration.chipSettings (editedConfiguration_ w)
  = Configuration.chipSettings (deviceConfiguration_ w) ->
  Configuration.spiSettings (editedConfiguration_ w)
  <> Configuration.spiSettings (deviceConfiguration_ w) ->
  prepareTaskList w
  = "verifyConfiguration"%string ::
    (if checkBoxApplyImmediately (ui w) then ["applySPISettings"%string] else []).
Proof.
  intros Hm Hp Hu Hc Hs.
  rewrite prepareTaskList_flags. cbv zeta. rewrite Hm, Hp, Hu, Hc.
  replace (QString.eqb (Configuration.manufacturer (deviceConfiguration_ w))
             (Configuration.manufacturer (deviceConfiguration_ w))) with true
    by (symmetry; now apply QString_eqb_eq).
  replace (QString.eqb (Configuration.product (deviceConfiguration_ w))
             (Configuration.product (deviceConfiguration_ w))) with true
    by (symmetry; now apply QString_eqb_eq).
  replace (USBParameters.eqb (Configuration.usbParameters (deviceConfiguration_ w))
             (Configuration.usbParameters (deviceConfiguration_ w))) with true
    by (symmetry; now apply USBParameters_eqb_eq).
  replace (ChipSettings.eqb (Configuration.chipSettings (deviceConfiguration_ w))
             (Configuration.chipSettings (deviceConfiguration_ w))) with true
    by (symmetry; now apply ChipSettings_eqb_eq).
  replace (SPISettings.eqb (Configuration.spiSettings (editedConfiguration_ w))
             (Configuration.spiSettings (deviceConfiguration_ w))) with false
    by (symmetry; apply not_true_iff_false; intros E;
        apply SPISettings_eqb_eq in E; contradiction).
  unfold buildTaskList. cbn [negb andb app].
  rewrite andb_false_r, andb_true_r.
  now destruct (checkBoxApplyImmediately (ui w)).
Qed.

(** A verification that reads, without error, another configuration than the
    edited one fails with its own message. *)
Lemma verifyConfiguration_mismatch w :
  err_ w = false ->
  errcnt (snd (calls readAll w)) = 0 ->
  fst (fst (calls readAll w)) <> editedConfiguration_ w ->
  err_ (verifyConfiguration displayConfiguration w) = true /\
  errmsg_ (verifyConfiguration displayConfiguration w) = msgFailedVerification.
Proof.
  intros He Hclean Hne.
  pose proof (readDeviceConfiguration_fields w) as F. cbv zeta in F.
  destruct F as (F1 & _ & _ & F4 & F5).
  rewrite He, Hclean, orb_false_r in F5. change (0 <? 0) with false in F5.
  unfold verifyConfiguration. cbv zeta.
  revert F1 F4 F5 Hne.
  generalize (fst (fst (calls readAll w))) (readDeviceConfiguration w).
  intros cfg [d1 e1 m1 dc1 ec1 a1 v1 u1 ds1].
  cbn [deviceConfiguration_ editedConfiguration_ err_].
  intros -> -> -> Hne. cbn [negb].
  unfold set_ui, set_err_, set_errmsg_.
  cbn [deviceConfiguration_ editedConfiguration_ err_ mcp2210_ ui accessMode_
         errmsg_ viewEnabled_ dialogs].
  destruct (Configuration.eqb cfg (editedConfiguration_ w)) eqn:E.
  - apply Configuration_eqb_eq in E. contradiction.
  - cbn [negb err_ errmsg_]. split; reflexivity.
Qed.

(** The loop on a list that begins with the verification. *)
Lemma configureLoop_verify_first (rest : list string) w :
  configureLoop displayConfiguration ("verifyConfiguration"%string :: rest) w
  = if err_ (verifyConfiguration displayConfiguration w)
    then verifyConfiguration displayConfiguration w
    else configureLoop displayConfiguration rest
           (verifyConfiguration displayConfiguration w).
Proof. reflexivity. Qed.

Lemma handleError_dialogs w :
  dialogs (handleError w)
  = dialogs w ++ [mkDialog Critical (QString.lit "Error") (errmsg_ w)].
Proof.
  unfold handleError.
  destruct (MCP2210.disconnected (mcp2210_ w) || negb (MCP2210.isOpen (mcp2210_ w)));
    reflexivity.
Qed.

Lemma messageBox_fields w (i : Icon) (t m : QString.t) :
  err_ (messageBox w i t m) = err_ w /\
  mcp2210_ (messageBox w i t m) = mcp2210_ w /\
  dialogs (messageBox w i t m) = dialogs w ++ [mkDialog i t m].
Proof. repeat split; reflexivity. Qed.

Lemma set_err_fields w (b : bool) :
  editedConfiguration_ (set_err_ w b) = editedConfiguration_ w /\
  deviceConfiguration_ (set_err_ w b) = deviceConfiguration_ w /\
  ui (set_err_ w b) = ui w /\ dialogs (set_err_ w b) = dialogs w /\
  calls readAll (set_err_ w b) = calls readAll w /\
  err_ (set_err_ w b) = b.
Proof. repeat split; reflexivity. Qed.

(** A failed verification at the head of the prepared list ends the
    routine. *)
Lemma configureDevice_verify_fails w (rest : list string) :
  prepareTaskList (set_err_ w false) = "verifyConfiguration"%string :: rest ->
  err_ (verifyConfiguration displayConfiguration (set_err_ w false)) = true ->
  configureDevice displayConfiguration w
  = messageBox (handleError
                  (verifyConfiguration displayConfiguration (set_err_ w false)))
      Critical (QString.lit "Error") msgNotCompleted.
Proof.
  intros L Ev.
  assert (Hloop : configureLoop displayConfiguration
                    (prepareTaskList (set_err_ w false)) (set_err_ w false)
                  = verifyConfiguration displayConfiguration (set_err_ w false))
    by (rewrite L, configureLoop_verify_first, Ev; reflexivity).
  pose proof (configureDevice_failure displayConfiguration w) as F.
  rewrite Hloop in F. exact (F Ev).
Qed.

(** X13.  An edit of the SPI settings alone is never written: the task list
    is the verification, followed by [applySPISettings] when the box is
    checked, and names no write.  The routine can then end without error
    only if the six reads are clean and the NVRAM already holds the edited
    configuration; otherwise it fails without applying the SPI settings,
    the device being left as the reads leave it (or closed); and on a
    device whose NVRAM holds the stored device configuration the message is
    the one of the failed verification. *)
Theorem spi_edit_alone_is_not_written w :
  Configuration.manufacturer (editedConfiguration_ w)
  = Configuration.manufacturer (deviceConfiguration_ w) ->
  Configuration.product (editedConfiguration_ w)
  = Configuration.product (deviceConfiguration_ w) ->
  Configuration.usbParameters (editedConfiguration_ w)
  = Configuration.usbParameters (deviceConfiguration_ w) ->
  Configuration.chipSettings (editedConfiguration_ w)
  = Configuration.chipSettings (deviceConfiguration_ w) ->
  Configuration.spiSettings (editedConfiguration_ w)
  <> Configuration.spiSettings (deviceConfiguration_ w) ->
  let read := snd (calls readAll w) in
  let cfg := fst (fst (calls readAll w)) in
  let w' := configureDevice displayConfiguration w in
  prepareTaskList (set_err_ w false)
  = "verifyConfiguration"%string ::
    (if checkBoxApplyImmediately (ui w) then ["applySPISettings"%string] else []) /\
  (err_ w' = false -> errcnt read = 0 /\ cfg = editedConfiguration_ w) /\
  (~ (errcnt read = 0 /\ cfg = editedConfiguration_ w) ->
   err_ w' = true /\
   (mcp2210_ w' = dev read \/ mcp2210_ w' = MCP2210.close (dev read))) /\
  (errcnt read = 0 -> cfg = deviceConfiguration_ w ->
   err_ w' = true /\
   dialogs w'
   = dialogs w ++
     [mkDialog Critical (QString.lit "Error") msgFailedVerification;
      mkDialog Critical (QString.lit "Error") msgNotCompleted]).
Proof.
  intros Hm Hp Hu Hc Hs. cbv zeta.
  destruct (set_err_fields w false) as (S1 & S2 & S3 & S4 & S5 & S6).
  assert (L : prepareTaskList (set_err_ w false)
              = "verifyConfiguration"%string ::
                (if checkBoxApplyImmediately (ui w)
                 then ["applySPISettings"%string] else [])).
  { rewrite <- S3. apply prepareTaskList_spi_only; rewrite S1, S2; assumption. }
  split; [exact L|].
  destruct (verifyConfiguration_reads displayConfiguration (set_err_ w false) S6)
    as (V1 & V2).
  pose proof (verifyConfiguration_mismatch (set_err_ w false) S6) as V3.
  destruct (verifyConfiguration_frame displayConfiguration (set_err_ w false))
    as (_ & G2 & _).
  cbv zeta in G2.
  rewrite S5 in V1, V2, V3. rewrite S1 in V2, V3. rewrite S4 in G2.
  pose proof (configureDevice_verify_fails w _ L) as F.
  pose proof (handleError_device
                (verifyConfiguration displayConfiguration (set_err_ w false))) as H.
  pose proof (handleError_dialogs
                (verifyConfiguration displayConfiguration (set_err_ w false))) as D.
  clear L S1 S2 S3 S4 S5 S6.
  revert F H D V1 V2 V3 G2.
  generalize (verifyConfiguration displayConfiguration (set_err_ w false)).
  generalize (configureDevice displayConfiguration w).
  intros w' v F H D V1 V2 V3 G2.
  assert (Fail : ~ (errcnt (snd (calls readAll w)) = 0 /\
                    fst (fst (calls readAll w)) = editedConfiguration_ w) ->
                 err_ v = true).
  { intros N. destruct (err_ v); [reflexivity|].
    exfalso. apply N, V2. reflexivity. }
  assert (Failed : err_ v = true ->
                   err_ w' = true /\
                   mcp2210_ w' = mcp2210_ (handleError v) /\
                   dialogs w'
                   = dialogs (handleError v) ++
                     [mkDialog Critical (QString.lit "Error") msgNotCompleted]).
  { intros Ev. rewrite (F Ev).
    destruct (messageBox_fields (handleError v) Critical (QString.lit "Error")
                msgNotCompleted) as (M0 & M1 & M2).
    split; [rewrite M0, handleError_err; exact Ev|].
    split; [exact M1 | exact M2]. }
  clear F.
  split; [|split].
  - intros Hok. apply V2. destruct (err_ v) eqn:Ev; [|reflexivity].
    destruct (Failed eq_refl) as (K & _). rewrite K in Hok. discriminate Hok.
  - intros N. destruct (Failed (Fail N)) as (K1 & K2 & _).
    split; [exact K1|]. rewrite K2, <- V1. exact H.
  - intros Hclean Hsync.
    assert (N : fst (fst (calls readAll w)) <> editedConfiguration_ w).
    { rewrite Hsync. intros Heq. apply Hs. now rewrite Heq. }
    destruct (V3 Hclean N) as (Ev & Mv).
    destruct (Failed Ev) as (K1 & _ & K3).
    split; [exact K1|].
    rewrite K3, D, Mv, G2, <- app_assoc. reflexivity.
Qed.

End SPIEdits.

(* ================================================================== *)
(** * Further runs on the simulated device *)

Section FurtherRuns.

Ltac evaluate :=
  vm_compute;
  repeat match goal with
         | |- _ /\ _ => split
         | |- _ = _ => reflexivity
         | |- _ \/ _ => first [left; reflexivity | right; reflexivity]
         | |- _ -> False => let H := fresh in intros H; discriminate H
         | |- _ -> _ -> False =>
             let H := fresh in
             let K := fresh in
             intros H K; first [discriminate K | exact (H eq_refl)]
         end.

(** X2 applies to a window whose edited product descriptor differs from the
    one in the NVRAM of a device without faults. *)
Lemma configureDevice_synchronises_witness :
  let w := set_editedConfiguration_
             (Sim.windowOn (Sim.fresh []) Sim.factory) Sim.renamed in
  let w' := configureDevice (mcp2210 := Sim.device Sim.upToMax) Sim.noDisplay w in
  deviceConfiguration_ w' = editedConfiguration_ w' /\
  editedConfiguration_ w' = Sim.renamed /\
  prepareTaskList w' = ["verifyConfiguration"%string].
Proof.
  intros w w'.
  apply (@configureDevice_synchronises Sim.t (Sim.device Sim.upToMax)
           Sim.noDisplay w).
  vm_compute. reflexivity.
Defined.

(** X4 applies to a window that has just read the factory configuration. *)
Lemma configureDevice_unchanged_only_reads_witness :
  let w := Sim.windowOn (Sim.fresh []) Sim.factory in
  let read := snd (calls (readAll (mcp2210 := Sim.device Sim.upToMax)) w) in
  let w' := configureDevice (mcp2210 := Sim.device Sim.upToMax) Sim.noDisplay w in
  (mcp2210_ w' = dev read \/
   mcp2210_ w' = MCP2210.close (t := Sim.device Sim.upToMax) (dev read)) /\
  (err_ w' = false -> mcp2210_ w' = dev read) /\
  (err_ w' = false <->
   errcnt read = 0 /\
   fst (fst (calls (readAll (mcp2210 := Sim.device Sim.upToMax)) w))
   = editedConfiguration_ w).
Proof.
  intros w.
  apply (@configureDevice_unchanged_only_reads Sim.t (Sim.device Sim.upToMax)
           Sim.noDisplay w).
  reflexivity.
Defined.

(** X8 applies to chip settings with GP0 a chip select, GP2 and GP8 with
    their dedicated functions and the other pins inputs or outputs. *)
Lemma shown_chip_settings_are_read_back_witness :
  let c := ChipSettings.mk 1 0 2 0 0 0 0 0 2 5 3 true 4 false in
  let w := Sim.windowOn (Sim.fresh []) Sim.factory in
  Configuration.chipSettings
    (editedConfiguration_
       (getEditedConfiguration (mcp2210 := Sim.device Sim.upToMax)
          (fun _ dflt => dflt)
          (set_ui w (displayChipSettings (mcp2210 := Sim.device Sim.upToMax)
                       simCount c (ui w))))) = c.
Proof.
  intros c w.
  apply (@shown_chip_settings_are_read_back Sim.t (Sim.device Sim.upToMax)
           (fun _ dflt => dflt) simCount c w).
  unfold displayable, pinShown. evaluate.
Defined.

(** X10 applies to a request of 2500 Hz on the channel whose achievable
    rates are the multiples of 1000 up to [BITRATE_MAX]: the search returns
    2000, a rate that a probe wrote and read back. *)
Lemma search_returns_limit_or_probed_witness :
  let w := Sim.windowOn (Sim.fresh []) Sim.factory in
  exists f,
    getNearestCompatibleBitRate (mcp2210 := Sim.device Sim.upToMax)
      (limits := Sim.limits) 20 2500 w = Some f /\
    let ge := nearestGreaterOrEqualBitrate (search f) in
    let le := nearestLesserOrEqualBitrate (search f) in
    (retval f = ge \/ retval f = le) /\
    (ge = 12000000 \/ In (ge, ge) (probes (search f)) /\ 2500 <= ge) /\
    (le = 1464 \/ In (le, le) (probes (search f)) /\ le <= 2500) /\
    (errcnt (bus (search f)) = 0 ->
     In (le, le) (probes (search f)) /\ le <= 2500).
Proof.
  intros w. eexists. split; [vm_compute; reflexivity|].
  match goal with |- context [retval ?f] =>
    exact (@search_returns_limit_or_probed Sim.t (Sim.device Sim.upToMax)
             Sim.limits 20 2500 w f eq_refl) end.
Defined.

(** The simulated device keeps its NVRAM through the two calls on the
    volatile SPI settings. *)
Lemma Sim_reads_keep_nvram {A} (g : Sim.t -> A) (dflt : A) (d : Sim.t) :
  Sim.nvram (after (Sim.reads g dflt d)) = Sim.nvram d.
Proof. unfold Sim.reads. now destruct (Sim.fails d). Qed.

Lemma Sim_volatile_keeps_nvram (x : SPISettings.t) (d : Sim.t) :
  Sim.nvram (after (Sim.writes (Sim.setVolatileSPI x) d)) = Sim.nvram d.
Proof. unfold Sim.writes. now destruct (Sim.fails d). Qed.

(** X11 applies to a search in which the read-back of the second probe
    fails: the NVRAM of the device is as before. *)
Lemma search_leaves_the_rest_witness :
  let w := Sim.windowOn (Sim.fresh [false; false; false; false; true])
             Sim.factory in
  exists f,
    getNearestCompatibleBitRate (mcp2210 := Sim.device Sim.upToMax)
      (limits := Sim.limits) 20 2500 w = Some f /\
    sameButDevice w (window f) /\
    Sim.nvram (mcp2210_ w) = Sim.nvram (mcp2210_ (window f)).
Proof.
  intros w. eexists. split; [vm_compute; reflexivity|].
  match goal with |- sameButDevice _ (window ?f) /\ _ =>
    destruct (@search_leaves_the_rest Sim.t (Sim.device Sim.upToMax)
                Sim.limits 20 2500 w f eq_refl) as (H1 & H2) end.
  split; [exact H1|].
  apply (H2 (fun a b => Sim.nvram a = Sim.nvram b)).
  - reflexivity.
  - intros a b c Hab Hbc. now rewrite Hab.
  - intros d. symmetry. apply Sim_reads_keep_nvram.
  - intros x d. symmetry. apply Sim_volatile_keeps_nvram.
Defined.

(** X12 applies to two devices without faults that hold different volatile
    SPI settings, searched with different amounts of fuel. *)
Lemma search_depends_on_request_only_witness :
  let w1 := Sim.windowOn (Sim.fresh []) Sim.factory in
  let w2 := Sim.windowOn
              (Sim.setVolatileSPI (SPISettings.mk 1 3000 3 0 255 1 2 3)
                 (Sim.fresh []))
              Sim.renamed in
  exists f1 f2,
    getNearestCompatibleBitRate (mcp2210 := Sim.device Sim.upToMax)
      (limits := Sim.limits) (Z.to_nat 10001) 2500 w1 = Some f1 /\
    getNearestCompatibleBitRate (mcp2210 := Sim.device Sim.upToMax)
      (limits := Sim.limits) (Z.to_nat 20000) 2500 w2 = Some f2 /\
    retval f1 = retval f2.
Proof.
  intros w1 w2.
  apply (@search_depends_on_request_only Sim.t (Sim.device Sim.upToMax)
           Sim.limits Sim.upToMax Sim.healthy
           (Sim_rounds_down 1000 12000000 ltac:(lia) ltac:(lia)) 2500 w1 w2).
  - split; reflexivity.
  - split; reflexivity.
  - lia.
  - lia.
  - lia.
Defined.

(** X13 applies to a window whose edited SPI settings ask for 2 MHz instead
    of the 1 MHz of the NVRAM, everything else being as read. *)
Lemma spi_edit_alone_is_not_written_witness :
  let e := Configuration.mk (Configuration.manufacturer Sim.factory)
             (Configuration.product Sim.factory)
             (Configuration.usbParameters Sim.factory)
             (Configuration.chipSettings Sim.factory)
             (SPISettings.mk 4 2000000 0 255 255 0 0 0) in
  let w := set_editedConfiguration_
             (Sim.windowOn (Sim.fresh []) Sim.factory) e in
  let w' := configureDevice (mcp2210 := Sim.device Sim.upToMax) Sim.noDisplay w in
  err_ w' = true /\
  dialogs w'
  = [mkDialog Critical (QString.lit "Error") msgFailedVerification;
     mkDialog Critical (QString.lit "Error") msgNotCompleted].
Proof.
  intros e w w'.
  assert (Hs : Configuration.spiSettings (editedConfiguration_ w)
               <> Configuration.spiSettings (deviceConfiguration_ w))
    by (vm_compute; intros H; discriminate H).
  pose proof (@spi_edit_alone_is_not_written Sim.t (Sim.device Sim.upToMax)
                Sim.noDisplay w eq_refl eq_refl eq_refl eq_refl Hs) as H.
  cbv zeta in H. destruct H as (_ & _ & _ & H).
  apply H; reflexivity.
Defined.

End FurtherRuns.
